(** * cs-nades: accounts, bookmarks, submission intake and moderation

    A shallow embedding of the request handlers of the cs-nades site
    (login, bookmark toggle, submission intake, the two report endpoints,
    admin review) and of the nade list (map order, cache, display
    shuffle), with the properties the specification states about them
    and further ones the code shows.

    Conventions.
    - A JavaScript string is a Rocq [string]; each character stands for one
      code unit below 256.
    - A JavaScript number that holds an integer is a [Z]; the places where
      the source computes in double precision round explicitly
      ([JS.roundToDouble]).
    - The relational store is a record of finite maps, the staging area a
      finite map from normalised absolute paths to nodes.
    - A handler is a function from the request and the state before to an
      [outcome] and the state after. *)

From Stdlib Require Import ZArith Lia List Ascii String.
From stdpp Require Import base option list gmap strings pretty sorting.

Local Open Scope string_scope.
Local Open Scope Z_scope.

(** ** JavaScript values and the string operations the handlers use *)

Module JS.

(** WhiteSpace and LineTerminator code units below 256, as removed by
    [String.prototype.trim]: TAB, LF, VT, FF, CR, SP, NBSP. *)
Definition isWhiteSpace (c : ascii) : bool :=
  let n := nat_of_ascii c in
  ((9 <=? n)%nat && (n <=? 13)%nat) || (n =? 32)%nat || (n =? 160)%nat.

Fixpoint trimStart (s : string) : string :=
  match s with
  | EmptyString => EmptyString
  | String c s' => if isWhiteSpace c then trimStart s' else s
  end.

Fixpoint trimEnd (s : string) : string :=
  match s with
  | EmptyString => EmptyString
  | String c s' =>
      match trimEnd s' with
      | EmptyString => if isWhiteSpace c then EmptyString else String c EmptyString
      | t => String c t
      end
  end.

(** [s.trim()] *)
Definition trim (s : string) : string := trimEnd (trimStart s).

(** Lower-case mapping of one code unit below 256: A-Z, and the Latin-1
    capitals U+00C0..U+00DE except the multiplication sign U+00D7. *)
Definition lowerChar (c : ascii) : ascii :=
  let n := nat_of_ascii c in
  if ((65 <=? n)%nat && (n <=? 90)%nat)
     || ((192 <=? n)%nat && (n <=? 222)%nat && negb (n =? 215)%nat)
  then ascii_of_nat (n + 32) else c.

(** [s.toLowerCase()] *)
Fixpoint toLowerCase (s : string) : string :=
  match s with
  | EmptyString => EmptyString
  | String c s' => String (lowerChar c) (toLowerCase s')
  end.

(** [s.startsWith(p)] is [String.prefix p s]. *)

(** UTF-8 encoding of a string of code units below 256, as performed by
    [hash.update(string)]. *)
Fixpoint utf8 (s : string) : list Z :=
  match s with
  | EmptyString => []
  | String c s' =>
      let n := Z.of_nat (nat_of_ascii c) in
      if n <? 128 then n :: utf8 s'
      else Z.lor 192 (Z.shiftr n 6) :: Z.lor 128 (Z.land n 63) :: utf8 s'
  end.

(** The values [request.json()] can put in a scalar field.  [JNull] also
    stands for an absent field ([undefined]); both are falsy and neither
    reaches the store.  Arrays and objects are not modelled. *)
Inductive value : Type :=
  | JNull
  | JBool (b : bool)
  | JNum (n : Z)
  | JStr (s : string).

(** ToBoolean *)
Definition truthy (v : value) : bool :=
  match v with
  | JNull => false
  | JBool b => b
  | JNum n => negb (n =? 0)
  | JStr s => negb (String.eqb s "")
  end.

(** [String(v)].  An integer prints in decimal.  This is what JavaScript
    does for the integers below 2^53 in magnitude, which a number holds
    exactly; beyond them it prints the shortest digits that read back as
    the same number, in exponent notation from 10^21 on, and that is not
    modelled.  The properties that depend on the print of a number are
    stated for integers below 2^53. *)
Definition toString (v : value) : string :=
  match v with
  | JNull => "null"
  | JBool true => "true"
  | JBool false => "false"
  | JNum n => pretty n
  | JStr s => s
  end.

(** *** Double-precision arithmetic on integers

    Every integer below 2^53 in magnitude is a double; a larger one is
    rounded to 53 significant bits, to nearest, ties to even.  A magnitude
    of 2^1024 or more stands for an infinity. *)
Definition roundToDouble (z : Z) : Z :=
  let a := Z.abs z in
  let e := Z.log2 a - 52 in
  if e <=? 0 then z
  else
    let q := Z.shiftr a e in
    let r := Z.land a (Z.ones e) in
    let half := Z.shiftl 1 (e - 1) in
    let q' := if r <? half then q
              else if half <? r then q + 1
              else if Z.even q then q else q + 1 in
    Z.sgn z * Z.shiftl q' e.

(** [x * y] and [x + y] on numbers *)
Definition mul (x y : Z) : Z := roundToDouble (x * y).
Definition add (x y : Z) : Z := roundToDouble (x + y).

(** [x & m] for a mask [0 <= m < 2^31]: ToInt32 keeps [x] modulo 2^32 (an
    infinity becomes 0), and the mask then selects bits of that. *)
Definition band (x m : Z) : Z :=
  if 2 ^ 1024 <=? Z.abs x then 0 else Z.land x m.

(** [[l[i], l[j]] = [l[j], l[i]]] with both indices in range (the shuffle
    never leaves the range). *)
Definition swap {T : Type} (l : list T) (i j : nat) : list T :=
  match l !! i, l !! j with
  | Some x, Some y => <[j := x]> (<[i := y]> l)
  | _, _ => l
  end.

End JS.

(** ** SHA-256 (FIPS 180-4), the digest behind [createHash('sha256')] *)

Module Sha256.

Definition w32 (x : Z) : Z := x mod 2 ^ 32.
Definition rotr (n x : Z) : Z := Z.lor (Z.shiftr x n) (w32 (Z.shiftl x (32 - n))).
Definition Ch (x y z : Z) : Z := Z.lxor (Z.land x y) (Z.land (Z.lxor x (Z.ones 32)) z).
Definition Maj (x y z : Z) : Z := Z.lxor (Z.lxor (Z.land x y) (Z.land x z)) (Z.land y z).
Definition bigSigma0 (x : Z) : Z := Z.lxor (Z.lxor (rotr 2 x) (rotr 13 x)) (rotr 22 x).
Definition bigSigma1 (x : Z) : Z := Z.lxor (Z.lxor (rotr 6 x) (rotr 11 x)) (rotr 25 x).
Definition smallSigma0 (x : Z) : Z := Z.lxor (Z.lxor (rotr 7 x) (rotr 18 x)) (Z.shiftr x 3).
Definition smallSigma1 (x : Z) : Z := Z.lxor (Z.lxor (rotr 17 x) (rotr 19 x)) (Z.shiftr x 10).

Definition isPrime (n : nat) : bool :=
  (2 <=? n)%nat && forallb (fun d => negb (n mod d =? 0)%nat) (seq 2 (n - 2)).

(** The first sixty-four primes, 2 .. 311. *)
Definition primes64 : list Z :=
  Eval vm_compute in map Z.of_nat (filter (fun n => isPrime n) (seq 2 310)).

(** Integer cube root by bits, for arguments below 2^105. *)
Definition cbrt (n : Z) : Z :=
  fold_left (fun r b => let r' := r + 2 ^ Z.of_nat b in
                        if r' * r' * r' <=? n then r' else r)
            (rev (seq 0 35)) 0.

(** Round constants: the first 32 bits of the fractional parts of the cube
    roots of the primes (0x428a2f98, 0x71374491, ..., 0xc67178f2). *)
Definition K : list Z :=
  Eval vm_compute in map (fun p => w32 (cbrt (p * 2 ^ 96))) primes64.

(** The eight working words. *)
Record words : Type :=
  Words { wa : Z; wb : Z; wc : Z; wd : Z; we : Z; wf : Z; wg : Z; wh : Z }.

(** Initial hash value: the first 32 bits of the fractional parts of the
    square roots of the first eight primes (0x6a09e667, ..., 0x5be0cd19). *)
Definition H0 : words :=
  Eval vm_compute in
    match map (fun p => w32 (Z.sqrt (p * 2 ^ 64))) (take 8 primes64) with
    | [a; b; c; d; e; f; g; h] => Words a b c d e f g h
    | _ => Words 0 0 0 0 0 0 0 0
    end.

(** Padding: the bit 1, zeros up to 56 modulo 64 bytes, then the bit length
    as a 64-bit big-endian integer. *)
Definition bigEndian (nbytes : nat) (x : Z) : list Z :=
  map (fun i => Z.shiftr x (8 * Z.of_nat i) mod 256) (rev (seq 0 nbytes)).

Definition pad (msg : list Z) : list Z :=
  let len := Z.of_nat (length msg) in
  msg ++ [128] ++ repeat 0 (Z.to_nat ((55 - len) mod 64)) ++ bigEndian 8 (8 * len).

Fixpoint blocks (fuel : nat) (bytes : list Z) : list (list Z) :=
  match fuel, bytes with
  | S fuel', _ :: _ => take 64 bytes :: blocks fuel' (drop 64 bytes)
  | _, _ => []
  end.

Fixpoint wordsOfBytes (fuel : nat) (bytes : list Z) : list Z :=
  match fuel, bytes with
  | S fuel', b0 :: b1 :: b2 :: b3 :: rest =>
      (((b0 * 256 + b1) * 256 + b2) * 256 + b3) :: wordsOfBytes fuel' rest
  | _, _ => []
  end.

(** Message schedule, kept newest word first: [W_t] is computed from
    [W_(t-2)], [W_(t-7)], [W_(t-15)] and [W_(t-16)]. *)
Definition scheduleStep (rw : list Z) : list Z :=
  w32 (smallSigma1 (nth 1 rw 0) + nth 6 rw 0 + smallSigma0 (nth 14 rw 0) + nth 15 rw 0) :: rw.

Definition schedule (block : list Z) : list Z :=
  rev (Nat.iter 48 scheduleStep (rev (wordsOfBytes 16 block))).

Definition round (s : words) (kw : Z * Z) : words :=
  let (k, w) := kw in
  let t1 := wh s + bigSigma1 (we s) + Ch (we s) (wf s) (wg s) + k + w in
  let t2 := bigSigma0 (wa s) + Maj (wa s) (wb s) (wc s) in
  Words (w32 (t1 + t2)) (wa s) (wb s) (wc s) (w32 (wd s + t1)) (we s) (wf s) (wg s).

Definition compress (h : words) (block : list Z) : words :=
  let s := fold_left round (combine K (schedule block)) h in
  Words (w32 (wa h + wa s)) (w32 (wb h + wb s)) (w32 (wc h + wc s)) (w32 (wd h + wd s))
        (w32 (we h + we s)) (w32 (wf h + wf s)) (w32 (wg h + wg s)) (w32 (wh h + wh s)).

Definition digest (msg : list Z) : words :=
  let p := pad msg in fold_left compress (blocks (length p) p) H0.

(** [digest('hex')]: each word as eight lower-case hexadecimal digits. *)
Definition hexDigit (n : Z) : ascii :=
  nth (Z.to_nat (n mod 16)) (list_ascii_of_string "0123456789abcdef") "0"%char.

Definition hexWord (x : Z) : list ascii :=
  map (fun i => hexDigit (Z.shiftr x (4 * Z.of_nat i))) (rev (seq 0 8)).

Definition hex (h : words) : string :=
  string_of_list_ascii
    (hexWord (wa h) ++ hexWord (wb h) ++ hexWord (wc h) ++ hexWord (wd h) ++
     hexWord (we h) ++ hexWord (wf h) ++ hexWord (wg h) ++ hexWord (wh h)).

Definition sha256_hex (s : string) : string := hex (digest (JS.utf8 s)).

End Sha256.

(** ** lib/auth.ts *)

Module Auth.

(** [createHash('sha256').update(nickname.trim().toLowerCase()).digest('hex')] *)
Definition hashNickname (nickname : string) : string :=
  Sha256.sha256_hex (JS.toLowerCase (JS.trim nickname)).

Definition isLowerHex (c : ascii) : bool :=
  let n := nat_of_ascii c in
  ((48 <=? n)%nat && (n <=? 57)%nat) || ((97 <=? n)%nat && (n <=? 102)%nat).

(** The longest prefix of [s] of at most [n] characters of class [a-f0-9]. *)
Fixpoint takeHex (n : nat) (s : string) : string :=
  match n, s with
  | S n', String c s' => if isLowerHex c then String c (takeHex n' s') else EmptyString
  | _, _ => EmptyString
  end.

(** A match of [/nades_account=([a-f0-9]{64})/] starting exactly at the
    head of [s]: the captured group. *)
Definition matchHere (s : string) : option string :=
  if String.prefix "nades_account=" s then
    let g := takeHex 64 (String.substring 14 (String.length s - 14) s) in
    if (String.length g =? 64)%nat then Some g else None
  else None.

(** The leftmost match in [s]. *)
Fixpoint matchCookie (s : string) : option string :=
  match matchHere s with
  | Some g => Some g
  | None => match s with
            | EmptyString => None
            | String _ s' => matchCookie s'
            end
  end.

(** [getAccountHash(request)]; the argument is the [cookie] header, [None]
    when the request has none. *)
Definition getAccountHash (cookie : option string) : option string :=
  matchCookie (default "" cookie).

End Auth.

(** ** lib/nades.ts: the display shuffle *)

Module Nades.

(** [s = (s * 1103515245 + 12345) & 0x7fffffff] on JavaScript numbers. *)
Definition nextSeed (s : Z) : Z :=
  JS.band (JS.add (JS.mul s 1103515245) 12345) 2147483647.

(** The loop [for (i = length - 1; i > 0; i--)], generic in the seed update. *)
Fixpoint shuffleFrom {T : Type} (next : Z -> Z) (i : nat) (s : Z) (result : list T) : list T :=
  match i with
  | O => result
  | S i' =>
      let s' := next s in
      let j := Z.to_nat (Z.rem s' (Z.of_nat i + 1)) in
      shuffleFrom next i' s' (JS.swap result i j)
  end.

Definition seededShuffle {T : Type} (arr : list T) (seed : Z) : list T :=
  shuffleFrom nextSeed (length arr - 1) seed arr.

(** The reference the specification names: the same Fisher-Yates loop with
    the recurrence [seed = (seed * 1103515245 + 12345) mod 2^31] in exact
    integers. *)
Definition exactNextSeed (s : Z) : Z := (s * 1103515245 + 12345) mod 2 ^ 31.

Definition exactShuffle {T : Type} (arr : list T) (seed : Z) : list T :=
  shuffleFrom exactNextSeed (length arr - 1) seed arr.

(** [interface Nade] *)
Record Nade : Type := MkNade {
  slug : string;
  map : string;
  team : string;
  type : string;
  titleFrom : string;
  titleTo : string;
  technique : string;
  movement : string;
  console : string;
  asset_id : string;
  video_url : string;
  lineup_url : string;
  source_url : string;
  captions : list string
}.

Definition MAPS_ORDER : list string :=
  ["mirage"; "dust2"; "inferno"; "overpass"; "ancient"; "anubis"; "nuke"].

(** [l.indexOf(x)]: the first position of [x], -1 when there is none. *)
Fixpoint indexFrom (i : Z) (l : list string) (x : string) : Z :=
  match l with
  | [] => -1
  | y :: l' => if String.eqb y x then i else indexFrom (i + 1) l' x
  end.

Definition indexOf (l : list string) (x : string) : Z := indexFrom 0 l x.

(** [[...new Set(l)]]: the elements of [l] in the order of their first
    occurrence; [seen] holds those already met. *)
Fixpoint distinctFrom (seen l : list string) : list string :=
  match l with
  | [] => []
  | x :: l' =>
      if existsb (String.eqb x) seen then distinctFrom seen l'
      else x :: distinctFrom (x :: seen) l'
  end.

(** The comparator [(MAPS_ORDER.indexOf(a) ?? 99) - (MAPS_ORDER.indexOf(b) ?? 99)];
    [indexOf] gives a number, never [null] or [undefined], so [?? 99]
    leaves it as it is. *)
Definition compareMaps (a b : string) : Z := indexOf MAPS_ORDER a - indexOf MAPS_ORDER b.

(** [l.sort(cmp)]: the sort is stable, so for a comparator that orders by a
    key the result is the one a stable insertion sort gives. *)
Fixpoint insertBy (cmp : string -> string -> Z) (x : string) (l : list string) : list string :=
  match l with
  | [] => [x]
  | y :: l' => if cmp x y <=? 0 then x :: y :: l' else y :: insertBy cmp x l'
  end.

Definition sortBy (cmp : string -> string -> Z) (l : list string) : list string :=
  foldr (insertBy cmp) [] l.

Definition getMapsPresent (nades : list Nade) : list string :=
  sortBy compareMaps (distinctFrom [] (List.map map nades)).

(** [loadNades()] with the module's [_cache]; [onDisk] is what reading
    and parsing [nades.json] gives at this moment, [None] when that
    throws.  The result is the list returned ([None]: the exception
    escapes) with the cache afterwards. *)
Definition loadNades (onDisk : option (list Nade)) (cache : option (list Nade))
  : option (list Nade) * option (list Nade) :=
  match cache with
  | Some nades => (Some nades, cache)
  | None =>
      match onDisk with
      | Some nades => (Some nades, Some nades)
      | None => (None, None)
      end
  end.

Definition invalidateCache (cache : option (list Nade)) : option (list Nade) := None.

End Nades.

(** ** node:path and node:fs/promises, as far as the handlers use them *)

Module Path.

(** An absolute path in normal form: its segments from the root. *)
Abbreviation path := (list string).

(** The segments of a string between its [/] separators. *)
Fixpoint segments (s : string) : list string :=
  match s with
  | EmptyString => [EmptyString]
  | String c s' =>
      if Ascii.eqb c "/" then EmptyString :: segments s'
      else match segments s' with
           | h :: t => String c h :: t
           | [] => [String c EmptyString]
           end
  end.

(** Normalisation, one segment at a time, on the reversed path: empty and
    [.] segments vanish, [..] drops the last segment (and stays at the
    root). *)
Definition normalizeStep (racc : list string) (seg : string) : list string :=
  if String.eqb seg "" || String.eqb seg "." then racc
  else if String.eqb seg ".." then tail racc
  else seg :: racc.

(** [join(base, ...parts)] for an absolute normalised [base]. *)
Definition join (base : path) (parts : list string) : path :=
  rev (fold_left normalizeStep (flat_map segments parts) (rev base)).

(** A string that is one ordinary segment: not empty, not [.] or [..],
    and without a separator. *)
Definition isName (s : string) : bool :=
  negb (String.eqb s "") && negb (String.eqb s ".") && negb (String.eqb s "..")
  && forallb (fun c => negb (Ascii.eqb c "/")) (list_ascii_of_string s).

End Path.

Module Fs.

Inductive node : Type :=
  | Dir
  | File (content : string).

(** The file system: the directories and regular files that exist, by
    path.  The root always exists and is not listed. *)
Abbreviation fs := (gmap (list string) node).

Definition isDir (t : fs) (p : Path.path) : bool :=
  match p, t !! p with
  | [], _ => true
  | _, Some Dir => true
  | _, _ => false
  end.

(** [p] and its ancestors below the root, outermost first. *)
Definition ancestors (p : Path.path) : list Path.path :=
  map (fun n => take n p) (seq 1 (length p)).

(** [mkdir(p, { recursive: true })]: fails when a regular file is in the
    way, otherwise [p] and every missing ancestor become directories. *)
Definition mkdir (p : Path.path) (t : fs) : option fs :=
  if forallb (fun q => match t !! q with Some (File _) => false | _ => true end) (ancestors p)
  then Some (foldr (fun q acc => <[q := Dir]> acc) t (ancestors p))
  else None.

(** [writeFile(p, content)]: the parent must be a directory and [p] must
    not be one; creates or replaces the regular file. *)
Definition writeFile (p : Path.path) (content : string) (t : fs) : option fs :=
  if isDir t (removelast p) && negb (isDir t p)
  then Some (<[p := File content]> t)
  else None.

(** The tree without [p] and everything below it. *)
Definition prune (p : Path.path) (t : fs) : fs :=
  filter (fun kv => ¬ p `prefix_of` kv.1) t.

(** [rm(p, { recursive: true, force: true })]: [p] and everything below it
    disappear.  [force] forgives only that nothing is there; when a
    regular file lies on the way to [p], strictly above it, the call
    fails (ENOTDIR) and removes nothing. *)
Definition rm (p : Path.path) (t : fs) : option fs :=
  if forallb (fun q => match t !! q with Some (File _) => false | _ => true end)
             (ancestors (removelast p))
  then Some (prune p t)
  else None.

End Fs.

(** ** The relational store (lib/db.ts) *)

Module Db.

(** [status TEXT CHECK (status IN ('pending','approved','rejected'))] *)
Inductive status : Type := pending | approved | rejected.

Definition statusOfText (s : string) : option status :=
  if String.eqb s "pending" then Some pending
  else if String.eqb s "approved" then Some approved
  else if String.eqb s "rejected" then Some rejected
  else None.

(** The object serialised into the [data] column. *)
Record lineup : Type := Lineup {
  lineup_name : string;
  stand_desc : string;
  aim_desc : string;
  throw_type : string
}.

Record payload : Type := Payload {
  hasScreenshots : bool;
  details : option lineup
}.

(** Modelled from the spec: the column [side], which the evolved revision
    of the schema adds for the intake handler that writes it; every other
    column is as [initSchema] declares it.  A row of [submissions]; [None]
    is NULL. *)
Record submission : Type := Submission {
  sub_status : status;
  csnades_url : option string;
  slug : option string;
  map_name : option string;
  side : option string;
  data : option payload;
  submitted_at : Z;
  reviewed_at : option Z
}.

(** The tables the handlers touch: [accounts] by hash and [bookmarks] by
    (account_hash, slug), each row holding its [created_at]; [submissions]
    by rowid, with the AUTOINCREMENT counter of [sqlite_sequence]. *)
Record db : Type := Store {
  accounts : gmap string Z;
  bookmarks : gmap (string * string) Z;
  submissions : gmap Z submission;
  submissions_seq : Z
}.

Inductive error : Type :=
  | TypeError
  | ForeignKeyFailed
  | UniqueFailed
  | CheckFailed.

(** [INSERT OR IGNORE INTO accounts (hash) VALUES (?)] *)
Definition insertOrIgnoreAccount (hash : string) (now : Z) (d : db) : db :=
  match accounts d !! hash with
  | Some _ => d
  | None => Store (<[hash := now]> (accounts d)) (bookmarks d) (submissions d) (submissions_seq d)
  end.

(** [SELECT slug FROM bookmarks WHERE account_hash = ?], all rows *)
Definition selectSlugs (hash : string) (d : db) : list string :=
  omap (fun kv => if String.eqb (fst (fst kv)) hash then Some (snd (fst kv)) else None)
       (map_to_list (bookmarks d)).

(** [SELECT 1 FROM bookmarks WHERE account_hash = ? AND slug = ?], first row *)
Definition selectBookmark (hash slug : string) (d : db) : bool :=
  bool_decide (is_Some (bookmarks d !! (hash, slug))).

(** [DELETE FROM bookmarks WHERE account_hash = ? AND slug = ?] *)
Definition deleteBookmark (hash slug : string) (d : db) : db :=
  Store (accounts d) (delete (hash, slug) (bookmarks d)) (submissions d) (submissions_seq d).

(** [INSERT INTO bookmarks (account_hash, slug) VALUES (?, ?)] under the
    primary key and, with [foreign_keys = ON], the reference to
    [accounts(hash)]. *)
Definition insertBookmark (hash slug : string) (now : Z) (d : db) : error + db :=
  match bookmarks d !! (hash, slug) with
  | Some _ => inl UniqueFailed
  | None =>
      match accounts d !! hash with
      | None => inl ForeignKeyFailed
      | Some _ => inr (Store (accounts d) (<[(hash, slug) := now]> (bookmarks d))
                             (submissions d) (submissions_seq d))
      end
  end.

(** The largest rowid in the table, 0 when it is empty. *)
Definition maxRowid (m : gmap Z submission) : Z :=
  map_fold (fun k _ acc => Z.max k acc) 0 m.

(** The rowid AUTOINCREMENT gives the next row: one more than the largest
    rowid the table has ever held. *)
Definition nextRowid (d : db) : Z :=
  Z.max (submissions_seq d) (maxRowid (submissions d)) + 1.

(** [INSERT INTO submissions (csnades_url, map_name, side, data) VALUES
    (?, ?, ?, ?)]; the other columns take their defaults.  Returns
    [lastInsertRowid] with the store. *)
Definition insertSubmission (url map sd : option string) (pl : payload) (now : Z) (d : db)
  : Z * db :=
  let id := nextRowid d in
  (id, Store (accounts d) (bookmarks d)
             (<[id := Submission pending url None map sd (Some pl) now None]> (submissions d))
             id).

Section Coercion.

(** The integer that a TEXT operand denotes when it meets the INTEGER
    column [id] (NUMERIC affinity), if any. *)
Variable numericText : string -> option Z.

(** What a bound parameter selects in [WHERE id = ?]: a rowid, no row, or
    a refusal to bind. *)
Definition rowidOf (id : JS.value) : error + option Z :=
  match id with
  | JS.JNull => inr None
  | JS.JBool _ => inl TypeError
  | JS.JNum n => inr (Some n)
  | JS.JStr s => inr (numericText s)
  end.

(** [UPDATE submissions SET status = ?, reviewed_at = unixepoch() WHERE id = ?] *)
Definition updateStatus (st : string) (id : JS.value) (now : Z) (d : db) : error + db :=
  match rowidOf id with
  | inl e => inl e
  | inr None => inr d
  | inr (Some k) =>
      match submissions d !! k with
      | None => inr d
      | Some r =>
          match statusOfText st with
          | None => inl CheckFailed
          | Some s' =>
              inr (Store (accounts d) (bookmarks d)
                         (<[k := Submission s' (csnades_url r) (slug r) (map_name r) (side r)
                                            (data r) (submitted_at r) (Some now)]> (submissions d))
                         (submissions_seq d))
          end
      end
  end.

(** [DELETE FROM submissions WHERE id = ?] *)
Definition deleteSubmission (id : JS.value) (d : db) : error + db :=
  match rowidOf id with
  | inl e => inl e
  | inr None => inr d
  | inr (Some k) =>
      inr (Store (accounts d) (bookmarks d) (delete k (submissions d)) (submissions_seq d))
  end.

End Coercion.

End Db.

(** ** Responses *)

Module Http.

Inductive body : Type :=
  | Error (message : string)
  | Ok
  | OkId (id : Z)
  | OkBookmarks (slugs : list string)
  | Bookmarked (b : bool).

Inductive exn : Type :=
  | JsTypeError
  | StoreError (e : Db.error)
  | FsError.

(** What a handler produces: a response (status, JSON body, Set-Cookie
    header if any) or an exception that escapes it. *)
Inductive outcome : Type :=
  | Respond (status : Z) (b : body) (setCookie : option string)
  | Throw (e : exn).

Definition badRequest (message : string) : outcome := Respond 400 (Error message) None.

End Http.

(** ** The account endpoint: login ([POST]) and logout ([DELETE]) *)

Module Account.

Definition sessionCookie (hash : string) : string :=
  "nades_account=" ++ hash ++ "; Path=/; HttpOnly; SameSite=Lax; Max-Age=31536000".

(** [POST]; [nickname] is [body.nickname].  [body.nickname?.trim()] is
    [undefined] for an absent nickname and a TypeError for a value that
    is neither absent nor a string. *)
Definition POST (nickname : JS.value) (now : Z) (d : Db.db) : Http.outcome * Db.db :=
  match nickname with
  | JS.JNull => (Http.badRequest "Nickname must be at least 3 characters", d)
  | JS.JStr raw =>
      let nickname := JS.trim raw in
      if String.eqb nickname "" || (String.length nickname <? 3)%nat
      then (Http.badRequest "Nickname must be at least 3 characters", d)
      else
        let hash := Auth.hashNickname nickname in
        let d' := Db.insertOrIgnoreAccount hash now d in
        (Http.Respond 200 (Http.OkBookmarks (Db.selectSlugs hash d')) (Some (sessionCookie hash)), d')
  | _ => (Http.Throw Http.JsTypeError, d)
  end.

Definition DELETE (d : Db.db) : Http.outcome * Db.db :=
  (Http.Respond 200 Http.Ok (Some "nades_account=; Path=/; HttpOnly; Max-Age=0"), d).

End Account.

(** ** pages/api/bookmarks.ts *)

Module Bookmarks.

(** [POST]; [cookie] is the request's cookie header and [slug] the body's
    [slug] field: a string, or absent. *)
Definition POST (cookie : option string) (slug : option string) (now : Z) (d : Db.db)
  : Http.outcome * Db.db :=
  match Auth.getAccountHash cookie with
  | None => (Http.Respond 401 (Http.Error "Not logged in") None, d)
  | Some hash =>
      match slug with
      | None | Some EmptyString => (Http.badRequest "Missing slug", d)
      | Some slug =>
          if Db.selectBookmark hash slug d
          then (Http.Respond 200 (Http.Bookmarked false) None, Db.deleteBookmark hash slug d)
          else match Db.insertBookmark hash slug now d with
               | inl e => (Http.Throw (Http.StoreError e), d)
               | inr d' => (Http.Respond 200 (Http.Bookmarked true) None, d')
               end
      end
  end.

End Bookmarks.

(** ** The submission endpoint, in its later revision *)

Module Submit.

(** A form entry: a string, or a file with its bytes. *)
Inductive entry : Type :=
  | Text (s : string)
  | Upload (content : string).

Definition formData : Type := list (string * entry).

(** [formData.get(name)]: the first entry of that name. *)
Definition get (name : string) (f : formData) : option entry :=
  snd <$> List.find (fun kv => String.eqb (fst kv) name) f.

(** [formData.has(name)] *)
Definition has (name : string) (f : formData) : bool :=
  existsb (fun kv => String.eqb (fst kv) name) f.

(** ToBoolean of [formData.get(name)] *)
Definition truthy (v : option entry) : bool :=
  match v with
  | None => false
  | Some (Text s) => negb (String.eqb s "")
  | Some (Upload _) => true
  end.

(** [file.size]; a string has none ([undefined]). *)
Definition size (v : option entry) : option Z :=
  match v with
  | Some (Upload content) => Some (Z.of_nat (String.length content))
  | _ => None
  end.

(** [String(v)] of an entry, as [new URL(v)] takes it. *)
Definition entryString (e : entry) : string :=
  match e with
  | Text s => s
  | Upload _ => "[object File]"
  end.

(** [set.has(v)] and [array.includes(v)] for strings *)
Definition among (v : option entry) (l : list string) : bool :=
  match v with
  | Some (Text s) => existsb (String.eqb s) l
  | _ => false
  end.

(** [!v || !v.trim()]; [None] when [v.trim] is not a function. *)
Definition blank (v : option entry) : option bool :=
  match v with
  | None => Some true
  | Some (Text s) => Some (String.eqb s "" || String.eqb (JS.trim s) "")
  | Some (Upload _) => None
  end.

(** A value bound to a parameter of a statement: NULL, text, or refused. *)
Definition bind (v : option entry) : Db.error + option string :=
  match v with
  | None => inr None
  | Some (Text s) => inr (Some s)
  | Some (Upload _) => inl Db.TypeError
  end.

(** [v!.trim()] *)
Definition trimmed (v : option entry) : string :=
  match v with
  | Some (Text s) => JS.trim s
  | _ => EmptyString
  end.

Definition MAX_FILE_SIZE : Z := 10 * 1024 * 1024.
Definition VALID_MAPS : list string :=
  ["mirage"; "dust2"; "inferno"; "overpass"; "ancient"; "anubis"; "nuke"].
Definition VALID_THROW_TYPES : list string := ["left"; "right"; "left_jump"; "run_left"].
Definition SCREENSHOTS : list string := ["position"; "aim"; "result"].

Definition hasScreenshots (f : formData) : bool :=
  has "position" f && has "aim" f && has "result" f.

(** The types the handler casts its fields to: [string | null] for the
    text fields, [File] for the three screenshots. *)
Definition isText (v : option entry) : bool :=
  match v with Some (Upload _) => false | _ => true end.

Definition isFile (v : option entry) : bool :=
  match v with Some (Text _) => false | _ => true end.

(** The fields the handler calls [trim] on. *)
Definition DESCRIPTIVE : list string := ["lineup_name"; "stand_desc"; "aim_desc"].

Definition descriptiveText (f : formData) : bool :=
  forallb (fun name => isText (get name f)) DESCRIPTIVE.

Definition screenshotFiles (f : formData) : bool :=
  forallb (fun name => isFile (get name f)) SCREENSHOTS.

(** The loop that validates the three files. *)
Fixpoint checkFiles (f : formData) (names : list string) : option Http.outcome :=
  match names with
  | [] => None
  | name :: rest =>
      let file := get name f in
      if negb (truthy file) || bool_decide (size file = Some 0)
      then Some (Http.badRequest ("Missing " ++ name ++ " screenshot"))
      else if match size file with Some n => MAX_FILE_SIZE <? n | None => false end
      then Some (Http.badRequest (name ++ " screenshot exceeds 10 MB limit"))
      else checkFiles f rest
  end.

(** The checks on the descriptive fields, made when screenshots came. *)
Definition checkDetails (f : formData) : option Http.outcome :=
  match blank (get "lineup_name" f) with
  | None => Some (Http.Throw Http.JsTypeError)
  | Some true => Some (Http.badRequest "Lineup name is required with screenshots")
  | Some false =>
  match blank (get "stand_desc" f) with
  | None => Some (Http.Throw Http.JsTypeError)
  | Some true => Some (Http.badRequest "Stand description is required with screenshots")
  | Some false =>
  match blank (get "aim_desc" f) with
  | None => Some (Http.Throw Http.JsTypeError)
  | Some true => Some (Http.badRequest "Aim description is required with screenshots")
  | Some false =>
      if negb (truthy (get "throw_type" f)) || negb (among (get "throw_type" f) VALID_THROW_TYPES)
      then Some (Http.badRequest "Valid throw type is required with screenshots")
      else None
  end end end.

(** The object given to [JSON.stringify]: [hasScreenshots], and with
    screenshots the trimmed descriptive fields and the throw type. *)
Definition payloadOf (f : formData) : Db.payload :=
  Db.Payload (hasScreenshots f)
             (if hasScreenshots f
              then Some (Db.Lineup (trimmed (get "lineup_name" f))
                                   (trimmed (get "stand_desc" f))
                                   (trimmed (get "aim_desc" f))
                                   (from_option entryString "" (get "throw_type" f)))
              else None).

(** The text of a field, NULL when the field is absent. *)
Definition text (v : option entry) : option string :=
  match v with
  | Some (Text s) => Some s
  | _ => None
  end.

(** The row a well-typed form becomes. *)
Definition newRow (f : formData) (now : Z) : Db.submission :=
  Db.Submission Db.pending (text (get "csnades_url" f)) None (text (get "map" f))
                (text (get "side" f)) (Some (payloadOf f)) now None.

(** The loop that writes the three files into [dir]; the flag tells
    whether it ran to its end. *)
Fixpoint saveFiles (f : formData) (dir : Path.path) (names : list string) (t : Fs.fs)
  : bool * Fs.fs :=
  match names with
  | [] => (true, t)
  | name :: rest =>
      match get name f with
      | Some (Upload content) =>
          if 0 <? Z.of_nat (String.length content)
          then match Fs.writeFile (Path.join dir [name ++ ".jpg"]) content t with
               | Some t' => saveFiles f dir rest t'
               | None => (false, t)
               end
          else saveFiles f dir rest t
      | _ => saveFiles f dir rest t
      end
  end.

(** The validation rules as the specification lists them, each with the
    message the handler answers. *)
Inductive rule : Type :=
  | NoInput
  | MalformedUrl
  | OffDomain
  | MapRequired
  | UnsupportedMap
  | InvalidSide
  | LineupNameRequired
  | StandDescRequired
  | AimDescRequired
  | ThrowTypeRequired
  | MissingFile (name : string)
  | OversizeFile (name : string).

Definition message (r : rule) : string :=
  match r with
  | NoInput => "Provide a csnades.gg URL or 3 screenshots"
  | MalformedUrl => "Invalid URL format"
  | OffDomain => "URL must be from csnades.gg"
  | MapRequired => "Map name is required with screenshots"
  | UnsupportedMap => "Invalid map name"
  | InvalidSide => "Invalid side value"
  | LineupNameRequired => "Lineup name is required with screenshots"
  | StandDescRequired => "Stand description is required with screenshots"
  | AimDescRequired => "Aim description is required with screenshots"
  | ThrowTypeRequired => "Valid throw type is required with screenshots"
  | MissingFile name => "Missing " ++ name ++ " screenshot"
  | OversizeFile name => name ++ " screenshot exceeds 10 MB limit"
  end.

Definition allRules : list rule :=
  [NoInput; MalformedUrl; OffDomain; MapRequired; UnsupportedMap; InvalidSide;
   LineupNameRequired; StandDescRequired; AimDescRequired; ThrowTypeRequired]
  ++ map MissingFile SCREENSHOTS ++ map OversizeFile SCREENSHOTS.

(** A text field that is absent, empty or only white space. *)
Definition emptyText (v : option entry) : bool :=
  match v with
  | None => true
  | Some (Text s) => String.eqb (JS.trim s) ""
  | Some (Upload _) => false
  end.

Section Intake.

(** [new URL(s).hostname], [None] when the constructor throws. *)
Variable hostname : string -> option string.

(** Whether a request breaks a rule, in the specification's words: no
    URL and no screenshots; a URL that does not parse; a URL of another
    host; screenshots without a map; a map outside the supported set; a
    side other than the two teams; with screenshots, a descriptive field
    missing or empty or a throw technique outside its set; with
    screenshots, an item missing, empty or above ten mebibytes. *)
Definition violates (f : formData) (r : rule) : bool :=
  let url := get "csnades_url" f in
  match r with
  | NoInput => negb (truthy url) && negb (hasScreenshots f)
  | MalformedUrl =>
      truthy url && bool_decide (hostname (from_option entryString "" url) = None)
  | OffDomain =>
      truthy url
      && match hostname (from_option entryString "" url) with
         | Some h => negb (existsb (String.eqb h) ["csnades.gg"; "www.csnades.gg"])
         | None => false
         end
  | MapRequired => hasScreenshots f && negb (truthy (get "map" f))
  | UnsupportedMap => truthy (get "map" f) && negb (among (get "map" f) VALID_MAPS)
  | InvalidSide => truthy (get "side" f) && negb (among (get "side" f) ["t"; "ct"])
  | LineupNameRequired => hasScreenshots f && emptyText (get "lineup_name" f)
  | StandDescRequired => hasScreenshots f && emptyText (get "stand_desc" f)
  | AimDescRequired => hasScreenshots f && emptyText (get "aim_desc" f)
  | ThrowTypeRequired =>
      hasScreenshots f && negb (among (get "throw_type" f) VALID_THROW_TYPES)
  | MissingFile name =>
      hasScreenshots f && existsb (String.eqb name) SCREENSHOTS
      && (negb (truthy (get name f)) || bool_decide (size (get name f) = Some 0))
  | OversizeFile name =>
      hasScreenshots f && existsb (String.eqb name) SCREENSHOTS
      && match size (get name f) with Some n => MAX_FILE_SIZE <? n | None => false end
  end.

(** The [try { new URL(csnadesUrl) ... } catch { ... }] block. *)
Definition checkUrl (f : formData) : option Http.outcome :=
  let csnadesUrl := get "csnades_url" f in
  if truthy csnadesUrl
  then match hostname (from_option entryString "" csnadesUrl) with
       | Some h =>
           if negb (String.eqb h "csnades.gg") && negb (String.eqb h "www.csnades.gg")
           then Some (Http.badRequest "URL must be from csnades.gg")
           else None
       | None => Some (Http.badRequest "Invalid URL format")
       end
  else None.

(** Everything the handler checks before it touches the store: the
    response of the first check that fails, if one does. *)
Definition validate (f : formData) : option Http.outcome :=
  let csnadesUrl := get "csnades_url" f in
  let mapName := get "map" f in
  let side := get "side" f in
  if negb (truthy csnadesUrl) && negb (hasScreenshots f)
  then Some (Http.badRequest "Provide a csnades.gg URL or 3 screenshots")
  else
  match checkUrl f with
  | Some r => Some r
  | None =>
  if hasScreenshots f && negb (truthy mapName)
  then Some (Http.badRequest "Map name is required with screenshots")
  else if truthy mapName && negb (among mapName VALID_MAPS)
  then Some (Http.badRequest "Invalid map name")
  else if truthy side && negb (among side ["t"; "ct"])
  then Some (Http.badRequest "Invalid side value")
  else
  match (if hasScreenshots f then checkDetails f else None) with
  | Some r => Some r
  | None => if hasScreenshots f then checkFiles f SCREENSHOTS else None
  end
  end.

(** [POST]; [cwd] is [process.cwd()]. *)
Definition POST (cwd : Path.path) (f : formData) (now : Z) (st : Db.db * Fs.fs)
  : Http.outcome * (Db.db * Fs.fs) :=
  match validate f with
  | Some r => (r, st)
  | None =>
      match bind (get "csnades_url" f), bind (get "map" f), bind (get "side" f) with
      | inr url, inr map, inr sd =>
          let (id, d') := Db.insertSubmission url map sd (payloadOf f) now (fst st) in
          if hasScreenshots f then
            let stagingDir := Path.join cwd ["staging"; pretty id] in
            match Fs.mkdir stagingDir (snd st) with
            | None => (Http.Throw Http.FsError, (d', snd st))
            | Some t1 =>
                match saveFiles f stagingDir SCREENSHOTS t1 with
                | (true, t2) => (Http.Respond 200 (Http.OkId id) None, (d', t2))
                | (false, t2) => (Http.Throw Http.FsError, (d', t2))
                end
            end
          else (Http.Respond 200 (Http.OkId id) None, (d', snd st))
      | inl e, _, _ | _, inl e, _ | _, _, inl e => (Http.Throw (Http.StoreError e), st)
      end
  end.

End Intake.

(** The earlier revision of the endpoint: the URL is tested by its
    prefix, there is no side and there are no descriptive fields. *)
Definition checkUrl_v1 (f : formData) : option Http.outcome :=
  match get "csnades_url" f with
  | Some (Text s) =>
      if negb (String.eqb s "") && negb (String.prefix "https://csnades.gg/" s)
      then Some (Http.badRequest "URL must be from csnades.gg")
      else None
  | Some (Upload _) => Some (Http.Throw Http.JsTypeError)
  | None => None
  end.

Definition validate_v1 (f : formData) : option Http.outcome :=
  let csnadesUrl := get "csnades_url" f in
  let mapName := get "map" f in
  if negb (truthy csnadesUrl) && negb (hasScreenshots f)
  then Some (Http.badRequest "Provide a csnades.gg URL or 3 screenshots")
  else
  match checkUrl_v1 f with
  | Some r => Some r
  | None =>
  if hasScreenshots f && negb (truthy mapName)
  then Some (Http.badRequest "Map name is required with screenshots")
  else if truthy mapName && negb (among mapName VALID_MAPS)
  then Some (Http.badRequest "Invalid map name")
  else if hasScreenshots f then checkFiles f SCREENSHOTS else None
  end.

Definition POST_v1 (cwd : Path.path) (f : formData) (now : Z) (st : Db.db * Fs.fs)
  : Http.outcome * (Db.db * Fs.fs) :=
  match validate_v1 f with
  | Some r => (r, st)
  | None =>
      match bind (get "csnades_url" f), bind (get "map" f) with
      | inr url, inr map =>
          let (id, d') :=
            Db.insertSubmission url map None (Db.Payload (hasScreenshots f) None) now (fst st) in
          if hasScreenshots f then
            let stagingDir := Path.join cwd ["staging"; pretty id] in
            match Fs.mkdir stagingDir (snd st) with
            | None => (Http.Throw Http.FsError, (d', snd st))
            | Some t1 =>
                match saveFiles f stagingDir SCREENSHOTS t1 with
                | (true, t2) => (Http.Respond 200 (Http.OkId id) None, (d', t2))
                | (false, t2) => (Http.Throw Http.FsError, (d', t2))
                end
            end
          else (Http.Respond 200 (Http.OkId id) None, (d', snd st))
      | inl e, _ | _, inl e => (Http.Throw (Http.StoreError e), st)
      end
  end.

End Submit.

(** ** The admin panel's pages/api/review.ts, in its two revisions *)

Module Review.

(** [list.includes(status)] *)
Definition includes (l : list string) (v : JS.value) : bool :=
  match v with
  | JS.JStr s => existsb (String.eqb s) l
  | _ => false
  end.

Section Moderation.

Variable numericText : string -> option Z.

(** The earlier revision: approve or reject. *)
Definition POST_v1 (id status : JS.value) (now : Z) (d : Db.db) : Http.outcome * Db.db :=
  if negb (JS.truthy id) || negb (includes ["approved"; "rejected"] status)
  then (Http.badRequest "Invalid data", d)
  else
    match Db.updateStatus numericText (JS.toString status) id now d with
    | inl e => (Http.Throw (Http.StoreError e), d)
    | inr d' => (Http.Respond 200 Http.Ok None, d')
    end.

(** [join(process.cwd(), '..', 'staging', String(id))] *)
Definition stagingDir (cwd : Path.path) (id : JS.value) : Path.path :=
  Path.join cwd [".."; "staging"; JS.toString id].

(** The later revision: approve, reject, or delete with the staged files.
    The removal comes first: when it throws, the row is not deleted. *)
Definition POST (cwd : Path.path) (id status : JS.value) (now : Z) (st : Db.db * Fs.fs)
  : Http.outcome * (Db.db * Fs.fs) :=
  if negb (JS.truthy id) || negb (includes ["approved"; "rejected"; "deleted"] status)
  then (Http.badRequest "Invalid data", st)
  else if includes ["deleted"] status then
    match Fs.rm (stagingDir cwd id) (snd st) with
    | None => (Http.Throw Http.FsError, st)
    | Some t' =>
        match Db.deleteSubmission numericText id (fst st) with
        | inl e => (Http.Throw (Http.StoreError e), (fst st, t'))
        | inr d' => (Http.Respond 200 Http.Ok None, (d', t'))
        end
    end
  else
    match Db.updateStatus numericText (JS.toString status) id now (fst st) with
    | inl e => (Http.Throw (Http.StoreError e), st)
    | inr d' => (Http.Respond 200 Http.Ok None, (d', snd st))
    end.

End Moderation.

End Review.

(** ** pages/api/reports.ts and pages/api/lineup-reports.ts *)

Module ReportDb.

(** A row of [reports]. *)
Record report : Type := Report {
  slug : string;
  frame_type : string;
  direction : string;
  created_at : Z
}.

(** Modelled from the spec: the table [lineup_reports(slug, reason CHECK
    (reason IN ('outdated','doesnt_work','wrong_map','other')))], which
    the handler writes and [initSchema] does not create.  Its rows are
    kept in the order they were inserted. *)
Record lineupReport : Type := LineupReport {
  lineup_slug : string;
  reason : string
}.

Record tables : Type := Tables {
  reports : gmap Z report;
  reports_seq : Z;
  lineup_reports : list lineupReport
}.

Definition FRAME_TYPES : list string := ["position"; "aim"; "result"].
Definition DIRECTIONS : list string := ["earlier"; "later"].
Definition REASONS : list string := ["outdated"; "doesnt_work"; "wrong_map"; "other"].

Definition maxKey (m : gmap Z report) : Z := map_fold (fun k _ acc => Z.max k acc) 0 m.

Definition nextId (t : tables) : Z := Z.max (reports_seq t) (maxKey (reports t)) + 1.

(** [INSERT INTO reports (slug, frame_type, direction) VALUES (?, ?, ?)]
    under the two CHECK constraints. *)
Definition insertReport (sl ft dir : string) (now : Z) (t : tables) : Db.error + tables :=
  if existsb (String.eqb ft) FRAME_TYPES && existsb (String.eqb dir) DIRECTIONS
  then let id := nextId t in
       inr (Tables (<[id := Report sl ft dir now]> (reports t)) id (lineup_reports t))
  else inl Db.CheckFailed.

(** [INSERT INTO lineup_reports (slug, reason) VALUES (?, ?)] *)
Definition insertLineupReport (sl rs : string) (t : tables) : Db.error + tables :=
  if existsb (String.eqb rs) REASONS
  then inr (Tables (reports t) (reports_seq t) (lineup_reports t ++ [LineupReport sl rs]))
  else inl Db.CheckFailed.

End ReportDb.

Module Reports.

(** [POST]; [slug] is the body's [slug] field: a string, or absent. *)
Definition POST (slug : option string) (frameType direction : JS.value) (now : Z)
           (t : ReportDb.tables) : Http.outcome * ReportDb.tables :=
  match slug with
  | None | Some EmptyString => (Http.badRequest "Invalid report data", t)
  | Some slug =>
      if negb (Review.includes ["position"; "aim"; "result"] frameType)
         || negb (Review.includes ["earlier"; "later"] direction)
      then (Http.badRequest "Invalid report data", t)
      else match ReportDb.insertReport slug (JS.toString frameType) (JS.toString direction)
                                       now t with
           | inl e => (Http.Throw (Http.StoreError e), t)
           | inr t' => (Http.Respond 200 Http.Ok None, t')
           end
  end.

End Reports.

Module LineupReports.

Definition VALID_REASONS : list string := ["outdated"; "doesnt_work"; "wrong_map"; "other"].

Definition POST (slug : option string) (reason : JS.value) (t : ReportDb.tables)
  : Http.outcome * ReportDb.tables :=
  match slug with
  | None | Some EmptyString => (Http.badRequest "Invalid report data", t)
  | Some slug =>
      if negb (Review.includes VALID_REASONS reason)
      then (Http.badRequest "Invalid report data", t)
      else match ReportDb.insertLineupReport slug (JS.toString reason) t with
           | inl e => (Http.Throw (Http.StoreError e), t)
           | inr t' => (Http.Respond 200 Http.Ok None, t')
           end
  end.

End LineupReports.

(** ** Instances used in the worked examples *)

(** Decimal digits as a TEXT operand: the integer they spell. *)
Definition digitsText (s : string) : option Z :=
  match s with
  | EmptyString => None
  | _ =>
      fold_left (fun acc c =>
                   let n := Z.of_nat (nat_of_ascii c) in
                   match acc with
                   | Some a => if (48 <=? n) && (n <=? 57) then Some (10 * a + (n - 48)) else None
                   | None => None
                   end)
                (list_ascii_of_string s) (Some 0)
  end.

(** The host of an [https://host/...] address, enough for the examples. *)
Definition httpsHost (s : string) : option string :=
  if String.prefix "https://" s then
    match Path.segments (String.substring 8 (String.length s - 8) s) with
    | h :: _ :: _ => if String.eqb h "" then None else Some h
    | _ => None
    end
  else None.

Definition emptyDb : Db.db := Db.Store ∅ ∅ ∅ 0.

Definition demoForm : Submit.formData :=
  [("map", Submit.Text "mirage"); ("side", Submit.Text "t");
   ("lineup_name", Submit.Text " Window smoke "); ("stand_desc", Submit.Text "corner");
   ("aim_desc", Submit.Text "antenna"); ("throw_type", Submit.Text "left_jump");
   ("position", Submit.Upload "P"); ("aim", Submit.Upload "AA"); ("result", Submit.Upload "RRR")].

Definition siteCwd : Path.path := ["srv"; "cs-nades"].
Definition adminCwd : Path.path := ["srv"; "cs-nades"; "admin"].

Definition helloHash : string :=
  "2cf24dba5fb0a30e26e83b2ac5b9e29e1b161e5c1fa7425e73043362938b9824".

Definition helloCookie : option string :=
  Some ("theme=dark; nades_account=" ++ helloHash)%string.

(** A store with a bookmark but no account yet, and one after a login. *)
Definition demoAccount : Db.db :=
  Db.Store ∅ {[ (helloHash, "mirage-window") := 7 ]} ∅ 0.

Definition loggedIn : Db.db := Db.Store {[ helloHash := 5 ]} ∅ ∅ 0.

(** A store whose only submission was approved at time 100. *)
Definition decided : Db.db :=
  Db.Store ∅ ∅
    {[ 1 := Db.Submission Db.approved (Some "https://csnades.gg/lineups/42") None None None
                          (Some (Db.Payload false None)) 50 (Some 100) ]} 1.

(** The site's directory with its database file and one staged upload. *)
Definition siteFiles : Fs.fs :=
  list_to_map
    [ (["srv"], Fs.Dir);
      (["srv"; "cs-nades"], Fs.Dir);
      (["srv"; "cs-nades"; "cs-nades.db"], Fs.File "SQLite format 3");
      (["srv"; "cs-nades"; "admin"], Fs.Dir);
      (["srv"; "cs-nades"; "staging"], Fs.Dir);
      (["srv"; "cs-nades"; "staging"; "1"], Fs.Dir);
      (["srv"; "cs-nades"; "staging"; "1"; "aim.jpg"], Fs.File "AA") ].

(** A store with an account and one bookmark of it. *)
Definition bookmarked : Db.db :=
  Db.Store {[ helloHash := 5 ]} {[ (helloHash, "mirage-window") := 7 ]} ∅ 0.

(** A form with a URL only, and one whose screenshot fields are text. *)
Definition urlForm : Submit.formData :=
  [("csnades_url", Submit.Text "https://csnades.gg/lineups/42")].

Definition textForm : Submit.formData :=
  [("map", Submit.Text "mirage"); ("lineup_name", Submit.Text "Window");
   ("stand_desc", Submit.Text "corner"); ("aim_desc", Submit.Text "antenna");
   ("throw_type", Submit.Text "left"); ("position", Submit.Text "p");
   ("aim", Submit.Text "a"); ("result", Submit.Text "r")].

(** A nade of which only the map matters. *)
Definition nadeOn (m : string) : Nades.Nade :=
  Nades.MkNade "" m "" "" "" "" "" "" "" "" "" "" "" [].

(** A file system where a regular file sits in the staging root's place. *)
Definition blockedFiles : Fs.fs :=
  {[ ["srv"; "cs-nades"; "staging"] := Fs.File "not a directory" ]}.

(** ** Vocabulary of the properties *)

(** A decimal digit or the minus sign. *)
Definition plainChar (c : ascii) : bool :=
  let n := nat_of_ascii c in ((48 <=? n)%nat && (n <=? 57)%nat) || (n =? 45)%nat.

(** What a row looks like after a decision. *)
Definition decide_row (target : Db.status) (now : Z) (r : Db.submission) : Db.submission :=
  Db.Submission target (Db.csnades_url r) (Db.slug r) (Db.map_name r) (Db.side r)
                (Db.data r) (Db.submitted_at r) (Some now).

(** Between two states of the store: accounts and bookmarks are the same,
    no submission is new, and each one is either as it was or carries a
    decision other than pending with [now] as its review time. *)
Definition untouched_or_decided (now : Z) (d d' : Db.db) : Prop :=
  Db.accounts d' = Db.accounts d /\ Db.bookmarks d' = Db.bookmarks d
  /\ forall j r', Db.submissions d' !! j = Some r' ->
       exists r, Db.submissions d !! j = Some r
                 /\ (r' = r
                     \/ exists target, target <> Db.pending /\ r' = decide_row target now r).

(** Every bookmark belongs to an account. *)
Definition referential (d : Db.db) : Prop :=
  forall h s, is_Some (Db.bookmarks d !! (h, s)) -> is_Some (Db.accounts d !! h).

(** Every staging directory of the site belongs to a submission. *)
Definition staged_have_rows (site : Path.path) (st : Db.db * Fs.fs) : Prop :=
  forall n, is_Some (snd st !! (site ++ ["staging"; pretty n])%list) ->
            is_Some (Db.submissions (fst st) !! n).

(** A sequence of review requests (identifier, status, time), one after
    the other. *)
Fixpoint runReviews (numericText : string -> option Z) (cwd : Path.path)
         (requests : list (JS.value * JS.value * Z)) (st : Db.db * Fs.fs) : Db.db * Fs.fs :=
  match requests with
  | [] => st
  | (id, status, now) :: rest =>
      runReviews numericText cwd rest (snd (Review.POST numericText cwd id status now st))
  end.

(** A column that is NULL, empty, or a text with the property [P]. *)
Definition nullOrEmptyOr (P : string -> Prop) (v : option string) : Prop :=
  v = None \/ v = Some "" \/ exists s, v = Some s /\ P s.

(** A row as intake's validation lets it through. *)
Definition validatedRow (hostname : string -> option string) (row : Db.submission) : Prop :=
  Db.sub_status row = Db.pending
  /\ Db.reviewed_at row = None
  /\ nullOrEmptyOr (fun s => exists h, hostname s = Some h
                                      /\ In h ["csnades.gg"; "www.csnades.gg"])
                   (Db.csnades_url row)
  /\ nullOrEmptyOr (fun m => In m Submit.VALID_MAPS) (Db.map_name row)
  /\ nullOrEmptyOr (fun sd => In sd ["t"; "ct"]) (Db.side row)
  /\ match Db.data row with
     | Some (Db.Payload true (Some l)) =>
         Db.lineup_name l <> "" /\ Db.stand_desc l <> "" /\ Db.aim_desc l <> ""
         /\ In (Db.throw_type l) Submit.VALID_THROW_TYPES
         /\ exists m, Db.map_name row = Some m /\ In m Submit.VALID_MAPS
     | Some (Db.Payload false None) =>
         exists s, Db.csnades_url row = Some s /\ s <> ""
     | _ => False
     end.

(** The order of [MAPS_ORDER.indexOf], the key the comparator sorts by. *)
Definition mapsInOrder (a b : string) : Prop :=
  Nades.indexOf Nades.MAPS_ORDER a <= Nades.indexOf Nades.MAPS_ORDER b.

(** A regular file lies on the way to [p]: at a path strictly between the
    root and [p]. *)
Definition fileOnTheWay (p : Path.path) (t : Fs.fs) : Prop :=
  exists q c, q <> [] /\ q <> p /\ q `prefix_of` p /\ t !! q = Some (Fs.File c).

(** * Properties *)

Local Open Scope list_scope.

(** ** Strings *)

Lemma trimStart_head (s : string) :
  match JS.trimStart s with
  | EmptyString => True
  | String c _ => JS.isWhiteSpace c = false
  end.
Proof.
  induction s as [|c s IH]; simpl; [exact I|].
  destruct (JS.isWhiteSpace c) eqn:E; [exact IH | exact E].
Qed.

Lemma trimEnd_idem (s : string) : JS.trimEnd (JS.trimEnd s) = JS.trimEnd s.
Proof.
  induction s as [|c s IH]; simpl; [reflexivity|].
  destruct (JS.trimEnd s) as [|c' t] eqn:E.
  - destruct (JS.isWhiteSpace c) eqn:W; simpl; [reflexivity|]. now rewrite W.
  - simpl in *. now rewrite IH.
Qed.

Lemma trimEnd_head (c : ascii) (s : string) :
  JS.isWhiteSpace c = false -> exists t, JS.trimEnd (String c s) = String c t.
Proof.
  intros W. simpl. destruct (JS.trimEnd s); rewrite ?W; eauto.
Qed.

(** Trimming a trimmed string changes nothing, so the login handler's own
    [trim] and the one inside [hashNickname] agree. *)
Lemma trim_idem (s : string) : JS.trim (JS.trim s) = JS.trim s.
Proof.
  unfold JS.trim. pose proof (trimStart_head s) as H.
  destruct (JS.trimStart s) as [|c t]; [reflexivity|].
  destruct (trimEnd_head c t H) as [u Hu]. rewrite Hu.
  simpl JS.trimStart. rewrite H, <- Hu. apply trimEnd_idem.
Qed.

Lemma hashNickname_trim (s : string) : Auth.hashNickname (JS.trim s) = Auth.hashNickname s.
Proof. unfold Auth.hashNickname. now rewrite trim_idem. Qed.

(** ** The digest's format *)

Lemma hexDigit_lower (n : Z) : Auth.isLowerHex (Sha256.hexDigit n) = true.
Proof.
  unfold Sha256.hexDigit.
  assert (H : 0 <= n mod 16 < 16) by (apply Z.mod_pos_bound; lia).
  destruct (n mod 16) as [|p|p]; [reflexivity| |lia].
  do 4 (destruct p as [p|p|]; try reflexivity; try lia).
Qed.

Lemma hexWord_lower (x : Z) : forallb Auth.isLowerHex (Sha256.hexWord x) = true.
Proof. unfold Sha256.hexWord. cbn [seq rev app map forallb]. now rewrite !hexDigit_lower. Qed.

Lemma string_of_list_length (l : list ascii) :
  String.length (string_of_list_ascii l) = length l.
Proof. induction l; simpl; congruence. Qed.

Lemma hex_length (h : Sha256.words) : String.length (Sha256.hex h) = 64%nat.
Proof. unfold Sha256.hex. rewrite string_of_list_length. reflexivity. Qed.

Lemma hex_lower (h : Sha256.words) :
  forallb Auth.isLowerHex (list_ascii_of_string (Sha256.hex h)) = true.
Proof.
  unfold Sha256.hex. rewrite list_ascii_of_string_of_list_ascii.
  rewrite !forallb_app, !hexWord_lower. reflexivity.
Qed.

(** The digest agrees with the published test vectors. *)
Example sha256_abc :
  Sha256.sha256_hex "abc" = "ba7816bf8f01cfea414140de5dae2223b00361a396177a9cb410ff61f20015ad".
Proof. vm_compute. reflexivity. Qed.

Example sha256_empty :
  Sha256.sha256_hex "" = "e3b0c44298fc1c149afbf4c8996fb92427ae41e4649b934ca495991b7852b855".
Proof. vm_compute. reflexivity. Qed.

(** A message of seventy bytes takes two blocks. *)
Example sha256_two_blocks :
  Sha256.sha256_hex "aaaaaaaaaaaaaaaaaaaaaaaaaaaaaaaaaaaaaaaaaaaaaaaaaaaaaaaaaaaaaaaaaaaaaa"
  = "6bd5e5034855a11241f0dee8fc72850ffd9955b28347a86428b5fa19119f6ad0".
Proof. vm_compute. reflexivity. Qed.

(** C7. Nicknames with the same normal form (trimmed, then lower-cased)
    have the same hash, and the hash of any nickname is sixty-four
    characters long, each a lower-case hexadecimal digit.  [hashNickname]
    is a function of its argument alone. *)
Theorem hashNickname_normal_form (a b : string) :
  JS.toLowerCase (JS.trim a) = JS.toLowerCase (JS.trim b) ->
  Auth.hashNickname a = Auth.hashNickname b
  /\ String.length (Auth.hashNickname a) = 64%nat
  /\ forallb Auth.isLowerHex (list_ascii_of_string (Auth.hashNickname a)) = true.
Proof.
  intros H. unfold Auth.hashNickname, Sha256.sha256_hex. rewrite H.
  split; [reflexivity|]. split; [apply hex_length | apply hex_lower].
Qed.

Lemma hashNickname_normal_form_witness :
  Auth.hashNickname "  Hello  " = Auth.hashNickname "hello"
  /\ String.length (Auth.hashNickname "  Hello  ") = 64%nat
  /\ forallb Auth.isLowerHex (list_ascii_of_string (Auth.hashNickname "  Hello  ")) = true.
Proof. apply (hashNickname_normal_form "  Hello  " "hello"). reflexivity. Defined.

(** The documented example of the tests. *)
Example hashNickname_hello :
  Auth.hashNickname "  Hello  " = "2cf24dba5fb0a30e26e83b2ac5b9e29e1b161e5c1fa7425e73043362938b9824".
Proof. vm_compute. reflexivity. Qed.

(** ** The shuffle *)

(** One step from a small seed is exact: the product stays below 2^53. *)
Lemma nextSeed_exact_small (s : Z) :
  0 <= s < 2 ^ 22 -> Nades.nextSeed s = Nades.exactNextSeed s.
Proof.
  intros H. unfold Nades.nextSeed, Nades.exactNextSeed, JS.mul, JS.add.
  assert (R : forall z, 0 <= z < 2 ^ 53 -> JS.roundToDouble z = z).
  { intros z Hz. unfold JS.roundToDouble.
    destruct (Z.leb_spec (Z.log2 (Z.abs z) - 52) 0) as [|L]; [reflexivity|].
    exfalso. rewrite Z.abs_eq in L by lia.
    assert (Z.log2 z < 53); [|lia].
    destruct (Z.eq_dec z 0) as [->|]; [reflexivity|].
    apply Z.log2_lt_pow2; lia. }
  rewrite (R (s * 1103515245)) by lia.
  rewrite (R (s * 1103515245 + 12345)) by lia.
  unfold JS.band.
  destruct (Z.leb_spec (2 ^ 1024) (Z.abs (s * 1103515245 + 12345))) as [L|_].
  { exfalso. rewrite Z.abs_eq in L by lia.
    assert (2 ^ 53 < 2 ^ 1024) by (apply Z.pow_lt_mono_r; lia). lia. }
  change 2147483647 with (Z.ones 31). now rewrite Z.land_ones by lia.
Qed.

(** The second step from seed 3 already differs: the product has sixty-one
    bits and its low eight are rounded away. *)
Example nextSeed_rounds :
  Nades.nextSeed (Nades.nextSeed 3) = 465823232
  /\ Nades.exactNextSeed (Nades.exactNextSeed 3) = 465823161.
Proof. vm_compute. split; reflexivity. Qed.

(** C10. [seededShuffle] is not the exact-integer shuffle: on three items
    with the seed 3 (the item count) it returns another ordering. *)
Theorem seededShuffle_not_exact :
  Nades.seededShuffle [1; 2; 3] 3 = [3; 1; 2]
  /\ Nades.exactShuffle [1; 2; 3] 3 = [1; 3; 2].
Proof. vm_compute. split; reflexivity. Qed.

(** The test file's own input (five items, seed 42) differs as well. *)
Example seededShuffle_test_input :
  Nades.seededShuffle [1; 2; 3; 4; 5] 42 = [2; 5; 4; 1; 3]
  /\ Nades.exactShuffle [1; 2; 3; 4; 5] 42 = [2; 4; 5; 1; 3].
Proof. vm_compute. split; reflexivity. Qed.

(** X16. With at most two items the loop takes one step, and from a seed
    in [0, 2^22) that step stays below 2^53 and is exact: there the
    shuffle is the one of the exact integer recurrence. *)
Lemma seededShuffle_exact_two {T : Type} (arr : list T) (seed : Z) :
  (length arr <= 2)%nat -> 0 <= seed < 2 ^ 22 ->
  Nades.seededShuffle arr seed = Nades.exactShuffle arr seed.
Proof.
  intros L S. unfold Nades.seededShuffle, Nades.exactShuffle.
  destruct arr as [|x [|y [|z arr]]]; simpl in *; try reflexivity; [|lia].
  now rewrite nextSeed_exact_small.
Qed.

Lemma seededShuffle_exact_two_witness :
  Nades.seededShuffle ["mirage"; "nuke"] 2 = Nades.exactShuffle ["mirage"; "nuke"] 2.
Proof. apply seededShuffle_exact_two; [simpl; lia | lia]. Defined.

(** The bound on the seed matters: from the seed 2^23 the single step is
    already rounded, and two items come out in the other order. *)
Example seededShuffle_two_items_large_seed :
  Nades.seededShuffle [1; 2] (2 ^ 23) = [2; 1]
  /\ Nades.exactShuffle [1; 2] (2 ^ 23) = [1; 2].
Proof. vm_compute. split; reflexivity. Qed.

(** ** Paths *)

Lemma segments_plain (s : string) :
  forallb (fun c => negb (Ascii.eqb c "/")) (list_ascii_of_string s) = true ->
  Path.segments s = [s].
Proof.
  induction s as [|c s IH]; simpl; [reflexivity|].
  intros H. apply andb_true_iff in H as [Hc Hs].
  apply negb_true_iff in Hc. rewrite Hc, (IH Hs). reflexivity.
Qed.

Lemma isName_segments (s : string) : Path.isName s = true -> Path.segments s = [s].
Proof.
  unfold Path.isName. intros H. apply andb_true_iff in H as [_ H].
  now apply segments_plain.
Qed.

Lemma isName_step (racc : list string) (s : string) :
  Path.isName s = true -> Path.normalizeStep racc s = s :: racc.
Proof.
  unfold Path.isName, Path.normalizeStep. intros H.
  repeat (apply andb_true_iff in H as [H ?]).
  apply negb_true_iff in H. rewrite H. simpl.
  destruct (String.eqb s "."); [discriminate|].
  destruct (String.eqb s ".."); [discriminate|]. reflexivity.
Qed.

(** Joining ordinary segments appends them. *)
Lemma join_names (base : Path.path) (parts : list string) :
  forallb Path.isName parts = true -> Path.join base parts = base ++ parts.
Proof.
  unfold Path.join. revert base.
  induction parts as [|a parts IH]; intros base H; simpl.
  - now rewrite rev_involutive, app_nil_r.
  - apply andb_true_iff in H as [Ha Hp].
    rewrite fold_left_app, (isName_segments a Ha). simpl.
    rewrite (isName_step _ a Ha).
    change (a :: rev base) with ([a] ++ rev base)%list.
    rewrite <- (rev_involutive [a]), <- rev_app_distr. simpl rev at 2.
    rewrite (IH (base ++ [a]) Hp), <- app_assoc. reflexivity.
Qed.

(** A leading [..] cancels the last segment of the base. *)
Lemma join_parent (base : Path.path) (a : string) (parts : list string) :
  Path.join (base ++ [a]) (".." :: parts) = Path.join base parts.
Proof.
  unfold Path.join. rewrite rev_app_distr. reflexivity.
Qed.

(** The decimal form of an integer is an ordinary segment. *)
Lemma pretty_N_char_plain (x : N) : plainChar (pretty_N_char x) = true.
Proof. unfold pretty_N_char. repeat case_match; reflexivity. Qed.

Lemma pretty_N_go_plain (x : N) (s : string) :
  forallb plainChar (list_ascii_of_string s) = true ->
  forallb plainChar (list_ascii_of_string (pretty_N_go x s)) = true.
Proof.
  revert s. induction (N.lt_wf_0 x) as [x _ IH]; intros s Hs.
  destruct (decide (x = 0)%N) as [->|Hx]; [now rewrite pretty_N_go_0|].
  rewrite pretty_N_go_step by lia. apply IH.
  - apply N.div_lt; lia.
  - simpl. now rewrite pretty_N_char_plain.
Qed.

Lemma pretty_N_go_nonempty (x : N) (s : string) :
  s <> "" -> pretty_N_go x s <> "".
Proof.
  revert s. induction (N.lt_wf_0 x) as [x _ IH]; intros s Hs.
  destruct (decide (x = 0)%N) as [->|Hx]; [now rewrite pretty_N_go_0|].
  rewrite pretty_N_go_step by lia. apply IH; [apply N.div_lt; lia | discriminate].
Qed.

Lemma pretty_N_plain (x : N) :
  pretty x <> "" /\ forallb plainChar (list_ascii_of_string (pretty x)) = true.
Proof.
  unfold pretty, pretty_N. case_decide; [split; [discriminate | reflexivity]|].
  split; [|now apply pretty_N_go_plain].
  rewrite pretty_N_go_step by lia. apply pretty_N_go_nonempty. discriminate.
Qed.

Lemma pretty_Z_plain (z : Z) :
  pretty z <> "" /\ forallb plainChar (list_ascii_of_string (pretty z)) = true.
Proof.
  destruct z as [|p|p]; unfold pretty, pretty_Z.
  - split; [discriminate | reflexivity].
  - apply (pretty_N_plain (Npos p)).
  - split; [discriminate|]. simpl. apply (pretty_N_plain (Npos p)).
Qed.

Lemma plain_isName (s : string) :
  s <> "" -> forallb plainChar (list_ascii_of_string s) = true -> Path.isName s = true.
Proof.
  intros Hne Hp. unfold Path.isName.
  assert (Hslash : forallb (fun c => negb (Ascii.eqb c "/")) (list_ascii_of_string s) = true).
  { revert Hp. generalize (list_ascii_of_string s) as l.
    induction l as [|c l IH]; simpl; [reflexivity|].
    intros H. apply andb_true_iff in H as [Hc Hl]. rewrite (IH Hl), andb_true_r.
    destruct (Ascii.eqb_spec c "/") as [->|]; [discriminate | reflexivity]. }
  rewrite Hslash, andb_true_r.
  destruct (String.eqb_spec s "") as [->|_]; [congruence|].
  destruct (String.eqb_spec s ".") as [->|_]; [discriminate|].
  destruct (String.eqb_spec s "..") as [->|_]; [discriminate|]. reflexivity.
Qed.

Lemma pretty_isName (z : Z) : Path.isName (pretty z) = true.
Proof. destruct (pretty_Z_plain z). now apply plain_isName. Qed.

(** The directory intake stages into is [<cwd>/staging/<id>]. *)
Lemma intake_stagingDir (cwd : Path.path) (id : Z) :
  Path.join cwd ["staging"; pretty id] = cwd ++ ["staging"; pretty id].
Proof. apply join_names. simpl. now rewrite pretty_isName. Qed.

(** The directory the panel removes for a numeric id is the one intake
    staged into, when the panel runs in a subdirectory of the site. *)
Lemma review_stagingDir (site : Path.path) (sub : string) (id : Z) :
  Review.stagingDir (site ++ [sub]) (JS.JNum id) = site ++ ["staging"; pretty id].
Proof. unfold Review.stagingDir. rewrite join_parent. apply intake_stagingDir. Qed.

(** ** The staging area *)

Lemma prune_lookup_below (p q : Path.path) (t : Fs.fs) :
  p `prefix_of` q -> Fs.prune p t !! q = None.
Proof.
  intros H. unfold Fs.prune. apply map_lookup_filter_None. right.
  intros x _ Hn. now apply Hn.
Qed.

Lemma prune_lookup_other (p q : Path.path) (t : Fs.fs) :
  ¬ p `prefix_of` q -> Fs.prune p t !! q = t !! q.
Proof.
  intros H. unfold Fs.prune. destruct (t !! q) as [x|] eqn:E.
  - now apply map_lookup_filter_Some.
  - apply map_lookup_filter_None. now left.
Qed.

(** Nothing there: nothing changes. *)
Lemma prune_absent (p : Path.path) (t : Fs.fs) :
  (forall q, p `prefix_of` q -> t !! q = None) -> Fs.prune p t = t.
Proof.
  intros H. apply map_eq. intros q.
  destruct (decide (p `prefix_of` q)) as [Hp|Hp].
  - now rewrite prune_lookup_below, H.
  - now apply prune_lookup_other.
Qed.

Lemma prune_idem (p : Path.path) (t : Fs.fs) : Fs.prune p (Fs.prune p t) = Fs.prune p t.
Proof. apply prune_absent. intros q Hq. now apply prune_lookup_below. Qed.

Lemma mkdirs_lookup (l : list Path.path) (t : Fs.fs) (q : Path.path) :
  foldr (fun q acc => <[q := Fs.Dir]> acc) t l !! q
  = if decide (q ∈ l) then Some Fs.Dir else t !! q.
Proof.
  induction l as [|a l IH]; simpl.
  - destruct (decide (q ∈ [])) as [H|H]; [|done]. by apply elem_of_nil in H.
  - destruct (decide (a = q)) as [->|Hne].
    + rewrite lookup_insert_eq. destruct (decide (q ∈ q :: l)) as [H|H]; [done|].
      exfalso. apply H. left.
    + rewrite lookup_insert_ne by done. rewrite IH.
      destruct (decide (q ∈ l)) as [H|H]; destruct (decide (q ∈ a :: l)) as [H'|H']; try done.
      * exfalso. apply H'. by right.
      * apply elem_of_cons in H' as [->|]; done.
Qed.

Lemma elem_of_ancestors (p q : Path.path) :
  q ∈ Fs.ancestors p <-> q <> [] /\ q `prefix_of` p.
Proof.
  unfold Fs.ancestors. rewrite list_elem_of_In, in_map_iff. split.
  - intros (n & <- & Hn). apply in_seq in Hn. split.
    + destruct p; simpl in *; [lia|]. destruct n; [lia | discriminate].
    + apply prefix_take.
  - intros (Hne & k & ->). exists (length q). split.
    + now rewrite take_app_length.
    + apply in_seq. rewrite length_app. destruct q; [done|]. simpl. lia.
Qed.

Lemma removelast_snoc {A : Type} (l : list A) (x : A) : removelast (l ++ [x]) = l.
Proof. now rewrite removelast_app, app_nil_r. Qed.

Lemma prefix_removelast (p q : Path.path) :
  q <> [] -> q `prefix_of` removelast p <-> q `prefix_of` p /\ q <> p.
Proof.
  intros Hq. destruct (decide (p = [])) as [->|Hp].
  - simpl. split; [intros H | intros [H _]]; apply prefix_nil_inv in H; contradiction.
  - destruct (exists_last Hp) as (p' & x & ->). rewrite removelast_snoc. split.
    + intros H. split; [now apply prefix_app_r|].
      intros ->. apply prefix_length in H. rewrite length_app in H. simpl in H. lia.
    + intros [[k Hk] Hne]. destruct (decide (k = [])) as [->|Hk'].
      * rewrite app_nil_r in Hk. congruence.
      * destruct (exists_last Hk') as (k' & y & ->). rewrite app_assoc in Hk.
        apply app_inj_tail in Hk as [-> _]. now exists k'.
Qed.

Lemma forallb_false {A : Type} (f : A -> bool) (l : list A) :
  forallb f l = false -> exists x, In x l /\ f x = false.
Proof.
  induction l as [|x l IH]; simpl; [discriminate|].
  destruct (f x) eqn:E; simpl.
  - intros H. destruct (IH H) as (y & Hy & Ey). eauto.
  - eauto.
Qed.

(** [rm] fails exactly when a regular file lies on the way, and otherwise
    takes the subtree out. *)
Lemma rm_blocked (p : Path.path) (t : Fs.fs) : fileOnTheWay p t -> Fs.rm p t = None.
Proof.
  intros (q & c & Hq & Hne & Hp & Hf). unfold Fs.rm.
  destruct (forallb _ _) eqn:E; [|reflexivity].
  rewrite forallb_forall in E.
  assert (Hin : In q (Fs.ancestors (removelast p))).
  { apply list_elem_of_In, elem_of_ancestors. split; [exact Hq|].
    now apply prefix_removelast. }
  specialize (E q Hin). now rewrite Hf in E.
Qed.

Lemma rm_clear (p : Path.path) (t : Fs.fs) :
  ¬ fileOnTheWay p t -> Fs.rm p t = Some (Fs.prune p t).
Proof.
  intros N. unfold Fs.rm. destruct (forallb _ _) eqn:E; [reflexivity|].
  exfalso. apply forallb_false in E as (q & Hin & Hf).
  apply list_elem_of_In, elem_of_ancestors in Hin as [Hq Hp].
  apply prefix_removelast in Hp as [Hp Hne]; [|exact Hq].
  apply N. destruct (t !! q) as [[|c]|] eqn:L; try discriminate.
  exists q, c. auto.
Qed.

Lemma rm_cases (p : Path.path) (t : Fs.fs) :
  (fileOnTheWay p t /\ Fs.rm p t = None)
  \/ (¬ fileOnTheWay p t /\ Fs.rm p t = Some (Fs.prune p t)).
Proof.
  destruct (Fs.rm p t) as [t'|] eqn:E.
  - right. assert (N : ¬ fileOnTheWay p t).
    { intros B. apply rm_blocked in B. congruence. }
    split; [exact N|]. rewrite <- E. now apply rm_clear.
  - left. split; [|reflexivity]. unfold Fs.rm in E.
    destruct (forallb _ _) eqn:F; [discriminate|].
    apply forallb_false in F as (q & Hin & Hf).
    apply list_elem_of_In, elem_of_ancestors in Hin as [Hq Hp].
    apply prefix_removelast in Hp as [Hp Hne]; [|exact Hq].
    destruct (t !! q) as [[|c]|] eqn:L; try discriminate. exists q, c. auto.
Qed.

(** The test [rm] makes, as a way to show that nothing is in the way. *)
Lemma way_clear (p : Path.path) (t : Fs.fs) :
  forallb (fun q => match t !! q with Some (Fs.File _) => false | _ => true end)
          (Fs.ancestors (removelast p)) = true ->
  ¬ fileOnTheWay p t.
Proof.
  intros E B. apply rm_blocked in B. unfold Fs.rm in B. rewrite E in B. discriminate.
Qed.

(** Taking a subtree out puts no file on the way to it. *)
Lemma prune_way (p : Path.path) (t : Fs.fs) :
  fileOnTheWay p (Fs.prune p t) -> fileOnTheWay p t.
Proof.
  intros (q & c & Hq & Hne & Hp & Hf). exists q, c. repeat split; try assumption.
  rewrite prune_lookup_other in Hf; [exact Hf|].
  intros H. apply Hne. now apply (anti_symm prefix).
Qed.

(** What [mkdir] leaves when it succeeds. *)
Lemma mkdir_lookup (p q : Path.path) (t t' : Fs.fs) :
  Fs.mkdir p t = Some t' ->
  t' !! q = if decide (q <> [] /\ q `prefix_of` p) then Some Fs.Dir else t !! q.
Proof.
  unfold Fs.mkdir. case_match; [|discriminate]. intros [= <-].
  rewrite mkdirs_lookup.
  destruct (decide (q ∈ Fs.ancestors p)) as [H1|H1];
    destruct (decide (q <> [] /\ q `prefix_of` p)) as [H2|H2]; try done.
  - by apply elem_of_ancestors in H1.
  - by apply elem_of_ancestors in H2.
Qed.

(** [mkdir] succeeds exactly when no regular file is in the way. *)
Lemma mkdir_succeeds (p : Path.path) (t : Fs.fs) :
  (forall q c, q `prefix_of` p -> t !! q <> Some (Fs.File c)) ->
  exists t', Fs.mkdir p t = Some t'.
Proof.
  intros H. unfold Fs.mkdir.
  assert (E : forallb (fun q => match t !! q with Some (Fs.File _) => false | _ => true end)
                      (Fs.ancestors p) = true).
  { apply forallb_forall. intros q Hq. apply list_elem_of_In, elem_of_ancestors in Hq as [_ Hq].
    destruct (t !! q) as [[|c]|] eqn:E; try reflexivity.
    exfalso. exact (H q c Hq E). }
  rewrite E. eauto.
Qed.

Lemma writeFile_into_dir (dir : Path.path) (name content : string) (t : Fs.fs) :
  Fs.isDir t dir = true -> t !! (dir ++ [name]) <> Some Fs.Dir ->
  Fs.writeFile (dir ++ [name]) content t = Some (<[dir ++ [name] := Fs.File content]> t).
Proof.
  intros Hd Hn. unfold Fs.writeFile. rewrite removelast_snoc, Hd.
  assert (Fs.isDir t (dir ++ [name]) = false) as ->.
  { unfold Fs.isDir. destruct (dir ++ [name]) as [|a l] eqn:E; [now destruct dir|].
    destruct (t !! (a :: l)) as [[|c]|]; try reflexivity. congruence. }
  reflexivity.
Qed.

(** ** The store *)

Lemma maxRowid_bound (m : gmap Z Db.submission) (k : Z) (r : Db.submission) :
  m !! k = Some r -> k <= Db.maxRowid m.
Proof.
  unfold Db.maxRowid. revert k r.
  apply (map_fold_weak_ind (fun acc m => forall k r, m !! k = Some r -> k <= acc)).
  - intros k r H. by rewrite lookup_empty in H.
  - intros i x m' acc Hi IH k r H.
    destruct (decide (i = k)) as [->|Hne]; [lia|].
    rewrite lookup_insert_ne in H by done. specialize (IH k r H). lia.
Qed.

(** AUTOINCREMENT never reuses a rowid that is in the table. *)
Lemma nextRowid_fresh (d : Db.db) : Db.submissions d !! Db.nextRowid d = None.
Proof.
  destruct (Db.submissions d !! Db.nextRowid d) as [r|] eqn:E; [|reflexivity].
  apply maxRowid_bound in E. unfold Db.nextRowid in E. lia.
Qed.

Lemma nextRowid_positive (d : Db.db) : 0 <= Db.submissions_seq d -> 0 < Db.nextRowid d.
Proof. unfold Db.nextRowid. lia. Qed.

(** The login query returns exactly the slugs bookmarked under the hash,
    each once. *)
Lemma selectSlugs_spec (hash slug : string) (d : Db.db) :
  slug ∈ Db.selectSlugs hash d <-> is_Some (Db.bookmarks d !! (hash, slug)).
Proof.
  unfold Db.selectSlugs. rewrite list_elem_of_omap. split.
  - intros ([[h s] c] & Hin & Hf). simpl in Hf.
    destruct (String.eqb_spec h hash) as [->|]; [|discriminate].
    injection Hf as ->. apply elem_of_map_to_list in Hin. eauto.
  - intros [c Hc]. exists ((hash, slug), c). split.
    + now apply elem_of_map_to_list.
    + simpl. now rewrite String.eqb_refl.
Qed.

Lemma selectSlugs_NoDup (hash : string) (d : Db.db) : NoDup (Db.selectSlugs hash d).
Proof.
  unfold Db.selectSlugs.
  pose proof (NoDup_fst_map_to_list (Db.bookmarks d)) as H.
  induction (map_to_list (Db.bookmarks d)) as [|[[h s] c] l IH]; simpl; [constructor|].
  apply NoDup_cons in H as [Hn Hl]. simpl in *.
  destruct (String.eqb_spec h hash) as [->|]; [|by apply IH].
  constructor; [|by apply IH].
  rewrite list_elem_of_omap. intros ([[h' s'] c'] & Hin & Hf). simpl in Hf.
  destruct (String.eqb_spec h' hash) as [->|]; [|discriminate].
  injection Hf as ->. apply Hn. apply list_elem_of_fmap. by exists ((hash, s), c').
Qed.

(** ** Login *)

(** C8. A nickname shorter than three characters after trimming is refused
    with a 400 and the store is left as it was.  A valid nickname logs in
    idempotently: the second login answers as the first, with the same
    identifier in the cookie, and leaves the store as the first left it,
    so no second account row appears; the answer lists exactly the slugs
    bookmarked under the identifier. *)
Theorem login_idempotent (raw : string) (t1 t2 : Z) (d : Db.db) :
  let hash := Auth.hashNickname raw in
  ((String.length (JS.trim raw) < 3)%nat ->
     Account.POST (JS.JStr raw) t1 d
     = (Http.Respond 400 (Http.Error "Nickname must be at least 3 characters") None, d))
  /\ ((3 <= String.length (JS.trim raw))%nat ->
      exists (slugs : list string) (d1 : Db.db),
        Account.POST (JS.JStr raw) t1 d
        = (Http.Respond 200 (Http.OkBookmarks slugs) (Some (Account.sessionCookie hash)), d1)
        /\ Account.POST (JS.JStr raw) t2 d1
           = (Http.Respond 200 (Http.OkBookmarks slugs) (Some (Account.sessionCookie hash)), d1)
        /\ is_Some (Db.accounts d1 !! hash)
        /\ (forall h, h <> hash -> Db.accounts d1 !! h = Db.accounts d !! h)
        /\ (is_Some (Db.accounts d !! hash) -> d1 = d)
        /\ Db.bookmarks d1 = Db.bookmarks d
        /\ Db.submissions d1 = Db.submissions d
        /\ NoDup slugs
        /\ (forall slug, slug ∈ slugs <-> is_Some (Db.bookmarks d !! (hash, slug)))).
Proof.
  intros hash. unfold Account.POST. split.
  - intros H. destruct (String.eqb (JS.trim raw) ""); simpl; [reflexivity|].
    apply Nat.ltb_lt in H. now rewrite H.
  - intros H.
    assert (E1 : String.eqb (JS.trim raw) "" = false).
    { destruct (String.eqb_spec (JS.trim raw) "") as [E|]; [|reflexivity].
      rewrite E in H. simpl in H. lia. }
    assert (E2 : (String.length (JS.trim raw) <? 3)%nat = false) by (apply Nat.ltb_ge; lia).
    rewrite E1, E2. simpl. rewrite hashNickname_trim. fold hash.
    exists (Db.selectSlugs hash (Db.insertOrIgnoreAccount hash t1 d)),
           (Db.insertOrIgnoreAccount hash t1 d).
    assert (Hidem : forall d0 t, is_Some (Db.accounts d0 !! hash) ->
                                 Db.insertOrIgnoreAccount hash t d0 = d0).
    { intros d0 t [c Hc]. unfold Db.insertOrIgnoreAccount. now rewrite Hc. }
    assert (Hin : is_Some (Db.accounts (Db.insertOrIgnoreAccount hash t1 d) !! hash)).
    { unfold Db.insertOrIgnoreAccount. destruct (Db.accounts d !! hash) eqn:E; simpl.
      - rewrite E. eauto.
      - rewrite lookup_insert_eq. eauto. }
    assert (Hbm : Db.bookmarks (Db.insertOrIgnoreAccount hash t1 d) = Db.bookmarks d).
    { unfold Db.insertOrIgnoreAccount. now destruct (Db.accounts d !! hash). }
    split; [reflexivity|]. split; [now rewrite (Hidem _ t2 Hin)|].
    split; [exact Hin|]. split.
    { intros h Hh. unfold Db.insertOrIgnoreAccount.
      destruct (Db.accounts d !! hash); simpl; [reflexivity|].
      now rewrite lookup_insert_ne. }
    split; [apply Hidem|]. split; [exact Hbm|]. split.
    { unfold Db.insertOrIgnoreAccount. now destruct (Db.accounts d !! hash). }
    split; [apply selectSlugs_NoDup|].
    intros slug. rewrite selectSlugs_spec. now rewrite Hbm.
Qed.

Lemma login_idempotent_witness :
  exists (slugs : list string) (d1 : Db.db),
    Account.POST (JS.JStr "  Hello  ") 10 demoAccount
    = (Http.Respond 200 (Http.OkBookmarks slugs)
         (Some (Account.sessionCookie (Auth.hashNickname "  Hello  "))), d1)
    /\ Account.POST (JS.JStr "  Hello  ") 20 d1
       = (Http.Respond 200 (Http.OkBookmarks slugs)
            (Some (Account.sessionCookie (Auth.hashNickname "  Hello  "))), d1)
    /\ is_Some (Db.accounts d1 !! Auth.hashNickname "  Hello  ")
    /\ (forall h, h <> Auth.hashNickname "  Hello  " ->
                  Db.accounts d1 !! h = Db.accounts demoAccount !! h)
    /\ (is_Some (Db.accounts demoAccount !! Auth.hashNickname "  Hello  ") -> d1 = demoAccount)
    /\ Db.bookmarks d1 = Db.bookmarks demoAccount
    /\ Db.submissions d1 = Db.submissions demoAccount
    /\ NoDup slugs
    /\ (forall slug, slug ∈ slugs
                     <-> is_Some (Db.bookmarks demoAccount !! (Auth.hashNickname "  Hello  ", slug))).
Proof.
  apply (proj2 (login_idempotent "  Hello  " 10 20 demoAccount)).
  vm_compute. lia.
Defined.

(** A login and the answers it gives, on the store of the witness. *)
Example login_demo :
  fst (Account.POST (JS.JStr "  Hello  ") 10 demoAccount)
  = Http.Respond 200 (Http.OkBookmarks ["mirage-window"])
      (Some "nades_account=2cf24dba5fb0a30e26e83b2ac5b9e29e1b161e5c1fa7425e73043362938b9824; Path=/; HttpOnly; SameSite=Lax; Max-Age=31536000").
Proof. vm_compute. reflexivity. Qed.

Example login_short :
  Account.POST (JS.JStr "  ab ") 10 emptyDb
  = (Http.Respond 400 (Http.Error "Nickname must be at least 3 characters") None, emptyDb).
Proof. reflexivity. Qed.

(** ** Bookmarks *)

Lemma selectBookmark_true (hash slug : string) (d : Db.db) :
  Db.selectBookmark hash slug d = true <-> is_Some (Db.bookmarks d !! (hash, slug)).
Proof. unfold Db.selectBookmark. apply bool_decide_eq_true. Qed.

Lemma selectBookmark_false (hash slug : string) (d : Db.db) :
  Db.selectBookmark hash slug d = false <-> Db.bookmarks d !! (hash, slug) = None.
Proof.
  unfold Db.selectBookmark. rewrite bool_decide_eq_false. symmetry. apply eq_None_not_Some.
Qed.

(** The toggle on a request that carries an identifier and a slug. *)
Lemma toggle_step (cookie : option string) (hash s : string) (now : Z) (d : Db.db) :
  Auth.getAccountHash cookie = Some hash -> s <> "" ->
  Bookmarks.POST cookie (Some s) now d
  = if Db.selectBookmark hash s d
    then (Http.Respond 200 (Http.Bookmarked false) None, Db.deleteBookmark hash s d)
    else match Db.insertBookmark hash s now d with
         | inl e => (Http.Throw (Http.StoreError e), d)
         | inr d' => (Http.Respond 200 (Http.Bookmarked true) None, d')
         end.
Proof.
  intros Hc Hs. unfold Bookmarks.POST. rewrite Hc. destruct s; [congruence | reflexivity].
Qed.

(** C6, as the code has it.  Without an identifier in the cookie the
    toggle answers 401, without a slug 400, and neither touches the store.
    Otherwise an existing (identifier, slug) row is deleted and the answer
    is [bookmarked = false]; an absent one is inserted, with the answer
    [bookmarked = true], when the identifier has an account row, and is
    refused by the foreign key, the store unchanged, when it has none.
    For an identifier with an account the flag tells whether the row is
    there afterwards, and a second toggle gives the opposite flag and
    restores which rows are present. *)
Theorem bookmark_toggle (cookie slug : option string) (now now' : Z) (d : Db.db) :
  (Auth.getAccountHash cookie = None ->
     Bookmarks.POST cookie slug now d = (Http.Respond 401 (Http.Error "Not logged in") None, d))
  /\ (forall hash, Auth.getAccountHash cookie = Some hash ->
      ((slug = None \/ slug = Some "") ->
         Bookmarks.POST cookie slug now d = (Http.Respond 400 (Http.Error "Missing slug") None, d))
      /\ (forall s, slug = Some s -> s <> "" ->
          (is_Some (Db.bookmarks d !! (hash, s)) ->
             Bookmarks.POST cookie slug now d
             = (Http.Respond 200 (Http.Bookmarked false) None,
                Db.Store (Db.accounts d) (delete (hash, s) (Db.bookmarks d))
                         (Db.submissions d) (Db.submissions_seq d)))
          /\ (Db.bookmarks d !! (hash, s) = None -> is_Some (Db.accounts d !! hash) ->
              Bookmarks.POST cookie slug now d
              = (Http.Respond 200 (Http.Bookmarked true) None,
                 Db.Store (Db.accounts d) (<[(hash, s) := now]> (Db.bookmarks d))
                          (Db.submissions d) (Db.submissions_seq d)))
          /\ (Db.bookmarks d !! (hash, s) = None -> Db.accounts d !! hash = None ->
              Bookmarks.POST cookie slug now d
              = (Http.Throw (Http.StoreError Db.ForeignKeyFailed), d))
          /\ (is_Some (Db.accounts d !! hash) ->
              exists (b : bool) (d1 d2 : Db.db),
                Bookmarks.POST cookie slug now d = (Http.Respond 200 (Http.Bookmarked b) None, d1)
                /\ (b = true <-> is_Some (Db.bookmarks d1 !! (hash, s)))
                /\ (b = true <-> Db.bookmarks d !! (hash, s) = None)
                /\ Bookmarks.POST cookie slug now' d1
                   = (Http.Respond 200 (Http.Bookmarked (negb b)) None, d2)
                /\ (forall k, is_Some (Db.bookmarks d2 !! k) <-> is_Some (Db.bookmarks d !! k))
                /\ Db.accounts d2 = Db.accounts d
                /\ Db.submissions d2 = Db.submissions d
                /\ (Db.bookmarks d !! (hash, s) = None -> d2 = d)))).
Proof.
  split.
  { intros H. unfold Bookmarks.POST. now rewrite H. }
  intros hash Hc. split.
  { intros [->| ->]; unfold Bookmarks.POST; now rewrite Hc. }
  intros s -> Hs.
  assert (Hdel : is_Some (Db.bookmarks d !! (hash, s)) ->
                 Bookmarks.POST cookie (Some s) now d
                 = (Http.Respond 200 (Http.Bookmarked false) None,
                    Db.Store (Db.accounts d) (delete (hash, s) (Db.bookmarks d))
                             (Db.submissions d) (Db.submissions_seq d))).
  { intros H. rewrite (toggle_step cookie hash s now d Hc Hs).
    apply selectBookmark_true in H. now rewrite H. }
  assert (Hins : forall t d0, Db.bookmarks d0 !! (hash, s) = None ->
                 is_Some (Db.accounts d0 !! hash) ->
                 Bookmarks.POST cookie (Some s) t d0
                 = (Http.Respond 200 (Http.Bookmarked true) None,
                    Db.Store (Db.accounts d0) (<[(hash, s) := t]> (Db.bookmarks d0))
                             (Db.submissions d0) (Db.submissions_seq d0))).
  { intros t d0 H [c Ha]. rewrite (toggle_step cookie hash s t d0 Hc Hs).
    pose proof (proj2 (selectBookmark_false hash s d0) H) as E. rewrite E.
    unfold Db.insertBookmark. now rewrite H, Ha. }
  split; [exact Hdel|]. split; [apply Hins|]. split.
  { intros H Ha. rewrite (toggle_step cookie hash s now d Hc Hs).
    pose proof (proj2 (selectBookmark_false hash s d) H) as E. rewrite E.
    unfold Db.insertBookmark. now rewrite H, Ha. }
  intros Ha. destruct (Db.bookmarks d !! (hash, s)) as [c|] eqn:E.
  - (* present: delete, then insert again *)
    eexists false, _, _. split; [apply Hdel; eauto|]. simpl.
    split; [rewrite lookup_delete_eq; split; [discriminate | intros [? ?]; discriminate]|].
    split; [split; discriminate|].
    split; [apply (Hins now'); simpl; [apply lookup_delete_eq | exact Ha]|]. simpl.
    split; [|split; [reflexivity | split; [reflexivity | discriminate]]].
    intros k. destruct (decide (k = (hash, s))) as [->|Hk].
    + rewrite lookup_insert_eq, E. split; eauto.
    + rewrite lookup_insert_ne, lookup_delete_ne by done. reflexivity.
  - (* absent: insert, then delete again *)
    eexists true, _, _. split; [apply Hins; [exact E | exact Ha]|]. simpl.
    split; [rewrite lookup_insert_eq; split; eauto|].
    split; [split; reflexivity|].
    split.
    { rewrite (toggle_step cookie hash s now' _ Hc Hs).
      assert (S : Db.selectBookmark hash s
                    (Db.Store (Db.accounts d) (<[(hash, s) := now]> (Db.bookmarks d))
                              (Db.submissions d) (Db.submissions_seq d)) = true).
      { apply selectBookmark_true. simpl. rewrite lookup_insert_eq. eauto. }
      rewrite S. reflexivity. }
    unfold Db.deleteBookmark. simpl. rewrite delete_insert_id by exact E.
    split; [reflexivity|]. split; [reflexivity|]. split; [reflexivity|].
    intros _. now destruct d.
Qed.

Lemma bookmark_toggle_witness :
  exists (b : bool) (d1 d2 : Db.db),
    Bookmarks.POST helloCookie (Some "mirage-window") 10 loggedIn
    = (Http.Respond 200 (Http.Bookmarked b) None, d1)
    /\ (b = true <-> is_Some (Db.bookmarks d1 !! (helloHash, "mirage-window")))
    /\ (b = true <-> Db.bookmarks loggedIn !! (helloHash, "mirage-window") = None)
    /\ Bookmarks.POST helloCookie (Some "mirage-window") 20 d1
       = (Http.Respond 200 (Http.Bookmarked (negb b)) None, d2)
    /\ (forall k, is_Some (Db.bookmarks d2 !! k) <-> is_Some (Db.bookmarks loggedIn !! k))
    /\ Db.accounts d2 = Db.accounts loggedIn
    /\ Db.submissions d2 = Db.submissions loggedIn
    /\ (Db.bookmarks loggedIn !! (helloHash, "mirage-window") = None -> d2 = loggedIn).
Proof.
  refine (proj2 (proj2 (proj2 (proj2
            (proj2 (bookmark_toggle helloCookie (Some "mirage-window") 10 20 loggedIn)
                   helloHash _) "mirage-window" _ _))) _).
  - vm_compute. reflexivity.
  - reflexivity.
  - discriminate.
  - vm_compute. eauto.
Defined.

(** C6 as stated fails for an identifier that has no account row: the
    cookie carries a well-formed identifier, the pair is absent, and the
    toggle neither inserts it nor answers [bookmarked = true]. *)
Lemma toggle_without_account :
  Auth.getAccountHash helloCookie = Some helloHash
  /\ Db.bookmarks emptyDb !! (helloHash, "mirage-window") = None
  /\ Bookmarks.POST helloCookie (Some "mirage-window") 10 emptyDb
     = (Http.Throw (Http.StoreError Db.ForeignKeyFailed), emptyDb)
  /\ ~ (exists d', Bookmarks.POST helloCookie (Some "mirage-window") 10 emptyDb
                   = (Http.Respond 200 (Http.Bookmarked true) None, d')).
Proof.
  assert (E : Bookmarks.POST helloCookie (Some "mirage-window") 10 emptyDb
              = (Http.Throw (Http.StoreError Db.ForeignKeyFailed), emptyDb))
    by (vm_compute; reflexivity).
  split; [vm_compute; reflexivity|]. split; [vm_compute; reflexivity|].
  split; [exact E|]. intros [d' H]. rewrite E in H. discriminate.
Qed.

(** The cookie a login sets is one the toggle reads the identifier from. *)
Lemma prefix_append (p s : string) : String.prefix p (p ++ s)%string = true.
Proof.
  induction p as [|c p IH].
  - change ("" ++ s)%string with s. now destruct s.
  - change (String c p ++ s)%string with (String c (p ++ s)). simpl.
    destruct (Ascii.ascii_dec c c); [exact IH | congruence].
Qed.

Lemma substring_append (p s : string) :
  String.substring (String.length p) (String.length (p ++ s)%string - String.length p)
                   (p ++ s)%string = s.
Proof.
  induction p as [|c p IH].
  - change ("" ++ s)%string with s. simpl. rewrite Nat.sub_0_r.
    induction s; simpl; congruence.
  - change (String c p ++ s)%string with (String c (p ++ s)). exact IH.
Qed.

Lemma takeHex_append (h rest : string) :
  forallb Auth.isLowerHex (list_ascii_of_string h) = true ->
  Auth.takeHex (String.length h) (h ++ rest)%string = h.
Proof.
  induction h as [|c h IH]; [reflexivity|].
  change (String c h ++ rest)%string with (String c (h ++ rest)). simpl.
  intros H. apply andb_true_iff in H as [Hc Hh]. rewrite Hc, (IH Hh). reflexivity.
Qed.

Lemma matchHere_cookie (h rest : string) :
  String.length h = 64%nat ->
  forallb Auth.isLowerHex (list_ascii_of_string h) = true ->
  Auth.matchHere ("nades_account=" ++ h ++ rest)%string = Some h.
Proof.
  intros L H.
  assert (T : Auth.takeHex 64 (h ++ rest)%string = h)
    by (rewrite <- L; now apply takeHex_append).
  pose proof (substring_append "nades_account=" (h ++ rest)%string) as S.
  change (String.length "nades_account=") with 14%nat in S.
  unfold Auth.matchHere. rewrite prefix_append, S, T, L. reflexivity.
Qed.

Lemma matchCookie_here (s g : string) :
  Auth.matchHere s = Some g -> Auth.matchCookie s = Some g.
Proof. intros H. destruct s; unfold Auth.matchCookie; now rewrite H. Qed.

Lemma login_cookie_read_back (raw : string) :
  Auth.getAccountHash (Some (Account.sessionCookie (Auth.hashNickname raw)))
  = Some (Auth.hashNickname raw).
Proof.
  unfold Auth.getAccountHash, Account.sessionCookie. cbn [default from_option].
  apply matchCookie_here, matchHere_cookie; unfold Auth.hashNickname, Sha256.sha256_hex.
  - apply hex_length.
  - apply hex_lower.
Qed.

(** A cookie with a shorter value, or none, carries no identifier. *)
Example cookie_rejected :
  Auth.getAccountHash (Some "nades_account=2cf24dba5fb0a30e26e83b2ac5b9e29e") = None
  /\ Auth.getAccountHash (Some "theme=dark") = None
  /\ Auth.getAccountHash None = None.
Proof. vm_compute. repeat split; reflexivity. Qed.

(** ** Moderation *)

Lemma truthy_nonzero (n : Z) : n <> 0 -> JS.truthy (JS.JNum n) = true.
Proof. intros H. simpl. destruct (Z.eqb_spec n 0); [contradiction | reflexivity]. Qed.

Lemma includes_decision (status : JS.value) :
  Review.includes ["approved"; "rejected"] status = true ->
  (status = JS.JStr "approved" /\ Db.statusOfText (JS.toString status) = Some Db.approved)
  \/ (status = JS.JStr "rejected" /\ Db.statusOfText (JS.toString status) = Some Db.rejected).
Proof.
  destruct status as [| |n|s]; simpl; try discriminate.
  destruct (String.eqb_spec s "approved") as [->|]; [now left|].
  destruct (String.eqb_spec s "rejected") as [->|]; [now right | discriminate].
Qed.

Lemma includes_weaken (status : JS.value) :
  Review.includes ["approved"; "rejected"] status = true ->
  Review.includes ["approved"; "rejected"; "deleted"] status = true
  /\ Review.includes ["deleted"] status = false.
Proof.
  intros H. destruct (includes_decision status H) as [[-> _]|[-> _]]; split; reflexivity.
Qed.

Lemma untouched_refl (now : Z) (d : Db.db) : untouched_or_decided now d d.
Proof. repeat split. intros j r' H. exists r'. auto. Qed.

Lemma updateStatus_decided (numericText : string -> option Z) (status id : JS.value)
      (now : Z) (d d' : Db.db) :
  Review.includes ["approved"; "rejected"] status = true ->
  Db.updateStatus numericText (JS.toString status) id now d = inr d' ->
  untouched_or_decided now d d'.
Proof.
  intros Hs. unfold Db.updateStatus.
  destruct (Db.rowidOf numericText id) as [e|[k|]]; [discriminate| |].
  2: { intros [= <-]. apply untouched_refl. }
  destruct (Db.submissions d !! k) as [r|] eqn:E.
  2: { intros [= <-]. apply untouched_refl. }
  assert (exists target, target <> Db.pending
                         /\ Db.statusOfText (JS.toString status) = Some target)
    as (target & Ht & ->).
  { destruct (includes_decision status Hs) as [[_ ->]|[_ ->]]; eexists; split; eauto;
      discriminate. }
  intros [= <-]. repeat split. simpl. intros j r' H.
  destruct (decide (k = j)) as [->|Hne].
  - rewrite lookup_insert_eq in H. injection H as <-. exists r. split; [exact E|].
    right. exists target. split; [exact Ht | reflexivity].
  - rewrite lookup_insert_ne in H by done. exists r'. auto.
Qed.

Lemma deleteSubmission_untouched (numericText : string -> option Z) (id : JS.value)
      (now : Z) (d d' : Db.db) :
  Db.deleteSubmission numericText id d = inr d' -> untouched_or_decided now d d'.
Proof.
  unfold Db.deleteSubmission.
  destruct (Db.rowidOf numericText id) as [e|[k|]]; [discriminate| |].
  2: { intros [= <-]. apply untouched_refl. }
  intros [= <-]. repeat split. simpl. intros j r' H.
  apply lookup_delete_Some in H as [_ H]. exists r'. auto.
Qed.

(** C1, as the code has it.  A decision (approved or rejected) on an
    existing submission sets the status to the requested value and the
    review time to the current time in one update, whatever the status
    was: the panel does not look at the current status.  In both
    revisions, whatever the request, a review creates no row, and every
    row afterwards is either exactly as it was or carries a decision other
    than pending together with the current time as its review time. *)
Theorem review_decision (numericText : string -> option Z) (cwd : Path.path)
        (k now : Z) (status : JS.value) (d : Db.db) (t : Fs.fs) (r : Db.submission) :
  k <> 0 ->
  Review.includes ["approved"; "rejected"] status = true ->
  Db.submissions d !! k = Some r ->
  (exists target,
      target <> Db.pending
      /\ Db.statusOfText (JS.toString status) = Some target
      /\ let d' := Db.Store (Db.accounts d) (Db.bookmarks d)
                            (<[k := decide_row target now r]> (Db.submissions d))
                            (Db.submissions_seq d) in
         Review.POST_v1 numericText (JS.JNum k) status now d
         = (Http.Respond 200 Http.Ok None, d')
         /\ Review.POST numericText cwd (JS.JNum k) status now (d, t)
            = (Http.Respond 200 Http.Ok None, (d', t)))
  /\ (forall id status' out d',
         Review.POST_v1 numericText id status' now d = (out, d') ->
         untouched_or_decided now d d')
  /\ (forall id status' out d' t',
         Review.POST numericText cwd id status' now (d, t) = (out, (d', t')) ->
         untouched_or_decided now d d').
Proof.
  intros Hk Hs Hr. split; [|split].
  - assert (exists target, target <> Db.pending
                           /\ Db.statusOfText (JS.toString status) = Some target)
      as (target & Ht & E).
    { destruct (includes_decision status Hs) as [[_ ->]|[_ ->]]; eexists; split; eauto;
        discriminate. }
    exists target. split; [exact Ht|]. split; [exact E|].
    destruct (includes_weaken status Hs) as [H3 Hd].
    pose proof (truthy_nonzero k Hk) as Htr.
    unfold Review.POST_v1, Review.POST. rewrite Htr, Hs, H3, Hd. simpl.
    unfold Db.updateStatus. simpl. rewrite Hr, E. split; reflexivity.
  - intros id status' out d'. unfold Review.POST_v1.
    destruct (negb (JS.truthy id) || negb (Review.includes ["approved"; "rejected"] status'))
      eqn:G.
    + intros [= _ <-]. apply untouched_refl.
    + apply orb_false_iff in G as [_ G]. apply negb_false_iff in G.
      destruct (Db.updateStatus numericText (JS.toString status') id now d) as [e|d2] eqn:U.
      * intros [= _ <-]. apply untouched_refl.
      * intros [= _ <-]. eapply updateStatus_decided; eauto.
  - intros id status' out d' t'. unfold Review.POST.
    destruct (negb (JS.truthy id)
              || negb (Review.includes ["approved"; "rejected"; "deleted"] status')) eqn:G.
    + intros [= _ <- _]. apply untouched_refl.
    + apply orb_false_iff in G as [_ G]. apply negb_false_iff in G. simpl.
      destruct (Review.includes ["deleted"] status') eqn:D.
      * destruct (Fs.rm (Review.stagingDir cwd id) t) as [t2|].
        2: { intros [= _ <- _]. apply untouched_refl. }
        destruct (Db.deleteSubmission numericText id d) as [e|d2] eqn:U.
        -- intros [= _ <- _]. apply untouched_refl.
        -- intros [= _ <- _]. eapply deleteSubmission_untouched; eauto.
      * assert (G2 : Review.includes ["approved"; "rejected"] status' = true).
        { destruct status' as [| |n|s]; simpl in *; try discriminate.
          destruct (String.eqb s "approved"); [reflexivity|].
          destruct (String.eqb s "rejected"); [reflexivity|].
          rewrite orb_false_r in D, G. simpl in G. congruence. }
        destruct (Db.updateStatus numericText (JS.toString status') id now d) as [e|d2] eqn:U.
        -- intros [= _ <- _]. apply untouched_refl.
        -- intros [= _ <- _]. eapply updateStatus_decided; eauto.
Qed.

Lemma review_decision_witness :
  (exists target,
      target <> Db.pending
      /\ Db.statusOfText "rejected" = Some target
      /\ let d' := Db.Store (Db.accounts decided) (Db.bookmarks decided)
                    (<[1 := decide_row target 200
                              (Db.Submission Db.approved (Some "https://csnades.gg/lineups/42")
                                 None None None (Some (Db.Payload false None)) 50 (Some 100))]>
                       (Db.submissions decided))
                    (Db.submissions_seq decided) in
         Review.POST_v1 digitsText (JS.JNum 1) (JS.JStr "rejected") 200 decided
         = (Http.Respond 200 Http.Ok None, d')
         /\ Review.POST digitsText adminCwd (JS.JNum 1) (JS.JStr "rejected") 200
                        (decided, siteFiles)
            = (Http.Respond 200 Http.Ok None, (d', siteFiles)))
  /\ (forall id status' out d',
         Review.POST_v1 digitsText id status' 200 decided = (out, d') ->
         untouched_or_decided 200 decided d')
  /\ (forall id status' out d' t',
         Review.POST digitsText adminCwd id status' 200 (decided, siteFiles) = (out, (d', t')) ->
         untouched_or_decided 200 decided d').
Proof.
  apply (review_decision digitsText adminCwd 1 200 (JS.JStr "rejected") decided siteFiles).
  - lia.
  - reflexivity.
  - vm_compute. reflexivity.
Defined.

(** C1 as stated fails: a submission approved at time 100 is reviewed
    again with [rejected] at time 200, and both its status and its review
    time change, in either revision of the panel. *)
Lemma review_overwrites_decision :
  (Db.sub_status <$> Db.submissions decided !! 1) = Some Db.approved
  /\ (Db.reviewed_at <$> Db.submissions decided !! 1) = Some (Some 100)
  /\ (let d' := snd (Review.POST_v1 digitsText (JS.JNum 1) (JS.JStr "rejected") 200 decided) in
      (Db.sub_status <$> Db.submissions d' !! 1) = Some Db.rejected
      /\ (Db.reviewed_at <$> Db.submissions d' !! 1) = Some (Some 200))
  /\ (let d' := fst (snd (Review.POST digitsText adminCwd (JS.JNum 1) (JS.JStr "rejected") 200
                                      (decided, siteFiles))) in
      (Db.sub_status <$> Db.submissions d' !! 1) = Some Db.rejected
      /\ (Db.reviewed_at <$> Db.submissions d' !! 1) = Some (Some 200)).
Proof. vm_compute. repeat split; reflexivity. Qed.

(** C2, as the code has it.  The panel runs in a subdirectory of the
    site and the identifier is the number [n].  When no regular file lies
    on the way to [<site>/staging/<n>], a review with status [deleted]
    answers 200; afterwards the row [n] is absent and nothing exists at
    or below that directory; no other row and no other path changes;
    when there was no staging directory the files are as they were; and
    the same request again answers 200 and changes nothing.  When a
    regular file lies on the way, the removal throws, the exception
    escapes, and neither the row nor any file is removed.  [n] is an
    integer that a number holds exactly. *)
Theorem deleted_purges (numericText : string -> option Z) (site : Path.path) (sub : string)
        (n now now' : Z) (d : Db.db) (t : Fs.fs) :
  n <> 0 -> Z.abs n < 2 ^ 53 ->
  let cwd := site ++ [sub] in
  let dir := site ++ ["staging"; pretty n] in
  (fileOnTheWay dir t ->
   Review.POST numericText cwd (JS.JNum n) (JS.JStr "deleted") now (d, t)
   = (Http.Throw Http.FsError, (d, t)))
  /\ (¬ fileOnTheWay dir t ->
      exists (d' : Db.db) (t' : Fs.fs),
        Review.POST numericText cwd (JS.JNum n) (JS.JStr "deleted") now (d, t)
        = (Http.Respond 200 Http.Ok None, (d', t'))
        /\ Db.submissions d' !! n = None
        /\ (forall p, dir `prefix_of` p -> t' !! p = None)
        /\ (forall j, j <> n -> Db.submissions d' !! j = Db.submissions d !! j)
        /\ (forall p, ¬ dir `prefix_of` p -> t' !! p = t !! p)
        /\ ((forall p, dir `prefix_of` p -> t !! p = None) -> t' = t)
        /\ Review.POST numericText cwd (JS.JNum n) (JS.JStr "deleted") now' (d', t')
           = (Http.Respond 200 Http.Ok None, (d', t'))).
Proof.
  intros Hn _ cwd dir.
  pose proof (truthy_nonzero n Hn) as Htr.
  assert (Hdir : Review.stagingDir cwd (JS.JNum n) = dir) by apply review_stagingDir.
  split.
  - intros B. unfold Review.POST. rewrite Htr, Hdir. cbn [fst snd].
    rewrite (rm_blocked dir t B). reflexivity.
  - intros N.
    assert (Hpost : forall time d0 t0,
               ¬ fileOnTheWay dir t0 ->
               Review.POST numericText cwd (JS.JNum n) (JS.JStr "deleted") time (d0, t0)
               = (Http.Respond 200 Http.Ok None,
                  (Db.Store (Db.accounts d0) (Db.bookmarks d0) (delete n (Db.submissions d0))
                            (Db.submissions_seq d0),
                   Fs.prune dir t0))).
    { intros time d0 t0 N0. unfold Review.POST. rewrite Htr, Hdir. cbn [fst snd].
      rewrite (rm_clear dir t0 N0). reflexivity. }
    eexists _, _. split; [now apply Hpost|]. simpl.
    split; [apply lookup_delete_eq|].
    split; [intros p Hp; now apply prune_lookup_below|].
    split; [intros j Hj; now apply lookup_delete_ne|].
    split; [intros p Hp; now apply prune_lookup_other|].
    split; [apply prune_absent|].
    rewrite Hpost by (intros B; apply N; now apply prune_way).
    simpl. now rewrite delete_delete_eq, prune_idem.
Qed.

Lemma deleted_purges_witness :
  exists (d' : Db.db) (t' : Fs.fs),
    Review.POST digitsText (siteCwd ++ ["admin"]) (JS.JNum 1) (JS.JStr "deleted") 200
                (decided, siteFiles)
    = (Http.Respond 200 Http.Ok None, (d', t'))
    /\ Db.submissions d' !! 1 = None
    /\ (forall p, (siteCwd ++ ["staging"; pretty 1]) `prefix_of` p -> t' !! p = None)
    /\ (forall j, j <> 1 -> Db.submissions d' !! j = Db.submissions decided !! j)
    /\ (forall p, ¬ (siteCwd ++ ["staging"; pretty 1]) `prefix_of` p ->
                  t' !! p = siteFiles !! p)
    /\ ((forall p, (siteCwd ++ ["staging"; pretty 1]) `prefix_of` p -> siteFiles !! p = None)
        -> t' = siteFiles)
    /\ Review.POST digitsText (siteCwd ++ ["admin"]) (JS.JNum 1) (JS.JStr "deleted") 300 (d', t')
       = (Http.Respond 200 Http.Ok None, (d', t')).
Proof.
  apply (deleted_purges digitsText siteCwd "admin" 1 200 300 decided siteFiles);
    [lia | reflexivity |].
  apply way_clear. vm_compute. reflexivity.
Defined.

(** C2 as stated fails in two ways.  With a regular file in the place of
    the staging root the removal throws and row 1 stays; with the
    identifier sent as the string ["01"] the store matches row 1 and
    deletes it, while the directory removed is [staging/01], so the staged
    upload of submission 1 is still there after the request completed. *)
Lemma delete_blocked_or_misdirected :
  (let result := Review.POST digitsText adminCwd (JS.JNum 1) (JS.JStr "deleted") 200
                             (decided, blockedFiles) in
   fst result = Http.Throw Http.FsError
   /\ is_Some (Db.submissions (fst (snd result)) !! 1)
   /\ snd (snd result) !! ["srv"; "cs-nades"; "staging"] = Some (Fs.File "not a directory"))
  /\ (let result := Review.POST digitsText adminCwd (JS.JStr "01") (JS.JStr "deleted") 200
                                (decided, siteFiles) in
      Review.stagingDir adminCwd (JS.JStr "01") = ["srv"; "cs-nades"; "staging"; "01"]
      /\ fst result = Http.Respond 200 Http.Ok None
      /\ is_Some (Db.submissions decided !! 1)
      /\ Db.submissions (fst (snd result)) !! 1 = None
      /\ snd (snd result) !! ["srv"; "cs-nades"; "staging"; "1"] = Some Fs.Dir
      /\ snd (snd result) !! ["srv"; "cs-nades"; "staging"; "1"; "aim.jpg"]
         = Some (Fs.File "AA")).
Proof. vm_compute. repeat split; eauto. Qed.

(** The specification's scenario: the staged upload of submission 1 is
    gone with its directory, the rest of the site's files stay. *)
Example deleted_scenario :
  let st' := snd (Review.POST digitsText adminCwd (JS.JNum 1) (JS.JStr "deleted") 200
                              (decided, siteFiles)) in
  Review.stagingDir adminCwd (JS.JNum 1) = ["srv"; "cs-nades"; "staging"; "1"]
  /\ Db.submissions (fst st') !! 1 = None
  /\ snd st' !! ["srv"; "cs-nades"; "staging"; "1"] = None
  /\ snd st' !! ["srv"; "cs-nades"; "staging"; "1"; "aim.jpg"] = None
  /\ snd st' !! ["srv"; "cs-nades"; "staging"] = Some Fs.Dir
  /\ snd st' !! ["srv"; "cs-nades"; "cs-nades.db"] = Some (Fs.File "SQLite format 3").
Proof. vm_compute. repeat split; reflexivity. Qed.

(** From intake to deletion: the staged submission of the screenshot
    scenario, deleted by the panel, leaves neither row nor directory. *)
Example intake_then_delete :
  let st1 := snd (Submit.POST httpsHost siteCwd demoForm 100 (emptyDb, ∅)) in
  let result := Review.POST digitsText adminCwd (JS.JNum 1) (JS.JStr "deleted") 200 st1 in
  snd st1 !! ["srv"; "cs-nades"; "staging"; "1"; "aim.jpg"] = Some (Fs.File "AA")
  /\ fst result = Http.Respond 200 Http.Ok None
  /\ Db.submissions (fst (snd result)) !! 1 = None
  /\ snd (snd result) !! ["srv"; "cs-nades"; "staging"; "1"] = None
  /\ snd (snd result) !! ["srv"; "cs-nades"; "staging"; "1"; "position.jpg"] = None
  /\ snd (snd result) !! ["srv"; "cs-nades"; "staging"; "1"; "aim.jpg"] = None
  /\ snd (snd result) !! ["srv"; "cs-nades"; "staging"; "1"; "result.jpg"] = None
  /\ snd (snd result) !! ["srv"; "cs-nades"; "staging"] = Some Fs.Dir.
Proof. vm_compute. repeat split; reflexivity. Qed.

(** C3, as the code has it.  A review whose identifier is missing or
    falsy, or whose status is not one the revision supports, is answered
    400 and nothing changes.  A numeric identifier that names no
    submission is not refused.  With the status approved or rejected the
    answer is 200 and nothing changes.  With the status deleted and [n]
    an integer that a number holds exactly, the directory removed being
    [<site>/staging/<n>] for a panel in a subdirectory of the site: when no regular file lies on the way to it
    the answer is 200, no row is deleted, and only what lies at or below
    that directory is removed; when one does, the removal throws, the
    exception escapes, and nothing changes. *)
Theorem review_validation (numericText : string -> option Z) (cwd : Path.path)
        (id status : JS.value) (now : Z) (d : Db.db) (t : Fs.fs) :
  (JS.truthy id = false \/ Review.includes ["approved"; "rejected"] status = false ->
     Review.POST_v1 numericText id status now d
     = (Http.Respond 400 (Http.Error "Invalid data") None, d))
  /\ (JS.truthy id = false
      \/ Review.includes ["approved"; "rejected"; "deleted"] status = false ->
      Review.POST numericText cwd id status now (d, t)
      = (Http.Respond 400 (Http.Error "Invalid data") None, (d, t)))
  /\ (forall n, id = JS.JNum n -> n <> 0 -> Db.submissions d !! n = None ->
      (Review.includes ["approved"; "rejected"] status = true ->
         Review.POST_v1 numericText id status now d = (Http.Respond 200 Http.Ok None, d)
         /\ Review.POST numericText cwd id status now (d, t)
            = (Http.Respond 200 Http.Ok None, (d, t)))
      /\ (status = JS.JStr "deleted" -> Z.abs n < 2 ^ 53 ->
          (forall site sub, cwd = site ++ [sub] ->
                            Review.stagingDir cwd id = site ++ ["staging"; pretty n])
          /\ (fileOnTheWay (Review.stagingDir cwd id) t ->
              Review.POST numericText cwd id status now (d, t)
              = (Http.Throw Http.FsError, (d, t)))
          /\ (¬ fileOnTheWay (Review.stagingDir cwd id) t ->
              exists t' : Fs.fs,
                Review.POST numericText cwd id status now (d, t)
                = (Http.Respond 200 Http.Ok None, (d, t'))
                /\ (forall p, Review.stagingDir cwd id `prefix_of` p -> t' !! p = None)
                /\ (forall p, ¬ Review.stagingDir cwd id `prefix_of` p ->
                              t' !! p = t !! p)))).
Proof.
  split; [|split].
  - intros [H|H]; unfold Review.POST_v1; rewrite H; simpl; rewrite ?orb_true_r; reflexivity.
  - intros [H|H]; unfold Review.POST; rewrite H; simpl; rewrite ?orb_true_r; reflexivity.
  - intros n -> Hn Hr.
    pose proof (truthy_nonzero n Hn) as Htr.
    split.
    + intros Hs. destruct (includes_weaken status Hs) as [H3 Hd].
      unfold Review.POST_v1, Review.POST. rewrite Htr, Hs, H3, Hd. simpl.
      unfold Db.updateStatus. simpl. rewrite Hr. split; reflexivity.
    + intros -> _. split; [|split].
      * intros site sub ->. apply review_stagingDir.
      * intros B. unfold Review.POST. rewrite Htr. cbn [fst snd].
        rewrite (rm_blocked _ _ B). reflexivity.
      * intros N. exists (Fs.prune (Review.stagingDir cwd (JS.JNum n)) t). split; [|split].
        -- unfold Review.POST. rewrite Htr. cbn [fst snd]. rewrite (rm_clear _ _ N). simpl.
           rewrite (delete_id _ _ Hr). now destruct d.
        -- intros p Hp. now apply prune_lookup_below.
        -- intros p Hp. now apply prune_lookup_other.
Qed.

Lemma review_validation_witness :
  Review.POST_v1 digitsText (JS.JNum 0) (JS.JStr "approved") 200 decided
  = (Http.Respond 400 (Http.Error "Invalid data") None, decided)
  /\ Review.POST digitsText adminCwd (JS.JNum 1) (JS.JStr "pending") 200 (decided, siteFiles)
     = (Http.Respond 400 (Http.Error "Invalid data") None, (decided, siteFiles))
  /\ (exists t' : Fs.fs,
        Review.POST digitsText adminCwd (JS.JNum 999) (JS.JStr "deleted") 200
                    (decided, siteFiles)
        = (Http.Respond 200 Http.Ok None, (decided, t'))
        /\ (forall p, Review.stagingDir adminCwd (JS.JNum 999) `prefix_of` p -> t' !! p = None)
        /\ (forall p, ¬ Review.stagingDir adminCwd (JS.JNum 999) `prefix_of` p ->
                      t' !! p = siteFiles !! p))
  /\ Review.POST digitsText adminCwd (JS.JNum 999) (JS.JStr "deleted") 200
                 (decided, blockedFiles)
     = (Http.Throw Http.FsError, (decided, blockedFiles)).
Proof.
  split; [|split; [|split]].
  - apply (proj1 (review_validation digitsText adminCwd (JS.JNum 0) (JS.JStr "approved")
                                    200 decided siteFiles)).
    left. reflexivity.
  - apply (proj1 (proj2 (review_validation digitsText adminCwd (JS.JNum 1) (JS.JStr "pending")
                                           200 decided siteFiles))).
    right. reflexivity.
  - apply (proj2 (proj2 (proj2 (proj2 (proj2 (review_validation digitsText adminCwd
                                                (JS.JNum 999) (JS.JStr "deleted") 200
                                                decided siteFiles))
                                      999 eq_refl ltac:(lia) ltac:(vm_compute; reflexivity))
                               eq_refl eq_refl))).
    apply way_clear. vm_compute. reflexivity.
  - apply (proj1 (proj2 (proj2 (proj2 (proj2 (review_validation digitsText adminCwd
                                                (JS.JNum 999) (JS.JStr "deleted") 200
                                                decided blockedFiles))
                                      999 eq_refl ltac:(lia) ltac:(vm_compute; reflexivity))
                               eq_refl eq_refl))).
    exists ["srv"; "cs-nades"; "staging"], "not a directory".
    split; [discriminate|]. split; [discriminate|]. split; [|apply lookup_singleton_eq].
    exists [pretty 999]. reflexivity.
Defined.

(** C3 as stated fails: the identifier 999 names no submission, yet both
    revisions answer 200, not a client error. *)
Lemma review_unknown_id_accepted :
  Db.submissions decided !! 999 = None
  /\ fst (Review.POST_v1 digitsText (JS.JNum 999) (JS.JStr "approved") 200 decided)
     = Http.Respond 200 Http.Ok None
  /\ fst (Review.POST digitsText adminCwd (JS.JNum 999) (JS.JStr "approved") 200
                      (decided, siteFiles))
     = Http.Respond 200 Http.Ok None.
Proof. split; [|split]; vm_compute; reflexivity. Qed.

(** C9.  The identifier [".."] passes the panel's validation, and with the
    status [deleted] the directory removed is the site's own directory,
    the parent of the staging root: the database file, which lies outside
    the staging root, is gone afterwards. *)
Theorem staging_escape_by_id :
  let id := JS.JStr ".." in
  let root := Path.join adminCwd [".."; "staging"] in
  let result := Review.POST digitsText adminCwd id (JS.JStr "deleted") 200 (decided, siteFiles) in
  JS.truthy id = true
  /\ root = ["srv"; "cs-nades"; "staging"]
  /\ Review.stagingDir adminCwd id = ["srv"; "cs-nades"]
  /\ fst result = Http.Respond 200 Http.Ok None
  /\ siteFiles !! ["srv"; "cs-nades"; "cs-nades.db"] = Some (Fs.File "SQLite format 3")
  /\ snd (snd result) !! ["srv"; "cs-nades"; "cs-nades.db"] = None
  /\ ¬ root `prefix_of` ["srv"; "cs-nades"; "cs-nades.db"].
Proof.
  vm_compute. repeat split; try reflexivity.
  intros [k Hk]. discriminate Hk.
Qed.

(** A path that climbs out and names one file removes that file. *)
Example staging_escape_names_database :
  let result := Review.POST digitsText adminCwd (JS.JStr "../cs-nades.db") (JS.JStr "deleted")
                            200 (decided, siteFiles) in
  Review.stagingDir adminCwd (JS.JStr "../cs-nades.db") = ["srv"; "cs-nades"; "cs-nades.db"]
  /\ snd (snd result) !! ["srv"; "cs-nades"; "cs-nades.db"] = None
  /\ snd (snd result) !! ["srv"; "cs-nades"; "staging"; "1"; "aim.jpg"] = Some (Fs.File "AA").
Proof. vm_compute. repeat split; reflexivity. Qed.

(** For a numeric identifier the removal stays inside the staging root:
    every path that disappears lies at or below [<site>/staging/<n>]. *)
Lemma numeric_id_confined (numericText : string -> option Z)
      (site : Path.path) (sub : string) (n now : Z) (d : Db.db) (t : Fs.fs) (p : Path.path) :
  is_Some (t !! p) ->
  snd (snd (Review.POST numericText (site ++ [sub]) (JS.JNum n) (JS.JStr "deleted") now (d, t)))
    !! p = None ->
  (site ++ ["staging"; pretty n]) `prefix_of` p.
Proof.
  intros [x Hx] H. unfold Review.POST in H. rewrite review_stagingDir in H. cbn [fst snd] in H.
  destruct (negb (JS.truthy (JS.JNum n)) || _) eqn:G; [simpl in H; congruence|].
  cbn [Review.includes existsb String.eqb Ascii.eqb Bool.eqb orb andb] in H.
  destruct (rm_cases (site ++ ["staging"; pretty n]) t) as [[_ E]|[_ E]];
    rewrite E in H; simpl in H; [congruence|].
  destruct (decide ((site ++ ["staging"; pretty n]) `prefix_of` p)) as [Hp|Hp]; [exact Hp|].
  rewrite prune_lookup_other in H by exact Hp. congruence.
Qed.

(** ** Submission intake *)

Lemma trim_empty (s : string) : String.eqb s "" = true -> String.eqb (JS.trim s) "" = true.
Proof. destruct (String.eqb_spec s "") as [->|]; [reflexivity | discriminate]. Qed.

Lemma blank_emptyText (v : option Submit.entry) :
  Submit.isText v = true -> Submit.blank v = Some (Submit.emptyText v).
Proof.
  destruct v as [[s|c]|]; simpl; try discriminate; [|reflexivity]. intros _. f_equal.
  destruct (String.eqb s "") eqn:E; [|reflexivity]. simpl. symmetry. now apply trim_empty.
Qed.

Lemma blank_text (v : option Submit.entry) (b : bool) :
  Submit.blank v = Some b -> Submit.isText v = true.
Proof. destruct v as [[s|c]|]; simpl; [reflexivity | discriminate | reflexivity]. Qed.

Lemma descriptiveText_field (f : Submit.formData) (name : string) :
  Submit.descriptiveText f = true -> In name Submit.DESCRIPTIVE ->
  Submit.isText (Submit.get name f) = true.
Proof. unfold Submit.descriptiveText. rewrite forallb_forall. auto. Qed.

Lemma screenshotFiles_field (f : Submit.formData) (name : string) :
  Submit.screenshotFiles f = true -> In name Submit.SCREENSHOTS ->
  Submit.isFile (Submit.get name f) = true.
Proof. unfold Submit.screenshotFiles. rewrite forallb_forall. auto. Qed.

(** The loop over the files answers the first item that is missing,
    empty or too large, and passes when there is none. *)
Lemma checkFiles_spec (f : Submit.formData) (names : list string) :
  match Submit.checkFiles f names with
  | Some out =>
      exists name, In name names
        /\ ((negb (Submit.truthy (Submit.get name f))
             || bool_decide (Submit.size (Submit.get name f) = Some 0) = true
             /\ out = Http.badRequest (Submit.message (Submit.MissingFile name)))
            \/ (match Submit.size (Submit.get name f) with
                | Some n => Submit.MAX_FILE_SIZE <? n
                | None => false
                end = true
                /\ out = Http.badRequest (Submit.message (Submit.OversizeFile name))))
  | None =>
      forall name, In name names ->
        negb (Submit.truthy (Submit.get name f))
        || bool_decide (Submit.size (Submit.get name f) = Some 0) = false
        /\ match Submit.size (Submit.get name f) with
           | Some n => Submit.MAX_FILE_SIZE <? n
           | None => false
           end = false
  end.
Proof.
  induction names as [|name names IH]; simpl; [intros ? []|].
  destruct (negb (Submit.truthy (Submit.get name f))
            || bool_decide (Submit.size (Submit.get name f) = Some 0)) eqn:M.
  { exists name. split; [now left|]. left. split; [exact M | reflexivity]. }
  destruct (match Submit.size (Submit.get name f) with
            | Some n => Submit.MAX_FILE_SIZE <? n
            | None => false
            end) eqn:O.
  { exists name. split; [now left|]. right. split; [exact O | reflexivity]. }
  destruct (Submit.checkFiles f names) as [out|].
  - destruct IH as (name' & Hin & H). exists name'. split; [now right | exact H].
  - intros name' [<-|Hin]; [split; assumption | now apply IH].
Qed.

(** The checks on the descriptive fields, when these are text. *)
Lemma checkDetails_spec (f : Submit.formData) :
  Submit.descriptiveText f = true ->
  match Submit.checkDetails f with
  | Some out =>
      (Submit.emptyText (Submit.get "lineup_name" f) = true
       /\ out = Http.badRequest (Submit.message Submit.LineupNameRequired))
      \/ (Submit.emptyText (Submit.get "stand_desc" f) = true
          /\ out = Http.badRequest (Submit.message Submit.StandDescRequired))
      \/ (Submit.emptyText (Submit.get "aim_desc" f) = true
          /\ out = Http.badRequest (Submit.message Submit.AimDescRequired))
      \/ (Submit.among (Submit.get "throw_type" f) Submit.VALID_THROW_TYPES = false
          /\ out = Http.badRequest (Submit.message Submit.ThrowTypeRequired))
  | None =>
      Submit.emptyText (Submit.get "lineup_name" f) = false
      /\ Submit.emptyText (Submit.get "stand_desc" f) = false
      /\ Submit.emptyText (Submit.get "aim_desc" f) = false
      /\ Submit.among (Submit.get "throw_type" f) Submit.VALID_THROW_TYPES = true
  end.
Proof.
  intros W. unfold Submit.checkDetails.
  rewrite (blank_emptyText (Submit.get "lineup_name" f))
    by (apply descriptiveText_field; [exact W | simpl; tauto]).
  rewrite (blank_emptyText (Submit.get "stand_desc" f))
    by (apply descriptiveText_field; [exact W | simpl; tauto]).
  rewrite (blank_emptyText (Submit.get "aim_desc" f))
    by (apply descriptiveText_field; [exact W | simpl; tauto]).
  destruct (Submit.emptyText (Submit.get "lineup_name" f)); [left; auto|].
  destruct (Submit.emptyText (Submit.get "stand_desc" f)); [right; left; auto|].
  destruct (Submit.emptyText (Submit.get "aim_desc" f)); [right; right; left; auto|].
  destruct (Submit.among (Submit.get "throw_type" f) Submit.VALID_THROW_TYPES) eqn:A.
  - assert (T : Submit.truthy (Submit.get "throw_type" f) = true).
    { destruct (Submit.get "throw_type" f) as [[s|c]|]; simpl in *; try discriminate.
      destruct (String.eqb_spec s "") as [->|]; [discriminate | reflexivity]. }
    rewrite T. simpl. auto.
  - rewrite orb_true_r. right; right; right. auto.
Qed.

Lemma checkUrl_spec (hostname : string -> option string) (f : Submit.formData) :
  match Submit.checkUrl hostname f with
  | Some out =>
      (Submit.violates hostname f Submit.MalformedUrl = true
       /\ out = Http.badRequest (Submit.message Submit.MalformedUrl))
      \/ (Submit.violates hostname f Submit.OffDomain = true
          /\ out = Http.badRequest (Submit.message Submit.OffDomain))
  | None =>
      Submit.violates hostname f Submit.MalformedUrl = false
      /\ Submit.violates hostname f Submit.OffDomain = false
  end.
Proof.
  unfold Submit.checkUrl, Submit.violates.
  destruct (Submit.truthy (Submit.get "csnades_url" f)); simpl; [|auto].
  destruct (hostname (from_option Submit.entryString "" (Submit.get "csnades_url" f)))
    as [h|]; simpl.
  - destruct (String.eqb h "csnades.gg"), (String.eqb h "www.csnades.gg"); simpl; auto.
  - left. auto.
Qed.

(** The handler's validation against the rules: it answers the message
    of a rule the request breaks, and passes only a request that breaks
    none. *)
Lemma validate_spec (hostname : string -> option string) (f : Submit.formData) :
  (Submit.hasScreenshots f = true -> Submit.descriptiveText f = true) ->
  match Submit.validate hostname f with
  | Some out =>
      exists r, In r Submit.allRules /\ Submit.violates hostname f r = true
                /\ out = Http.badRequest (Submit.message r)
  | None => forall r, Submit.violates hostname f r = false
  end.
Proof.
  intros W. unfold Submit.validate.
  destruct (negb (Submit.truthy (Submit.get "csnades_url" f)) && negb (Submit.hasScreenshots f))
    eqn:C1.
  { exists Submit.NoInput. simpl. tauto. }
  pose proof (checkUrl_spec hostname f) as U.
  destruct (Submit.checkUrl hostname f) as [out|].
  { destruct U as [[V ->]|[V ->]]; eexists; (split; [|split; [exact V | reflexivity]]);
      simpl; tauto. }
  destruct U as [U1 U2].
  destruct (Submit.hasScreenshots f && negb (Submit.truthy (Submit.get "map" f))) eqn:C3.
  { exists Submit.MapRequired. simpl. tauto. }
  destruct (Submit.truthy (Submit.get "map" f)
            && negb (Submit.among (Submit.get "map" f) Submit.VALID_MAPS)) eqn:C4.
  { exists Submit.UnsupportedMap. simpl. tauto. }
  destruct (Submit.truthy (Submit.get "side" f)
            && negb (Submit.among (Submit.get "side" f) ["t"; "ct"])) eqn:C5.
  { exists Submit.InvalidSide. simpl. tauto. }
  destruct (Submit.hasScreenshots f) eqn:Hs.
  2: { intros r. destruct r; simpl; rewrite ?Hs; simpl; try reflexivity; assumption. }
  pose proof (checkDetails_spec f (W eq_refl)) as D.
  destruct (Submit.checkDetails f) as [out|].
  { destruct D as [[V ->]|[[V ->]|[[V ->]|[V ->]]]];
      eexists; (split; [|split; [|reflexivity]]); simpl; rewrite ?Hs, ?V; simpl; tauto. }
  destruct D as (D1 & D2 & D3 & D4).
  pose proof (checkFiles_spec f Submit.SCREENSHOTS) as F.
  destruct (Submit.checkFiles f Submit.SCREENSHOTS) as [out|].
  { destruct F as (name & Hin & [[V ->]|[V ->]]).
    - exists (Submit.MissingFile name). split; [|split; [|reflexivity]].
      + simpl in Hin. simpl. intuition (subst; tauto).
      + cbn [Submit.violates]. rewrite Hs, V.
        assert (existsb (String.eqb name) Submit.SCREENSHOTS = true) as ->; [|reflexivity].
        apply existsb_exists. exists name. split; [exact Hin | apply String.eqb_refl].
    - exists (Submit.OversizeFile name). split; [|split; [|reflexivity]].
      + simpl in Hin. simpl. intuition (subst; tauto).
      + cbn [Submit.violates]. rewrite Hs, V.
        assert (existsb (String.eqb name) Submit.SCREENSHOTS = true) as ->; [|reflexivity].
        apply existsb_exists. exists name. split; [exact Hin | apply String.eqb_refl]. }
  intros r. destruct r; cbn [Submit.violates]; rewrite ?Hs, ?D1, ?D2, ?D3, ?D4;
    try reflexivity; try assumption.
  - destruct (existsb (String.eqb name) Submit.SCREENSHOTS) eqn:E; [|reflexivity].
    apply existsb_exists in E as (x & Hin & Hx). apply String.eqb_eq in Hx. subst x.
    simpl. apply (F name Hin).
  - destruct (existsb (String.eqb name) Submit.SCREENSHOTS) eqn:E; [|reflexivity].
    apply existsb_exists in E as (x & Hin & Hx). apply String.eqb_eq in Hx. subst x.
    simpl. apply (F name Hin).
Qed.

Lemma messages_distinct : NoDup (map Submit.message Submit.allRules).
Proof.
  apply NoDup_ListNoDup, (NoDup_count_occ' string_dec). intros x Hx.
  vm_compute in Hx. repeat (destruct Hx as [<-|Hx]; [vm_compute; reflexivity|]). destruct Hx.
Qed.

(** One request for each rule, and the answer it gets. *)
Example intake_rejections :
  let answer f := fst (Submit.POST httpsHost siteCwd f 100 (emptyDb, ∅)) in
  let shots := [("position", Submit.Upload "P"); ("aim", Submit.Upload "A");
                ("result", Submit.Upload "R")] in
  let texts := [("lineup_name", Submit.Text "Window"); ("stand_desc", Submit.Text "corner");
                ("aim_desc", Submit.Text "antenna"); ("throw_type", Submit.Text "left")] in
  answer [] = Http.badRequest "Provide a csnades.gg URL or 3 screenshots"
  /\ answer [("csnades_url", Submit.Text "csnades.gg/lineups/42")]
     = Http.badRequest "Invalid URL format"
  /\ answer [("csnades_url", Submit.Text "https://example.com/lineups/42")]
     = Http.badRequest "URL must be from csnades.gg"
  /\ answer shots = Http.badRequest "Map name is required with screenshots"
  /\ answer (("map", Submit.Text "cache") :: shots) = Http.badRequest "Invalid map name"
  /\ answer (("map", Submit.Text "nuke") :: ("side", Submit.Text "both") :: shots)
     = Http.badRequest "Invalid side value"
  /\ answer (("map", Submit.Text "nuke") :: ("lineup_name", Submit.Text "  ") :: shots)
     = Http.badRequest "Lineup name is required with screenshots"
  /\ answer (("map", Submit.Text "nuke") :: ("lineup_name", Submit.Text "Window")
             :: ("stand_desc", Submit.Text "corner") :: ("aim_desc", Submit.Text "antenna")
             :: ("throw_type", Submit.Text "underhand") :: shots)
     = Http.badRequest "Valid throw type is required with screenshots"
  /\ answer (("map", Submit.Text "nuke") :: ("aim", Submit.Upload "") :: texts ++ shots)
     = Http.badRequest "Missing aim screenshot".
Proof. vm_compute. repeat split; reflexivity. Qed.

(** What a form that passes validation holds: its descriptive fields,
    map and side are text, and its screenshots are within the size cap. *)
Lemma bind_text (v : option Submit.entry) :
  Submit.isText v = true -> Submit.bind v = inr (Submit.text v).
Proof. destruct v as [[s|c]|]; simpl; try discriminate; reflexivity. Qed.

Lemma validated_map_side (hostname : string -> option string) (f : Submit.formData) :
  Submit.validate hostname f = None ->
  Submit.isText (Submit.get "map" f) = true /\ Submit.isText (Submit.get "side" f) = true.
Proof.
  unfold Submit.validate.
  destruct (negb _ && negb _); [discriminate|].
  destruct (Submit.checkUrl hostname f); [discriminate|].
  destruct (Submit.hasScreenshots f && _); [discriminate|].
  destruct (Submit.truthy (Submit.get "map" f) && _) eqn:C4; [discriminate|].
  destruct (Submit.truthy (Submit.get "side" f) && _) eqn:C5; [discriminate|].
  intros _. split.
  - destruct (Submit.get "map" f) as [[s|c]|]; try reflexivity. discriminate C4.
  - destruct (Submit.get "side" f) as [[s|c]|]; try reflexivity. discriminate C5.
Qed.

Lemma validated_descriptive (hostname : string -> option string) (f : Submit.formData) :
  Submit.validate hostname f = None -> Submit.hasScreenshots f = true ->
  Submit.descriptiveText f = true.
Proof.
  unfold Submit.validate. intros V Hs. rewrite Hs in V.
  destruct (negb _ && negb true); [discriminate|].
  destruct (Submit.checkUrl hostname f); [discriminate|].
  destruct (true && _); [discriminate|].
  destruct (Submit.truthy (Submit.get "map" f) && _); [discriminate|].
  destruct (Submit.truthy (Submit.get "side" f) && _); [discriminate|].
  unfold Submit.checkDetails in V.
  destruct (Submit.blank (Submit.get "lineup_name" f)) as [[|]|] eqn:B1; try discriminate.
  destruct (Submit.blank (Submit.get "stand_desc" f)) as [[|]|] eqn:B2; try discriminate.
  destruct (Submit.blank (Submit.get "aim_desc" f)) as [[|]|] eqn:B3; try discriminate.
  unfold Submit.descriptiveText. simpl.
  now rewrite (blank_text _ _ B1), (blank_text _ _ B2), (blank_text _ _ B3).
Qed.

Lemma validated_spec (hostname : string -> option string) (f : Submit.formData) :
  Submit.validate hostname f = None -> forall r, Submit.violates hostname f r = false.
Proof.
  intros V. pose proof (validate_spec hostname f (validated_descriptive hostname f V)) as S.
  now rewrite V in S.
Qed.

Lemma accepted_file (hostname : string -> option string) (f : Submit.formData) (name : string) :
  Submit.validate hostname f = None -> Submit.hasScreenshots f = true ->
  Submit.screenshotFiles f = true -> In name Submit.SCREENSHOTS ->
  exists content, Submit.get name f = Some (Submit.Upload content)
                  /\ (0 <? Z.of_nat (String.length content)) = true
                  /\ Z.of_nat (String.length content) <= Submit.MAX_FILE_SIZE.
Proof.
  intros V Hs W Hin. pose proof (validated_spec hostname f V) as S.
  pose proof (S (Submit.MissingFile name)) as M.
  pose proof (S (Submit.OversizeFile name)) as O.
  pose proof (screenshotFiles_field f name W Hin) as T.
  cbn [Submit.violates] in M, O. rewrite Hs in M, O.
  assert (E : existsb (String.eqb name) Submit.SCREENSHOTS = true).
  { apply existsb_exists. exists name. split; [exact Hin | apply String.eqb_refl]. }
  rewrite E in M, O. simpl in M, O.
  destruct (Submit.get name f) as [[s|content]|]; simpl in *; try discriminate.
  exists content. split; [reflexivity|].
  apply bool_decide_eq_false in M.
  apply Z.ltb_ge in O. split; [|exact O].
  apply Z.ltb_lt. destruct (String.length content); [exfalso; now apply M | lia].
Qed.

Lemma saveFiles_three (f : Submit.formData) (dir : Path.path) (cp ca cr : string) (t : Fs.fs) :
  Submit.get "position" f = Some (Submit.Upload cp) ->
  Submit.get "aim" f = Some (Submit.Upload ca) ->
  Submit.get "result" f = Some (Submit.Upload cr) ->
  (0 <? Z.of_nat (String.length cp)) = true ->
  (0 <? Z.of_nat (String.length ca)) = true ->
  (0 <? Z.of_nat (String.length cr)) = true ->
  t !! dir = Some Fs.Dir ->
  t !! (dir ++ ["position.jpg"]) <> Some Fs.Dir ->
  t !! (dir ++ ["aim.jpg"]) <> Some Fs.Dir ->
  t !! (dir ++ ["result.jpg"]) <> Some Fs.Dir ->
  Submit.saveFiles f dir Submit.SCREENSHOTS t
  = (true, <[dir ++ ["result.jpg"] := Fs.File cr]>
             (<[dir ++ ["aim.jpg"] := Fs.File ca]>
                (<[dir ++ ["position.jpg"] := Fs.File cp]> t))).
Proof.
  intros Gp Ga Gr Lp La Lr Hd Np Na Nr.
  assert (J : forall name, Path.isName name = true -> Path.join dir [name] = dir ++ [name]).
  { intros name Hn. apply join_names. simpl. now rewrite Hn. }
  assert (D : forall t0 : Fs.fs, t0 !! dir = Some Fs.Dir -> Fs.isDir t0 dir = true).
  { intros t0 H. unfold Fs.isDir. destruct dir; [reflexivity|]. now rewrite H. }
  assert (X : forall a b : string, a <> b -> dir ++ [a] <> dir ++ [b]).
  { intros a b Hab E. apply app_inv_head in E. congruence. }
  assert (Y : forall a : string, dir ++ [a] <> dir).
  { intros a E. apply (f_equal length) in E. rewrite length_app in E. simpl in E. lia. }
  unfold Submit.SCREENSHOTS. cbn [Submit.saveFiles]. rewrite Gp, Ga, Gr, Lp, La, Lr.
  change ("position" ++ ".jpg")%string with "position.jpg".
  change ("aim" ++ ".jpg")%string with "aim.jpg".
  change ("result" ++ ".jpg")%string with "result.jpg".
  rewrite !J by reflexivity.
  rewrite writeFile_into_dir by (auto using D).
  rewrite writeFile_into_dir.
  2: { apply D. rewrite lookup_insert_ne by apply Y. exact Hd. }
  2: { rewrite lookup_insert_ne by (apply X; discriminate). exact Na. }
  rewrite writeFile_into_dir.
  2: { apply D. rewrite !lookup_insert_ne by apply Y. exact Hd. }
  2: { rewrite !lookup_insert_ne by (apply X; discriminate). exact Nr. }
  reflexivity.
Qed.

(** The handler after its validation has passed: the insert, then the
    staging directory and the three writes. *)
Lemma intake_after_validation (hostname : string -> option string) (cwd : Path.path)
      (f : Submit.formData) (now : Z) (d : Db.db) (t : Fs.fs) :
  Submit.isText (Submit.get "csnades_url" f) = true ->
  Submit.validate hostname f = None ->
  let id := Db.nextRowid d in
  let dir := cwd ++ ["staging"; pretty id] in
  let d' := Db.Store (Db.accounts d) (Db.bookmarks d)
                     (<[id := Submit.newRow f now]> (Db.submissions d)) id in
  Submit.POST hostname cwd f now (d, t)
  = if Submit.hasScreenshots f
    then match Fs.mkdir dir t with
         | None => (Http.Throw Http.FsError, (d', t))
         | Some t1 =>
             match Submit.saveFiles f dir Submit.SCREENSHOTS t1 with
             | (true, t2) => (Http.Respond 200 (Http.OkId id) None, (d', t2))
             | (false, t2) => (Http.Throw Http.FsError, (d', t2))
             end
         end
    else (Http.Respond 200 (Http.OkId id) None, (d', t)).
Proof.
  intros W V id dir d'. unfold Submit.POST. rewrite V.
  destruct (validated_map_side hostname f V) as [Wm Ws].
  rewrite (bind_text _ W), (bind_text _ Wm), (bind_text _ Ws).
  unfold Db.insertSubmission. cbn [fst snd]. rewrite intake_stagingDir. reflexivity.
Qed.

(** C4. A request that passes validation (its URL field being text, as
    the handler takes it) gets exactly one new row, with status pending,
    under a fresh identifier, and this in every outcome, so no file is
    staged without its row.  Without screenshots the request carried a
    URL: the row holds it, the answer is 200 with the identifier, and the
    staging area is untouched.  With the three screenshots as files, and a
    file system that lets the directory and the files be made, the answer
    is 200 with the identifier, the directory [staging/<id>] exists and
    holds the three uploads as [position.jpg], [aim.jpg] and [result.jpg],
    and nothing outside that directory and its ancestors changes. *)
Theorem intake_accepts (hostname : string -> option string) (cwd : Path.path)
        (f : Submit.formData) (now : Z) (d : Db.db) (t : Fs.fs) :
  Submit.isText (Submit.get "csnades_url" f) = true ->
  Submit.validate hostname f = None ->
  let id := Db.nextRowid d in
  let dir := cwd ++ ["staging"; pretty id] in
  let row := Submit.newRow f now in
  let d' := Db.Store (Db.accounts d) (Db.bookmarks d) (<[id := row]> (Db.submissions d)) id in
  Db.submissions d !! id = None
  /\ Db.sub_status row = Db.pending
  /\ Db.reviewed_at row = None
  /\ size (Db.submissions d') = S (size (Db.submissions d))
  /\ (forall j, j <> id -> Db.submissions d' !! j = Db.submissions d !! j)
  /\ (forall out st', Submit.POST hostname cwd f now (d, t) = (out, st') -> fst st' = d')
  /\ (Submit.hasScreenshots f = false ->
      (exists url, Submit.get "csnades_url" f = Some (Submit.Text url)
                   /\ url <> "" /\ Db.csnades_url row = Some url)
      /\ Submit.POST hostname cwd f now (d, t)
         = (Http.Respond 200 (Http.OkId id) None, (d', t)))
  /\ (Submit.hasScreenshots f = true ->
      Submit.screenshotFiles f = true ->
      (forall q c, q `prefix_of` dir -> t !! q <> Some (Fs.File c)) ->
      (forall name, In name Submit.SCREENSHOTS ->
                    t !! (dir ++ [(name ++ ".jpg")%string]) <> Some Fs.Dir) ->
      exists (t' : Fs.fs) (cp ca cr : string),
        Submit.POST hostname cwd f now (d, t) = (Http.Respond 200 (Http.OkId id) None, (d', t'))
        /\ Submit.get "position" f = Some (Submit.Upload cp)
        /\ Submit.get "aim" f = Some (Submit.Upload ca)
        /\ Submit.get "result" f = Some (Submit.Upload cr)
        /\ t' !! dir = Some Fs.Dir
        /\ t' !! (dir ++ ["position.jpg"]) = Some (Fs.File cp)
        /\ t' !! (dir ++ ["aim.jpg"]) = Some (Fs.File ca)
        /\ t' !! (dir ++ ["result.jpg"]) = Some (Fs.File cr)
        /\ (forall q, ¬ q `prefix_of` dir -> ¬ dir `prefix_of` q -> t' !! q = t !! q)).
Proof.
  intros W V id dir row d'.
  pose proof (intake_after_validation hostname cwd f now d t W V) as P.
  cbv zeta in P. fold id dir row d' in P.
  split; [apply nextRowid_fresh|]. split; [reflexivity|]. split; [reflexivity|].
  split; [apply map_size_insert_None, nextRowid_fresh|].
  split; [intros j Hj; simpl; now rewrite lookup_insert_ne|].
  split; [|split].
  - intros out st'. rewrite P. destruct (Submit.hasScreenshots f).
    + destruct (Fs.mkdir dir t) as [t1|]; [|now intros [= _ <-]].
      destruct (Submit.saveFiles f dir Submit.SCREENSHOTS t1) as [[|] t2]; now intros [= _ <-].
    + now intros [= _ <-].
  - intros Hs. rewrite P, Hs. split; [|reflexivity].
    pose proof (validated_spec hostname f V Submit.NoInput) as S.
    cbn [Submit.violates] in S. rewrite Hs in S.
    pose proof W as T.
    subst row. unfold Submit.newRow. simpl.
    destruct (Submit.get "csnades_url" f) as [[url|c]|]; simpl in *; try discriminate.
    exists url. split; [reflexivity|]. split; [|reflexivity].
    intros ->. discriminate.
  - intros Hs Wf Hfree Hnodir.
    destruct (accepted_file hostname f "position" V Hs Wf ltac:(simpl; tauto))
      as (cp & Gp & Lp & _).
    destruct (accepted_file hostname f "aim" V Hs Wf ltac:(simpl; tauto))
      as (ca & Ga & La & _).
    destruct (accepted_file hostname f "result" V Hs Wf ltac:(simpl; tauto))
      as (cr & Gr & Lr & _).
    destruct (mkdir_succeeds dir t Hfree) as [t1 M].
    assert (Hdir : dir <> []) by (subst dir; now destruct cwd).
    assert (L : forall q, t1 !! q
                          = if decide (q <> [] /\ q `prefix_of` dir) then Some Fs.Dir
                            else t !! q) by (intros q; now apply mkdir_lookup).
    assert (B : forall a : string, ¬ (dir ++ [a]) `prefix_of` dir).
    { intros a [k Hk]. apply (f_equal length) in Hk. rewrite !length_app in Hk.
      simpl in Hk. lia. }
    assert (Lfile : forall a : string, t1 !! (dir ++ [a]) = t !! (dir ++ [a])).
    { intros a. rewrite L. destruct (decide _) as [[_ H]|_]; [now apply B in H | reflexivity]. }
    assert (Ldir : t1 !! dir = Some Fs.Dir).
    { rewrite L. destruct (decide _) as [_|H]; [reflexivity|]. exfalso. apply H. split; done. }
    assert (X : forall a b : string, a <> b -> dir ++ [a] <> dir ++ [b]).
    { intros a b Hab E. apply app_inv_head in E. congruence. }
    assert (Y : forall a : string, dir ++ [a] <> dir).
    { intros a E. apply (f_equal length) in E. rewrite length_app in E. simpl in E. lia. }
    eexists _, cp, ca, cr. rewrite P, Hs, M.
    rewrite (saveFiles_three f dir cp ca cr t1 Gp Ga Gr Lp La Lr Ldir).
    2: { rewrite Lfile. apply (Hnodir "position"). simpl. tauto. }
    2: { rewrite Lfile. apply (Hnodir "aim"). simpl. tauto. }
    2: { rewrite Lfile. apply (Hnodir "result"). simpl. tauto. }
    split; [reflexivity|]. split; [exact Gp|]. split; [exact Ga|]. split; [exact Gr|].
    split; [now rewrite !lookup_insert_ne by apply Y|].
    split; [rewrite !lookup_insert_ne by (apply X; discriminate); apply lookup_insert_eq|].
    split; [rewrite lookup_insert_ne by (apply X; discriminate); apply lookup_insert_eq|].
    split; [apply lookup_insert_eq|].
    intros q Hq1 Hq2.
    rewrite !lookup_insert_ne.
    + rewrite L. destruct (decide _) as [[_ H]|_]; [contradiction | reflexivity].
    + intros <-. apply Hq2. now exists ["position.jpg"].
    + intros <-. apply Hq2. now exists ["aim.jpg"].
    + intros <-. apply Hq2. now exists ["result.jpg"].
Qed.

Lemma intake_accepts_witness :
  exists (t' : Fs.fs) (cp ca cr : string),
    Submit.POST httpsHost siteCwd demoForm 100 (emptyDb, ∅)
    = (Http.Respond 200 (Http.OkId (Db.nextRowid emptyDb)) None,
       (Db.Store (Db.accounts emptyDb) (Db.bookmarks emptyDb)
                 (<[Db.nextRowid emptyDb := Submit.newRow demoForm 100]>
                    (Db.submissions emptyDb))
                 (Db.nextRowid emptyDb), t'))
    /\ Submit.get "position" demoForm = Some (Submit.Upload cp)
    /\ Submit.get "aim" demoForm = Some (Submit.Upload ca)
    /\ Submit.get "result" demoForm = Some (Submit.Upload cr)
    /\ t' !! (siteCwd ++ ["staging"; pretty (Db.nextRowid emptyDb)]) = Some Fs.Dir
    /\ t' !! ((siteCwd ++ ["staging"; pretty (Db.nextRowid emptyDb)]) ++ ["position.jpg"])
       = Some (Fs.File cp)
    /\ t' !! ((siteCwd ++ ["staging"; pretty (Db.nextRowid emptyDb)]) ++ ["aim.jpg"])
       = Some (Fs.File ca)
    /\ t' !! ((siteCwd ++ ["staging"; pretty (Db.nextRowid emptyDb)]) ++ ["result.jpg"])
       = Some (Fs.File cr)
    /\ (forall q, ¬ q `prefix_of` (siteCwd ++ ["staging"; pretty (Db.nextRowid emptyDb)]) ->
                  ¬ (siteCwd ++ ["staging"; pretty (Db.nextRowid emptyDb)]) `prefix_of` q ->
                  t' !! q = (∅ : Fs.fs) !! q).
Proof.
  refine (proj2 (proj2 (proj2 (proj2 (proj2 (proj2 (proj2
            (intake_accepts httpsHost siteCwd demoForm 100 emptyDb ∅ _ _))))))) _ _ _ _).
  - reflexivity.
  - vm_compute. reflexivity.
  - reflexivity.
  - reflexivity.
  - intros q c _. rewrite lookup_empty. discriminate.
  - intros name _. rewrite lookup_empty. discriminate.
Defined.

(** The specification's scenarios.  A URL and no screenshots: answer 200
    with the identifier 1, a pending row holding the URL, nothing staged. *)
Example intake_url_scenario :
  let result := Submit.POST httpsHost siteCwd
                  [("csnades_url", Submit.Text "https://csnades.gg/lineups/42")] 100
                  (emptyDb, ∅) in
  fst result = Http.Respond 200 (Http.OkId 1) None
  /\ Db.submissions (fst (snd result)) !! 1
     = Some (Db.Submission Db.pending (Some "https://csnades.gg/lineups/42") None None None
                           (Some (Db.Payload false None)) 100 None)
  /\ size (Db.submissions (fst (snd result))) = 1%nat
  /\ snd (snd result) = ∅.
Proof. vm_compute. repeat split; reflexivity. Qed.

(** The full screenshot set on mirage, T side, jump throw: answer 200 with
    the identifier 1, and [staging/1] holds the three files. *)
Example intake_screenshot_scenario :
  let result := Submit.POST httpsHost siteCwd demoForm 100 (emptyDb, ∅) in
  fst result = Http.Respond 200 (Http.OkId 1) None
  /\ (Db.sub_status <$> Db.submissions (fst (snd result)) !! 1) = Some Db.pending
  /\ snd (snd result) !! ["srv"; "cs-nades"; "staging"; "1"] = Some Fs.Dir
  /\ snd (snd result) !! ["srv"; "cs-nades"; "staging"; "1"; "position.jpg"]
     = Some (Fs.File "P")
  /\ snd (snd result) !! ["srv"; "cs-nades"; "staging"; "1"; "aim.jpg"] = Some (Fs.File "AA")
  /\ snd (snd result) !! ["srv"; "cs-nades"; "staging"; "1"; "result.jpg"]
     = Some (Fs.File "RRR").
Proof. vm_compute. repeat split; reflexivity. Qed.

(** Entries named like the screenshots but sent as text fields pass the
    size checks (a string has no size) and are then skipped by the writing
    loop: the directory is made and stays empty. *)
Example intake_text_in_place_of_files :
  let f := [("map", Submit.Text "mirage"); ("lineup_name", Submit.Text "Window");
            ("stand_desc", Submit.Text "corner"); ("aim_desc", Submit.Text "antenna");
            ("throw_type", Submit.Text "left"); ("position", Submit.Text "p");
            ("aim", Submit.Text "a"); ("result", Submit.Text "r")] in
  let result := Submit.POST httpsHost siteCwd f 100 (emptyDb, ∅) in
  Submit.screenshotFiles f = false
  /\ fst result = Http.Respond 200 (Http.OkId 1) None
  /\ snd (snd result) !! ["srv"; "cs-nades"; "staging"; "1"] = Some Fs.Dir
  /\ snd (snd result) !! ["srv"; "cs-nades"; "staging"; "1"; "position.jpg"] = None.
Proof. vm_compute. repeat split; reflexivity. Qed.

(** ** Intake, whatever the form holds *)

Lemma checkFiles_outcome (f : Submit.formData) (names : list string) (r : Http.outcome) :
  Submit.checkFiles f names = Some r -> exists msg, r = Http.badRequest msg.
Proof.
  intros H. pose proof (checkFiles_spec f names) as S. rewrite H in S.
  destruct S as (name & _ & [[_ ->]|[_ ->]]); eauto.
Qed.

(** What validation answers is a 400 or a TypeError, never a success. *)
Lemma validate_outcome (hostname : string -> option string) (f : Submit.formData)
      (r : Http.outcome) :
  Submit.validate hostname f = Some r ->
  (exists msg, r = Http.badRequest msg) \/ r = Http.Throw Http.JsTypeError.
Proof.
  unfold Submit.validate.
  destruct (negb _ && negb _); [intros [= <-]; eauto|].
  destruct (Submit.checkUrl hostname f) as [u|] eqn:U.
  { intros [= <-]. unfold Submit.checkUrl in U.
    destruct (Submit.truthy _); [|discriminate].
    destruct (hostname _); [destruct (negb _ && negb _)|]; inversion U; eauto. }
  destruct (Submit.hasScreenshots f && _); [intros [= <-]; eauto|].
  destruct (Submit.truthy (Submit.get "map" f) && _); [intros [= <-]; eauto|].
  destruct (Submit.truthy (Submit.get "side" f) && _); [intros [= <-]; eauto|].
  destruct (Submit.hasScreenshots f).
  - destruct (Submit.checkDetails f) as [c|] eqn:C.
    + intros [= <-]. unfold Submit.checkDetails in C.
      repeat (match type of C with
              | context [match Submit.blank ?v with _ => _ end] =>
                  destruct (Submit.blank v) as [[|]|]
              | context [if ?b then _ else _] => destruct b
              end; try (inversion C; eauto; fail)).
    + intros H. left. eapply checkFiles_outcome; eauto.
  - discriminate.
Qed.

(** C5, as the code has it.  The rules that speak of screenshots apply
    when all three fields [position], [aim] and [result] are present.  A
    request that breaks a rule changes nothing: no row is inserted and
    no file written.  It is answered 400, or, when the three fields are
    present and a descriptive field is a file, a TypeError may escape
    instead.  When the descriptive fields are text, or the three fields
    are not all present, the answer is 400 with the message of a rule the
    request breaks, the messages of the rules being pairwise distinct. *)
Theorem intake_rejects (hostname : string -> option string) (cwd : Path.path)
        (f : Submit.formData) (now : Z) (st : Db.db * Fs.fs) (r : Submit.rule) :
  Submit.violates hostname f r = true ->
  (exists out,
      Submit.POST hostname cwd f now st = (out, st)
      /\ ((exists msg, out = Http.Respond 400 (Http.Error msg) None)
          \/ (out = Http.Throw Http.JsTypeError
              /\ Submit.hasScreenshots f = true /\ Submit.descriptiveText f = false)))
  /\ ((Submit.hasScreenshots f = true -> Submit.descriptiveText f = true) ->
      exists r', In r' Submit.allRules
                 /\ Submit.violates hostname f r' = true
                 /\ Submit.POST hostname cwd f now st
                    = (Http.Respond 400 (Http.Error (Submit.message r')) None, st))
  /\ NoDup (map Submit.message Submit.allRules).
Proof.
  intros V.
  assert (exists out, Submit.validate hostname f = Some out) as [out E].
  { destruct (Submit.validate hostname f) as [out|] eqn:E; [eauto|].
    rewrite (validated_spec hostname f E r) in V. discriminate. }
  assert (P : Submit.POST hostname cwd f now st = (out, st))
    by (unfold Submit.POST; now rewrite E).
  assert (S : (Submit.hasScreenshots f = true -> Submit.descriptiveText f = true) ->
              exists r', In r' Submit.allRules /\ Submit.violates hostname f r' = true
                         /\ out = Http.badRequest (Submit.message r')).
  { intros W. pose proof (validate_spec hostname f W) as S. now rewrite E in S. }
  split; [|split; [|apply messages_distinct]].
  - exists out. split; [exact P|].
    destruct (validate_outcome hostname f out E) as [[msg ->]| ->]; [left; eauto|].
    right. split; [reflexivity|].
    destruct (Submit.hasScreenshots f) eqn:Hs, (Submit.descriptiveText f) eqn:D;
      try (split; reflexivity); exfalso;
      (destruct S as (r' & _ & _ & S); [intros X; congruence | discriminate S]).
  - intros W. destruct (S W) as (r' & Hin & V' & ->). exists r'. rewrite P. auto.
Qed.

Lemma intake_rejects_witness :
  (exists r', In r' Submit.allRules
              /\ Submit.violates httpsHost [("map", Submit.Text "mirage")] r' = true
              /\ Submit.POST httpsHost siteCwd [("map", Submit.Text "mirage")] 100
                             (decided, siteFiles)
                 = (Http.Respond 400 (Http.Error (Submit.message r')) None, (decided, siteFiles)))
  /\ NoDup (map Submit.message Submit.allRules).
Proof.
  destruct (intake_rejects httpsHost siteCwd [("map", Submit.Text "mirage")] 100
                           (decided, siteFiles) Submit.NoInput eq_refl) as (_ & B & C).
  split; [|exact C]. apply B. intros _. reflexivity.
Defined.

(** C5 as stated fails in two ways.  A request with an empty [position]
    upload, which breaks the rule on screenshot items, and a file in
    [lineup_name] is not answered 400: the handler calls [trim] on the
    file and the TypeError escapes.  A request with a URL and only two
    of the three screenshot fields, one of them empty and no map given,
    is accepted: it is answered 200 and the uploads are dropped. *)
Lemma intake_rule_broken_not_refused :
  (let f := [("map", Submit.Text "mirage"); ("lineup_name", Submit.Upload "notes");
             ("position", Submit.Upload ""); ("aim", Submit.Upload "A");
             ("result", Submit.Upload "R")] in
   Submit.violates httpsHost f (Submit.MissingFile "position") = true
   /\ Submit.POST httpsHost siteCwd f 100 (emptyDb, ∅)
      = (Http.Throw Http.JsTypeError, (emptyDb, ∅)))
  /\ (let f := [("csnades_url", Submit.Text "https://csnades.gg/lineups/42");
                ("position", Submit.Upload "P"); ("aim", Submit.Upload "")] in
      let result := Submit.POST httpsHost siteCwd f 100 (emptyDb, ∅) in
      Submit.hasScreenshots f = false
      /\ Submit.get "map" f = None
      /\ Submit.size (Submit.get "aim" f) = Some 0
      /\ fst result = Http.Respond 200 (Http.OkId 1) None
      /\ snd (snd result) = ∅).
Proof. vm_compute. repeat split; reflexivity. Qed.

Lemma bind_inr_text (v : option Submit.entry) (x : option string) :
  Submit.bind v = inr x -> Submit.isText v = true.
Proof. destruct v as [[s|c]|]; simpl; [reflexivity | discriminate | reflexivity]. Qed.

(** The writing loop changes nothing but the files it names. *)
Lemma saveFiles_outside (f : Submit.formData) (dir : Path.path) (names : list string) :
  forallb (fun name => Path.isName (name ++ ".jpg")%string) names = true ->
  forall (t t' : Fs.fs) (b : bool) (q : Path.path),
    Submit.saveFiles f dir names t = (b, t') ->
    ~ In q (List.map (fun name => dir ++ [(name ++ ".jpg")%string]) names) ->
    t' !! q = t !! q.
Proof.
  induction names as [|name names IH]; simpl; intros Hn t t' b q.
  - now intros [= _ <-].
  - apply andb_true_iff in Hn as [Hn Hns]. intros H Hq.
    assert (Hq1 : dir ++ [(name ++ ".jpg")%string] <> q) by (intros E; apply Hq; now left).
    assert (Hq2 : ~ In q (List.map (fun name => dir ++ [(name ++ ".jpg")%string]) names))
      by (intros E; apply Hq; now right).
    destruct (Submit.get name f) as [[s|content]|]; try (now apply (IH Hns t t' b q)).
    destruct (0 <? Z.of_nat (String.length content)); [|now apply (IH Hns t t' b q)].
    rewrite join_names in H by (simpl; now rewrite Hn).
    unfold Fs.writeFile in H.
    destruct (Fs.isDir t (removelast _) && negb _).
    + rewrite (IH Hns _ t' b q H Hq2). now rewrite lookup_insert_ne.
    + now injection H as _ <-.
Qed.

(** What the loop writes at one of its names is a regular file. *)
Lemma saveFiles_writes (f : Submit.formData) (dir : Path.path) (names : list string) :
  forall (t t' : Fs.fs) (b : bool) (q : Path.path),
    Submit.saveFiles f dir names t = (b, t') ->
    t' !! q = t !! q \/ exists content, t' !! q = Some (Fs.File content).
Proof.
  induction names as [|name names IH]; simpl; intros t t' b q.
  - intros [= _ <-]. now left.
  - destruct (Submit.get name f) as [[s|content]|]; try apply IH.
    destruct (0 <? Z.of_nat (String.length content)); [|apply IH].
    unfold Fs.writeFile.
    destruct (Fs.isDir t (removelast _) && negb _).
    + intros H. destruct (IH _ t' b q H) as [E|E]; [|now right].
      rewrite E.
      destruct (decide (Path.join dir [(name ++ ".jpg")%string] = q)) as [<-|Hne].
      * right. rewrite lookup_insert_eq. eauto.
      * left. now rewrite lookup_insert_ne.
    + intros [= _ <-]. now left.
Qed.

(** The handler, for any form: either nothing happened and the answer is
    not a success, or validation passed, the row was inserted, and the
    files differ from before only by directories on the way to the new
    staging directory and by regular files at the three fixed names. *)
Lemma intake_anatomy (hostname : string -> option string) (cwd : Path.path)
      (f : Submit.formData) (now : Z) (d d' : Db.db) (t t' : Fs.fs) (out : Http.outcome) :
  Submit.POST hostname cwd f now (d, t) = (out, (d', t')) ->
  let id := Db.nextRowid d in
  let dir := cwd ++ ["staging"; pretty id] in
  (d' = d /\ t' = t /\ forall status b c, status <> 400 -> out <> Http.Respond status b c)
  \/ (Submit.validate hostname f = None
      /\ Submit.isText (Submit.get "csnades_url" f) = true
      /\ d' = Db.Store (Db.accounts d) (Db.bookmarks d)
                       (<[id := Submit.newRow f now]> (Db.submissions d)) id
      /\ (out = Http.Respond 200 (Http.OkId id) None \/ out = Http.Throw Http.FsError)
      /\ (Submit.hasScreenshots f = false -> t' = t /\ out = Http.Respond 200 (Http.OkId id) None)
      /\ forall q, t' !! q = t !! q
                   \/ (q <> [] /\ q `prefix_of` dir /\ t' !! q = Some Fs.Dir)
                   \/ (In q [dir ++ ["position.jpg"]; dir ++ ["aim.jpg"]; dir ++ ["result.jpg"]]
                       /\ exists content, t' !! q = Some (Fs.File content))).
Proof.
  intros H id dir.
  destruct (Submit.validate hostname f) as [r|] eqn:V.
  { left. unfold Submit.POST in H. rewrite V in H. injection H as <- <- <-.
    split; [reflexivity|]. split; [reflexivity|]. intros status b c Hs E.
    destruct (validate_outcome hostname f r V) as [[msg ->]| ->]; [|discriminate].
    unfold Http.badRequest in E. congruence. }
  destruct (Submit.bind (Submit.get "csnades_url" f)) as [e|url] eqn:B.
  { left. unfold Submit.POST in H. rewrite V, B in H.
    assert (out = Http.Throw (Http.StoreError e) /\ d' = d /\ t' = t) as (-> & -> & ->).
    { destruct (Submit.bind (Submit.get "map" f)), (Submit.bind (Submit.get "side" f));
        injection H as <- <- <-; auto. }
    split; [reflexivity|]. split; [reflexivity|]. discriminate. }
  right. pose proof (bind_inr_text _ _ B) as W.
  pose proof (intake_after_validation hostname cwd f now d t W V) as P.
  cbv zeta in P. fold id dir in P. rewrite P in H. clear P.
  split; [reflexivity|]. split; [exact W|].
  destruct (Submit.hasScreenshots f) eqn:Hs.
  2: { injection H as <- <- <-. repeat split; auto. }
  destruct (Fs.mkdir dir t) as [t1|] eqn:M.
  2: { injection H as <- <- <-. split; [reflexivity|]. split; [now right|].
       split; [discriminate|]. now left. }
  destruct (Submit.saveFiles f dir Submit.SCREENSHOTS t1) as [b t2] eqn:S.
  assert (d' = Db.Store (Db.accounts d) (Db.bookmarks d)
                        (<[id := Submit.newRow f now]> (Db.submissions d)) id
          /\ t' = t2
          /\ (out = Http.Respond 200 (Http.OkId id) None \/ out = Http.Throw Http.FsError))
    as (-> & -> & Ho).
  { destruct b; inversion H; subst; auto. }
  split; [reflexivity|]. split; [exact Ho|]. split; [discriminate|].
  intros q.
  destruct (decide (q ∈ [dir ++ ["position.jpg"]; dir ++ ["aim.jpg"]; dir ++ ["result.jpg"]]))
    as [Hin|Hout]; rewrite list_elem_of_In in *.
  - destruct (saveFiles_writes f dir Submit.SCREENSHOTS t1 t2 b q S) as [E|E].
    + rewrite E, (mkdir_lookup dir q t t1 M).
      destruct (decide (q <> [] /\ q `prefix_of` dir)) as [[H1 H2]|_]; [|now left].
      right. left. auto.
    + right. right. auto.
  - rewrite (saveFiles_outside f dir Submit.SCREENSHOTS eq_refl t1 t2 b q S Hout).
    rewrite (mkdir_lookup dir q t t1 M).
    destruct (decide (q <> [] /\ q `prefix_of` dir)) as [[H1 H2]|_]; [|now left].
    right. left. auto.
Qed.

(** X1. Whatever the form holds, the handler changes the file system only
    by making directories on the way to [staging/<id>] and by writing
    regular files at [position.jpg], [aim.jpg] and [result.jpg] inside
    it, [id] being the next rowid: a path that differs afterwards is one
    of these. *)
Theorem intake_writes_confined (hostname : string -> option string) (cwd : Path.path)
        (f : Submit.formData) (now : Z) (d : Db.db) (t : Fs.fs) (q : Path.path) :
  let t' := snd (snd (Submit.POST hostname cwd f now (d, t))) in
  let dir := cwd ++ ["staging"; pretty (Db.nextRowid d)] in
  t' !! q = t !! q
  \/ (q <> [] /\ q `prefix_of` dir /\ t' !! q = Some Fs.Dir)
  \/ (In q [dir ++ ["position.jpg"]; dir ++ ["aim.jpg"]; dir ++ ["result.jpg"]]
      /\ exists content, t' !! q = Some (Fs.File content)).
Proof.
  intros t' dir. subst t'.
  destruct (Submit.POST hostname cwd f now (d, t)) as [out [d' t']] eqn:E.
  destruct (intake_anatomy hostname cwd f now d d' t t' out E) as [(_ & -> & _)|H].
  - now left.
  - simpl. apply H.
Qed.

Lemma mkdir_blocked (p q : Path.path) (c : string) (t : Fs.fs) :
  q <> [] -> q `prefix_of` p -> t !! q = Some (Fs.File c) -> Fs.mkdir p t = None.
Proof.
  intros Hq Hp Hf. unfold Fs.mkdir.
  destruct (forallb _ (Fs.ancestors p)) eqn:E; [|reflexivity].
  rewrite forallb_forall in E.
  assert (Hin : In q (Fs.ancestors p)) by (apply list_elem_of_In, elem_of_ancestors; auto).
  specialize (E q Hin). now rewrite Hf in E.
Qed.

(** X2. When the staging directory cannot be made because a regular file
    is in the way, the request fails after the insert: the exception
    escapes, the new pending row stays in the store, and no file is
    written. *)
Theorem intake_no_rollback (hostname : string -> option string) (cwd : Path.path)
        (f : Submit.formData) (now : Z) (d : Db.db) (t : Fs.fs) (q : Path.path) (c : string) :
  Submit.validate hostname f = None ->
  Submit.isText (Submit.get "csnades_url" f) = true ->
  Submit.hasScreenshots f = true ->
  q <> [] -> q `prefix_of` (cwd ++ ["staging"; pretty (Db.nextRowid d)]) ->
  t !! q = Some (Fs.File c) ->
  Submit.POST hostname cwd f now (d, t)
  = (Http.Throw Http.FsError,
     (Db.Store (Db.accounts d) (Db.bookmarks d)
               (<[Db.nextRowid d := Submit.newRow f now]> (Db.submissions d))
               (Db.nextRowid d), t))
  /\ Db.sub_status (Submit.newRow f now) = Db.pending.
Proof.
  intros V W Hs Hq Hp Hf. split; [|reflexivity].
  rewrite (intake_after_validation hostname cwd f now d t W V). cbv zeta.
  now rewrite Hs, (mkdir_blocked _ q c t Hq Hp Hf).
Qed.

Lemma intake_no_rollback_witness :
  Submit.POST httpsHost siteCwd demoForm 100 (emptyDb, blockedFiles)
  = (Http.Throw Http.FsError,
     (Db.Store (Db.accounts emptyDb) (Db.bookmarks emptyDb)
               (<[Db.nextRowid emptyDb := Submit.newRow demoForm 100]> (Db.submissions emptyDb))
               (Db.nextRowid emptyDb), blockedFiles))
  /\ Db.sub_status (Submit.newRow demoForm 100) = Db.pending.
Proof.
  apply (intake_no_rollback httpsHost siteCwd demoForm 100 emptyDb blockedFiles
                            ["srv"; "cs-nades"; "staging"] "not a directory").
  - vm_compute. reflexivity.
  - reflexivity.
  - reflexivity.
  - discriminate.
  - exists [pretty (Db.nextRowid emptyDb)]. reflexivity.
  - apply lookup_singleton_eq.
Defined.

Lemma review_keeps_seq (numericText : string -> option Z) (cwd : Path.path)
      (id status : JS.value) (now : Z) (st : Db.db * Fs.fs) :
  Db.submissions_seq (fst (snd (Review.POST numericText cwd id status now st)))
  = Db.submissions_seq (fst st).
Proof.
  unfold Review.POST. destruct (negb _ || negb _); [reflexivity|].
  destruct (Review.includes ["deleted"] status).
  - destruct (Fs.rm _ _); [|reflexivity].
    unfold Db.deleteSubmission. destruct (Db.rowidOf numericText id) as [e|[k|]]; reflexivity.
  - unfold Db.updateStatus. destruct (Db.rowidOf numericText id) as [e|[k|]]; try reflexivity.
    destruct (Db.submissions (fst st) !! k); [|reflexivity].
    destruct (Db.statusOfText _); reflexivity.
Qed.

Lemma runReviews_keeps_seq (numericText : string -> option Z) (cwd : Path.path)
      (requests : list (JS.value * JS.value * Z)) (st : Db.db * Fs.fs) :
  Db.submissions_seq (fst (runReviews numericText cwd requests st))
  = Db.submissions_seq (fst st).
Proof.
  revert st. induction requests as [|[[id status] now] rest IH]; intros st; simpl.
  - reflexivity.
  - now rewrite IH, review_keeps_seq.
Qed.

Lemma intake_success (hostname : string -> option string) (cwd : Path.path)
      (f : Submit.formData) (now : Z) (st : Db.db * Fs.fs) (id : Z) :
  fst (Submit.POST hostname cwd f now st) = Http.Respond 200 (Http.OkId id) None ->
  id = Db.nextRowid (fst st)
  /\ Submit.validate hostname f = None
  /\ fst (snd (Submit.POST hostname cwd f now st))
     = Db.Store (Db.accounts (fst st)) (Db.bookmarks (fst st))
                (<[id := Submit.newRow f now]> (Db.submissions (fst st))) id.
Proof.
  destruct st as [d t]. destruct (Submit.POST hostname cwd f now (d, t)) as [out [d' t']] eqn:E.
  simpl. intros ->.
  destruct (intake_anatomy hostname cwd f now d d' t t' _ E) as [(_ & _ & N)|(V & _ & -> & Ho & _)].
  - exfalso. apply (N 200 (Http.OkId id) None); [discriminate | reflexivity].
  - destruct Ho as [Ho|Ho]; [|discriminate]. injection Ho as ->. auto.
Qed.

(** X3. An identifier is never handed out twice: an intake that comes
    after another one, with any review requests in between (deletions
    included), gets a larger identifier. *)
Theorem identifiers_never_reused (hostname : string -> option string)
        (numericText : string -> option Z) (siteCwd adminCwd : Path.path)
        (f1 f2 : Submit.formData) (now1 now2 : Z)
        (requests : list (JS.value * JS.value * Z)) (st : Db.db * Fs.fs) (id1 id2 : Z) :
  fst (Submit.POST hostname siteCwd f1 now1 st) = Http.Respond 200 (Http.OkId id1) None ->
  fst (Submit.POST hostname siteCwd f2 now2
         (runReviews numericText adminCwd requests
            (snd (Submit.POST hostname siteCwd f1 now1 st))))
  = Http.Respond 200 (Http.OkId id2) None ->
  id1 < id2.
Proof.
  intros H1 H2.
  apply intake_success in H1 as (_ & _ & E1).
  apply intake_success in H2 as (-> & _ & _).
  unfold Db.nextRowid. rewrite runReviews_keeps_seq, E1. simpl. lia.
Qed.

Lemma identifiers_never_reused_witness :
  fst (Submit.POST httpsHost siteCwd urlForm 100 (emptyDb, ∅))
  = Http.Respond 200 (Http.OkId 1) None
  /\ 1 < 2.
Proof.
  assert (H1 : fst (Submit.POST httpsHost siteCwd urlForm 100 (emptyDb, ∅))
               = Http.Respond 200 (Http.OkId 1) None) by (vm_compute; reflexivity).
  split; [exact H1|].
  apply (identifiers_never_reused httpsHost digitsText siteCwd adminCwd urlForm urlForm 100 300
           [(JS.JNum 1, JS.JStr "deleted", 200)] (emptyDb, ∅) 1 2 H1).
  vm_compute. reflexivity.
Defined.

Lemma staging_inj (site : Path.path) (n m : Z) :
  site ++ ["staging"; pretty n] = site ++ ["staging"; pretty m] -> n = m.
Proof.
  intros E. apply app_inv_head in E. injection E as E. now apply (inj pretty) in E.
Qed.

Lemma staging_prefix (site : Path.path) (n m : Z) :
  (site ++ ["staging"; pretty n]) `prefix_of` (site ++ ["staging"; pretty m]) -> n = m.
Proof.
  intros H. apply (staging_inj site). apply prefix_length_eq; [exact H|].
  rewrite !length_app. simpl. lia.
Qed.

Lemma decided_staged : staged_have_rows siteCwd (decided, siteFiles).
Proof.
  intros n [x H]. cbn [fst snd] in *.
  destruct (decide (n = 1)) as [->|Hne]; [vm_compute; eauto|]. exfalso.
  assert (P : pretty n <> "1").
  { intros E. apply Hne. apply (inj pretty). exact E. }
  unfold siteFiles, siteCwd in H. cbn [list_to_map foldr uncurry Datatypes.uncurry app] in H.
  repeat (rewrite lookup_insert_ne in H by (intros E; inversion E; congruence)).
  now rewrite lookup_empty in H.
Qed.

(** X4. Intake and moderation keep the staging area in step with the
    table: if every directory [staging/<n>] of the site belongs to a
    submission [n], the same holds after an intake request and after a
    review request whose identifier is a number, the panel running in a
    subdirectory of the site. *)
Theorem staging_follows_rows (hostname : string -> option string)
        (numericText : string -> option Z) (site : Path.path) (sub : string)
        (f : Submit.formData) (n now : Z) (status : JS.value) (st : Db.db * Fs.fs) :
  staged_have_rows site st ->
  staged_have_rows site (snd (Submit.POST hostname site f now st))
  /\ staged_have_rows site
       (snd (Review.POST numericText (site ++ [sub]) (JS.JNum n) status now st)).
Proof.
  intros I. destruct st as [d t]. unfold staged_have_rows in *. simpl in I. split.
  - destruct (Submit.POST hostname site f now (d, t)) as [out [d' t']] eqn:E. simpl.
    destruct (intake_anatomy hostname site f now d d' t t' out E)
      as [(-> & -> & _)|(_ & _ & -> & _ & _ & A)]; [exact I|].
    intros m Hm. simpl. apply lookup_insert_is_Some.
    destruct (A (site ++ ["staging"; pretty m])) as [Q|[(_ & Q & _)|(Q & _)]].
    + right. rewrite Q in Hm. destruct (decide (Db.nextRowid d = m)) as [<-|Hne].
      * apply I in Hm. rewrite nextRowid_fresh in Hm. now destruct Hm.
      * split; [exact Hne | now apply I].
    + left. symmetry. now apply (staging_prefix site).
    + exfalso. simpl in Q.
      destruct Q as [Q|[Q|[Q|[]]]]; apply (f_equal length) in Q;
        rewrite !length_app in Q; simpl in Q; lia.
  - unfold Review.POST. destruct (negb _ || negb _); [exact I|].
    destruct (Review.includes ["deleted"] status); cbn [fst snd].
    + rewrite review_stagingDir.
      destruct (rm_cases (site ++ ["staging"; pretty n]) t) as [[_ ->]|[_ ->]]; [exact I|].
      intros m Hm. simpl in *.
      destruct (decide (n = m)) as [<-|Hne].
      * rewrite prune_lookup_below in Hm by reflexivity. now destruct Hm.
      * rewrite prune_lookup_other in Hm
          by (intros P; apply Hne; now apply (staging_prefix site)).
        rewrite lookup_delete_ne by exact Hne. now apply I.
    + unfold Db.updateStatus. simpl.
      destruct (Db.submissions d !! n) as [r|] eqn:R; [|exact I].
      destruct (Db.statusOfText _); [|exact I]. simpl.
      intros m Hm. apply lookup_insert_is_Some.
      destruct (decide (n = m)); [now left | right; split; [assumption | now apply I]].
Qed.

Lemma staging_follows_rows_witness :
  staged_have_rows siteCwd (snd (Submit.POST httpsHost siteCwd demoForm 200 (decided, siteFiles)))
  /\ staged_have_rows siteCwd
       (snd (Review.POST digitsText (siteCwd ++ ["admin"]) (JS.JNum 1) (JS.JStr "deleted") 200
                         (decided, siteFiles))).
Proof.
  apply (staging_follows_rows httpsHost digitsText siteCwd "admin" demoForm 1 200
                              (JS.JStr "deleted") (decided, siteFiles)).
  exact decided_staged.
Defined.

Lemma maxRowid_nonneg (m : gmap Z Db.submission) : 0 <= Db.maxRowid m.
Proof.
  unfold Db.maxRowid.
  apply (map_fold_weak_ind (fun acc _ => 0 <= acc)); [lia|]. intros; lia.
Qed.

(** After an intake that succeeded: with screenshots every directory on
    the way to [staging/<id>] is there, and no file was in the way
    before; without screenshots the files are as they were. *)
Lemma intake_success_files (hostname : string -> option string) (cwd : Path.path)
      (f : Submit.formData) (now : Z) (d : Db.db) (t : Fs.fs) (id : Z) :
  fst (Submit.POST hostname cwd f now (d, t)) = Http.Respond 200 (Http.OkId id) None ->
  let t' := snd (snd (Submit.POST hostname cwd f now (d, t))) in
  let dir := cwd ++ ["staging"; pretty id] in
  if Submit.hasScreenshots f
  then (forall q, q <> [] -> q `prefix_of` dir -> t' !! q = Some Fs.Dir)
       /\ ¬ fileOnTheWay dir t
  else t' = t.
Proof.
  intros H t' dir. subst t'.
  pose proof (intake_success hostname cwd f now (d, t) id H) as (Hid & V & _).
  simpl in Hid. subst dir. rewrite Hid.
  destruct (Submit.POST hostname cwd f now (d, t)) as [out [d' t']] eqn:E. simpl in H. subst out.
  destruct (intake_anatomy hostname cwd f now d d' t t' _ E)
    as [(_ & _ & N)|(_ & W & _ & _ & Hno & _)].
  { exfalso. apply (N 200 (Http.OkId id) None); [discriminate | reflexivity]. }
  destruct (Submit.hasScreenshots f) eqn:Hs; [|now destruct (Hno eq_refl)].
  rewrite (intake_after_validation hostname cwd f now d t W V) in E. cbv zeta in E.
  rewrite Hs in E. cbn [snd].
  set (dir := cwd ++ ["staging"; pretty (Db.nextRowid d)]) in *.
  destruct (Fs.mkdir dir t) as [t1|] eqn:M; [|discriminate].
  destruct (Submit.saveFiles f dir Submit.SCREENSHOTS t1) as [[|] t2] eqn:S; [|discriminate].
  injection E as _ _ <-. split.
  - intros q Hq Hp.
    rewrite (saveFiles_outside f dir Submit.SCREENSHOTS eq_refl t1 t2 true q S).
    + rewrite (mkdir_lookup dir q t t1 M).
      destruct (decide _) as [_|N]; [reflexivity|]. exfalso. apply N. now split.
    + intros Hin. apply prefix_length in Hp. simpl in Hin.
      destruct Hin as [<-|[<-|[<-|[]]]]; rewrite length_app in Hp; simpl in Hp; lia.
  - intros (q & c & Hq & _ & Hp & Hf).
    rewrite (mkdir_blocked dir q c t Hq Hp Hf) in M. discriminate.
Qed.

(** X5. Deleting a submission right after its intake, the panel running
    in a subdirectory of the site.  When the intake carried screenshots,
    or no regular file lies on the way to [staging/<id>], the deletion
    undoes the intake: it answers 200, the table of submissions is the
    one before the intake, nothing is left at or under [staging/<id>],
    and every path that is not on the way to that directory is as it
    was; the directories made on the way to it stay, and so does the
    identifier counter.  When a regular file lies on the way (the intake
    then carried a URL only), the removal throws and the row stays.  The
    identifier is one that a number holds exactly. *)
Theorem delete_undoes_intake (hostname : string -> option string)
        (numericText : string -> option Z) (site : Path.path) (sub : string)
        (f : Submit.formData) (now now' : Z) (st : Db.db * Fs.fs) (id : Z) :
  fst (Submit.POST hostname site f now st) = Http.Respond 200 (Http.OkId id) None ->
  id < 2 ^ 53 ->
  let result := Review.POST numericText (site ++ [sub]) (JS.JNum id) (JS.JStr "deleted") now'
                            (snd (Submit.POST hostname site f now st)) in
  let dir := site ++ ["staging"; pretty id] in
  (Submit.hasScreenshots f = true \/ ¬ fileOnTheWay dir (snd st) ->
   fst result = Http.Respond 200 Http.Ok None
   /\ Db.submissions (fst (snd result)) = Db.submissions (fst st)
   /\ Db.accounts (fst (snd result)) = Db.accounts (fst st)
   /\ Db.bookmarks (fst (snd result)) = Db.bookmarks (fst st)
   /\ Db.submissions_seq (fst (snd result)) = id
   /\ (forall q, dir `prefix_of` q -> snd (snd result) !! q = None)
   /\ (forall q, ¬ dir `prefix_of` q -> ¬ q `prefix_of` dir ->
                 snd (snd result) !! q = snd st !! q))
  /\ (fileOnTheWay dir (snd st) ->
      Submit.hasScreenshots f = false
      /\ result = (Http.Throw Http.FsError, snd (Submit.POST hostname site f now st))
      /\ Db.submissions (fst (snd result)) !! id = Some (Submit.newRow f now)
      /\ snd (snd result) = snd st).
Proof.
  intros H _ result dir. destruct st as [d t].
  pose proof (intake_success hostname site f now (d, t) id H) as (Hid & _ & E1).
  pose proof (intake_success_files hostname site f now d t id H) as F.
  cbv zeta in F. fold dir in F. cbn [fst snd] in *.
  assert (Hpos : id <> 0).
  { rewrite Hid. unfold Db.nextRowid. pose proof (maxRowid_nonneg (Db.submissions d)). lia. }
  assert (R : result
              = match Fs.rm dir (snd (snd (Submit.POST hostname site f now (d, t)))) with
                | None => (Http.Throw Http.FsError, snd (Submit.POST hostname site f now (d, t)))
                | Some t' =>
                    (Http.Respond 200 Http.Ok None,
                     (Db.Store (Db.accounts d) (Db.bookmarks d)
                               (delete id (<[id := Submit.newRow f now]> (Db.submissions d))) id,
                      t'))
                end).
  { subst result. unfold Review.POST.
    rewrite truthy_nonzero by exact Hpos. rewrite review_stagingDir. fold dir.
    cbn [negb orb Review.includes existsb String.eqb Ascii.eqb Bool.eqb andb].
    destruct (Fs.rm dir _); [|reflexivity].
    unfold Db.deleteSubmission. cbn [Db.rowidOf]. now rewrite E1. }
  split.
  - intros C.
    assert (N : ¬ fileOnTheWay dir (snd (snd (Submit.POST hostname site f now (d, t))))).
    { destruct (Submit.hasScreenshots f) eqn:Hs.
      - destruct F as [F _]. intros (q & c & Hq & _ & Hp & Hf).
        rewrite (F q Hq Hp) in Hf. discriminate.
      - rewrite F. destruct C as [C|C]; [discriminate | exact C]. }
    rewrite (rm_clear _ _ N) in R. rewrite R. cbn [fst snd Db.submissions Db.accounts
      Db.bookmarks Db.submissions_seq].
    split; [reflexivity|]. split.
    { rewrite Hid. apply delete_insert_id, nextRowid_fresh. }
    split; [reflexivity|]. split; [reflexivity|]. split; [reflexivity|]. split.
    + intros q Hq. now apply prune_lookup_below.
    + intros q Hq1 Hq2. rewrite prune_lookup_other by exact Hq1.
      destruct (Submit.POST hostname site f now (d, t)) as [out [d' t']] eqn:E. simpl in *.
      destruct (intake_anatomy hostname site f now d d' t t' out E)
        as [(_ & -> & _)|(_ & _ & _ & _ & _ & A)]; [reflexivity|].
      specialize (A q). rewrite <- Hid in A. fold dir in A.
      destruct A as [A|[(_ & A & _)|(A & _)]]; [exact A | contradiction |].
      exfalso. apply Hq1. simpl in A.
      destruct A as [<-|[<-|[<-|[]]]]; eexists; reflexivity.
  - intros B. destruct (Submit.hasScreenshots f) eqn:Hs.
    { destruct F as [_ F]. contradiction. }
    rewrite F in R. rewrite (rm_blocked dir t B) in R. rewrite R. cbn [fst snd].
    split; [reflexivity|]. split; [reflexivity|]. rewrite E1, F. cbn [Db.submissions].
    split; [apply lookup_insert_eq | reflexivity].
Qed.

Lemma delete_undoes_intake_witness :
  let result := Review.POST digitsText (siteCwd ++ ["admin"]) (JS.JNum 1) (JS.JStr "deleted") 200
                            (snd (Submit.POST httpsHost siteCwd demoForm 100 (emptyDb, ∅))) in
  fst result = Http.Respond 200 Http.Ok None
  /\ Db.submissions (fst (snd result)) = Db.submissions emptyDb
  /\ forall q, (siteCwd ++ ["staging"; pretty 1]) `prefix_of` q -> snd (snd result) !! q = None.
Proof.
  intros result.
  assert (H : fst (Submit.POST httpsHost siteCwd demoForm 100 (emptyDb, ∅))
              = Http.Respond 200 (Http.OkId 1) None) by (vm_compute; reflexivity).
  destruct (proj1 (delete_undoes_intake httpsHost digitsText siteCwd "admin" demoForm 100 200
                     (emptyDb, ∅) 1 H eq_refl) (or_introl eq_refl))
    as (A & B & _ & _ & _ & C & _).
  split; [exact A|]. split; [exact B | exact C].
Defined.

Lemma existsb_eqb_In (s : string) (l : list string) :
  existsb (String.eqb s) l = true -> In s l.
Proof.
  intros H. apply existsb_exists in H as (x & Hx & E).
  apply String.eqb_eq in E. now subst.
Qed.

Lemma among_text (v : option Submit.entry) (l : list string) :
  Submit.among v l = true -> exists s, v = Some (Submit.Text s) /\ In s l.
Proof.
  destruct v as [[s|c]|]; simpl; try discriminate.
  intros H. exists s. split; [reflexivity | now apply existsb_eqb_In].
Qed.

Lemma checked_set (v : option Submit.entry) (l : list string) :
  Submit.isText v = true ->
  Submit.truthy v && negb (Submit.among v l) = false ->
  nullOrEmptyOr (fun s => In s l) (Submit.text v).
Proof.
  unfold nullOrEmptyOr. destruct v as [[s|c]|]; simpl; try discriminate; [|now left].
  intros _ H. destruct (String.eqb_spec s "") as [->|Hs]; [right; now left|].
  right; right. exists s. split; [reflexivity|]. simpl in H.
  apply existsb_eqb_In. now destruct (existsb _ l).
Qed.

Lemma trimmed_nonempty (v : option Submit.entry) :
  Submit.isText v = true -> Submit.emptyText v = false -> Submit.trimmed v <> "".
Proof.
  destruct v as [[s|c]|]; simpl; try discriminate.
  intros _ H E. rewrite E in H. discriminate.
Qed.

Lemma newRow_validated (hostname : string -> option string) (f : Submit.formData) (now : Z) :
  Submit.validate hostname f = None ->
  Submit.isText (Submit.get "csnades_url" f) = true ->
  validatedRow hostname (Submit.newRow f now).
Proof.
  intros V W. pose proof (validated_spec hostname f V) as S.
  destruct (validated_map_side hostname f V) as [Wm Ws].
  pose proof (S Submit.NoInput) as S0. pose proof (S Submit.MalformedUrl) as S1.
  pose proof (S Submit.OffDomain) as S2. pose proof (S Submit.MapRequired) as S3.
  pose proof (S Submit.UnsupportedMap) as S4. pose proof (S Submit.InvalidSide) as S5.
  pose proof (S Submit.LineupNameRequired) as S6. pose proof (S Submit.StandDescRequired) as S7.
  pose proof (S Submit.AimDescRequired) as S8. pose proof (S Submit.ThrowTypeRequired) as S9.
  cbn [Submit.violates] in *.
  unfold validatedRow, Submit.newRow. cbn [Db.sub_status Db.reviewed_at Db.csnades_url
    Db.map_name Db.side Db.data].
  split; [reflexivity|]. split; [reflexivity|]. split; [|split; [|split]].
  - unfold nullOrEmptyOr.
    destruct (Submit.get "csnades_url" f) as [[s|c]|]; simpl in *; try discriminate; [|now left].
    destruct (String.eqb_spec s "") as [->|Hs]; [right; now left|].
    right; right. exists s. split; [reflexivity|]. simpl in *.
    destruct (hostname s) as [h|]; [|discriminate].
    exists h. split; [reflexivity|].
    apply (existsb_eqb_In h ["csnades.gg"; "www.csnades.gg"]).
    apply negb_false_iff in S2. exact S2.
  - now apply checked_set.
  - now apply checked_set.
  - unfold Submit.payloadOf. destruct (Submit.hasScreenshots f) eqn:Hs; simpl in *.
    + pose proof (validated_descriptive hostname f V Hs) as D.
      unfold Submit.descriptiveText in D. simpl in D.
      apply andb_true_iff in D as [D1 D]. apply andb_true_iff in D as [D2 D].
      apply andb_true_iff in D as [D3 _].
      split; [now apply trimmed_nonempty|]. split; [now apply trimmed_nonempty|].
      split; [now apply trimmed_nonempty|].
      apply negb_false_iff in S9. apply among_text in S9 as (tt & -> & Htt).
      split; [exact Htt|].
      apply negb_false_iff in S3. rewrite S3 in S4. simpl in S4.
      apply negb_false_iff in S4. apply among_text in S4 as (m & -> & Hm).
      exists m. now split.
    + rewrite andb_true_r in S0. apply negb_false_iff in S0.
      destruct (Submit.get "csnades_url" f) as [[s|c]|]; simpl in *; try discriminate.
      exists s. split; [reflexivity|]. intros ->. discriminate.
Qed.

(** X6. Every row the intake handler adds to the table has passed its
    checks, whatever the form was: it is pending and unreviewed; its URL,
    if not empty, has one of the two csnades.gg hosts; its map and side,
    if not empty, are supported ones; with screenshots it names a
    supported map and carries three non-empty trimmed descriptions and a
    supported throw type; without screenshots it carries a non-empty
    URL.  All other rows are those of before. *)
Theorem stored_rows_validated (hostname : string -> option string) (cwd : Path.path)
        (f : Submit.formData) (now : Z) (st : Db.db * Fs.fs) (k : Z) (row : Db.submission) :
  Db.submissions (fst (snd (Submit.POST hostname cwd f now st))) !! k = Some row ->
  Db.submissions (fst st) !! k = Some row
  \/ (k = Db.nextRowid (fst st) /\ row = Submit.newRow f now /\ validatedRow hostname row).
Proof.
  destruct st as [d t].
  destruct (Submit.POST hostname cwd f now (d, t)) as [out [d' t']] eqn:E. simpl.
  destruct (intake_anatomy hostname cwd f now d d' t t' out E)
    as [(-> & _)|(V & W & -> & _)]; [now left|].
  simpl. intros H. apply lookup_insert_Some in H as [[<- <-]|[_ H]]; [|now left].
  right. split; [reflexivity|]. split; [reflexivity|]. now apply newRow_validated.
Qed.

Lemma stored_rows_validated_witness :
  Db.submissions emptyDb !! 1 = Some (Submit.newRow demoForm 100)
  \/ (1 = Db.nextRowid emptyDb /\ Submit.newRow demoForm 100 = Submit.newRow demoForm 100
      /\ validatedRow httpsHost (Submit.newRow demoForm 100)).
Proof.
  apply (stored_rows_validated httpsHost siteCwd demoForm 100 (emptyDb, ∅) 1
                               (Submit.newRow demoForm 100)).
  vm_compute. reflexivity.
Defined.

Lemma saveFiles_text (f : Submit.formData) (dir : Path.path) (names : list string) (t : Fs.fs) :
  (forall name, In name names -> Submit.isFile (Submit.get name f) = false) ->
  Submit.saveFiles f dir names t = (true, t).
Proof.
  induction names as [|name names IH]; intros H; simpl; [reflexivity|].
  pose proof (H name (or_introl eq_refl)) as Hn.
  destruct (Submit.get name f) as [[s|c]|]; simpl in Hn; try discriminate.
  apply IH. intros n Hin. apply H. now right.
Qed.

(** X7. The handler never checks that a screenshot field is a file.  A
    form whose three screenshot fields are text passes, once validation
    accepts it, as a submission with screenshots: the answer is 200,
    the row records [hasScreenshots = true], the staging directory is
    made, and no image is written into it. *)
Theorem unchecked_screenshot_type (hostname : string -> option string) (cwd : Path.path)
        (f : Submit.formData) (now : Z) (d : Db.db) (t t1 : Fs.fs) :
  Submit.validate hostname f = None ->
  Submit.isText (Submit.get "csnades_url" f) = true ->
  Submit.hasScreenshots f = true ->
  (forall name, In name Submit.SCREENSHOTS -> Submit.isFile (Submit.get name f) = false) ->
  let id := Db.nextRowid d in
  let dir := cwd ++ ["staging"; pretty id] in
  Fs.mkdir dir t = Some t1 ->
  Submit.POST hostname cwd f now (d, t)
  = (Http.Respond 200 (Http.OkId id) None,
     (Db.Store (Db.accounts d) (Db.bookmarks d)
               (<[id := Submit.newRow f now]> (Db.submissions d)) id, t1))
  /\ (Db.hasScreenshots <$> Db.data (Submit.newRow f now)) = Some true
  /\ t1 !! dir = Some Fs.Dir
  /\ forall name : string, t1 !! (dir ++ [(name ++ ".jpg")%string])
                           = t !! (dir ++ [(name ++ ".jpg")%string]).
Proof.
  intros V W Hs Ht id dir M.
  rewrite (intake_after_validation hostname cwd f now d t W V). cbv zeta. fold id dir.
  rewrite Hs, M, (saveFiles_text f dir Submit.SCREENSHOTS t1 Ht).
  split; [reflexivity|]. split; [simpl; now rewrite Hs|].
  assert (Hdir : dir <> []) by (subst dir; now destruct cwd).
  split.
  - rewrite (mkdir_lookup dir dir t t1 M).
    destruct (decide _) as [_|N]; [reflexivity|]. exfalso. apply N. split; done.
  - intros name. rewrite (mkdir_lookup dir _ t t1 M).
    destruct (decide _) as [[_ [k Hk]]|_]; [|reflexivity].
    apply (f_equal length) in Hk. rewrite !length_app in Hk. simpl in Hk. lia.
Qed.

Lemma unchecked_screenshot_type_witness :
  Submit.validate httpsHost textForm = None
  /\ exists t1 : Fs.fs,
       Submit.POST httpsHost siteCwd textForm 100 (emptyDb, ∅)
       = (Http.Respond 200 (Http.OkId (Db.nextRowid emptyDb)) None,
          (Db.Store (Db.accounts emptyDb) (Db.bookmarks emptyDb)
                    (<[Db.nextRowid emptyDb := Submit.newRow textForm 100]>
                       (Db.submissions emptyDb))
                    (Db.nextRowid emptyDb), t1))
       /\ (Db.hasScreenshots <$> Db.data (Submit.newRow textForm 100)) = Some true.
Proof.
  assert (V : Submit.validate httpsHost textForm = None) by (vm_compute; reflexivity).
  split; [exact V|].
  destruct (mkdir_succeeds (siteCwd ++ ["staging"; pretty (Db.nextRowid emptyDb)]) ∅) as [t1 M].
  { intros q c _. rewrite lookup_empty. discriminate. }
  exists t1.
  destruct (unchecked_screenshot_type httpsHost siteCwd textForm 100 emptyDb ∅ t1 V eq_refl eq_refl)
    as (P & Q & _); [|exact M|split; assumption].
  intros name [<-|[<-|[<-|[]]]]; reflexivity.
Defined.

Lemma validate_v1_of_later (hostname : string -> option string) (f : Submit.formData) :
  Submit.validate hostname f = None ->
  Submit.isText (Submit.get "csnades_url" f) = true ->
  (forall s, Submit.get "csnades_url" f = Some (Submit.Text s) -> s <> "" ->
             String.prefix "https://csnades.gg/" s = true) ->
  Submit.validate_v1 f = None.
Proof.
  unfold Submit.validate, Submit.validate_v1. intros V W P.
  destruct (negb _ && negb _); [discriminate|].
  destruct (Submit.checkUrl hostname f); [discriminate|].
  assert (U : Submit.checkUrl_v1 f = None).
  { unfold Submit.checkUrl_v1.
    destruct (Submit.get "csnades_url" f) as [[s|c]|]; simpl in *; try discriminate; auto.
    destruct (String.eqb_spec s "") as [->|Hs]; [reflexivity|].
    now rewrite (P s eq_refl Hs). }
  rewrite U.
  destruct (Submit.hasScreenshots f && _); [discriminate|].
  destruct (Submit.truthy (Submit.get "map" f) && _); [discriminate|].
  destruct (Submit.truthy (Submit.get "side" f) && _); [discriminate|].
  destruct (Submit.hasScreenshots f); [|reflexivity].
  destruct (Submit.checkDetails f); [discriminate | exact V].
Qed.

(** X8. The two revisions of the intake handler agree on what the later
    one accepts, as long as the URL, when given, starts with
    [https://csnades.gg/] (the earlier test): the earlier revision gives
    the same response and the same files, and stores under the same
    identifier the same URL and map, with no side and no descriptions. *)
Theorem intake_revisions_agree (hostname : string -> option string) (cwd : Path.path)
        (f : Submit.formData) (now : Z) (st : Db.db * Fs.fs) :
  Submit.validate hostname f = None ->
  Submit.isText (Submit.get "csnades_url" f) = true ->
  (forall s, Submit.get "csnades_url" f = Some (Submit.Text s) -> s <> "" ->
             String.prefix "https://csnades.gg/" s = true) ->
  let earlier := Submit.POST_v1 cwd f now st in
  let later := Submit.POST hostname cwd f now st in
  let row := Submit.newRow f now in
  fst earlier = fst later
  /\ snd (snd earlier) = snd (snd later)
  /\ fst (snd earlier)
     = Db.Store (Db.accounts (fst st)) (Db.bookmarks (fst st))
         (<[Db.nextRowid (fst st) :=
              Db.Submission Db.pending (Db.csnades_url row) None (Db.map_name row) None
                            (Some (Db.Payload (Submit.hasScreenshots f) None)) now None]>
            (Db.submissions (fst st)))
         (Db.nextRowid (fst st)).
Proof.
  intros V W P earlier later row. subst earlier later row. destruct st as [d t].
  rewrite (intake_after_validation hostname cwd f now d t W V). cbv zeta.
  unfold Submit.POST_v1. rewrite (validate_v1_of_later hostname f V W P).
  destruct (validated_map_side hostname f V) as [Wm _].
  rewrite (bind_text _ W), (bind_text _ Wm). unfold Db.insertSubmission. cbv zeta.
  rewrite intake_stagingDir. cbn [fst snd].
  destruct (Submit.hasScreenshots f); [|now repeat split].
  destruct (Fs.mkdir _ t) as [t1|]; [|now repeat split].
  destruct (Submit.saveFiles f _ Submit.SCREENSHOTS t1) as [[|] t2]; now repeat split.
Qed.

Lemma intake_revisions_agree_witness :
  fst (Submit.POST_v1 siteCwd urlForm 100 (emptyDb, ∅))
  = fst (Submit.POST httpsHost siteCwd urlForm 100 (emptyDb, ∅))
  /\ snd (snd (Submit.POST_v1 siteCwd urlForm 100 (emptyDb, ∅)))
     = snd (snd (Submit.POST httpsHost siteCwd urlForm 100 (emptyDb, ∅))).
Proof.
  destruct (intake_revisions_agree httpsHost siteCwd urlForm 100 (emptyDb, ∅)) as (A & B & _).
  - vm_compute. reflexivity.
  - reflexivity.
  - intros s [= <-] _. reflexivity.
  - split; [exact A | exact B].
Defined.

(** ** The cookie, login and the toggle together *)

Lemma prefix_split (p s : string) :
  String.prefix p s = true -> exists rest, s = (p ++ rest)%string.
Proof.
  revert s. induction p as [|c p IH]; intros s.
  - intros _. exists s. reflexivity.
  - destruct s as [|b s]; simpl; [discriminate|].
    destruct (Ascii.ascii_dec c b) as [<-|]; [|discriminate].
    intros H. destruct (IH s H) as [rest ->]. exists rest. reflexivity.
Qed.

Lemma takeHex_spec (n : nat) (s : string) :
  forallb Auth.isLowerHex (list_ascii_of_string (Auth.takeHex n s)) = true
  /\ exists post, s = (Auth.takeHex n s ++ post)%string.
Proof.
  revert s. induction n as [|n IH]; intros s.
  - split; [reflexivity|]. exists s. now destruct s.
  - destruct s as [|c s]; [split; [reflexivity | now exists ""]|].
    simpl. destruct (Auth.isLowerHex c) eqn:Hc.
    + destruct (IH s) as [Hh [post Hp]]. split.
      * simpl. now rewrite Hc.
      * exists post. change (String c (Auth.takeHex n s) ++ post)%string
          with (String c (Auth.takeHex n s ++ post)). now rewrite <- Hp.
    + split; [reflexivity|]. now exists (String c s).
Qed.

Lemma matchHere_sound (s g : string) :
  Auth.matchHere s = Some g ->
  String.length g = 64%nat
  /\ forallb Auth.isLowerHex (list_ascii_of_string g) = true
  /\ exists post, s = ("nades_account=" ++ g ++ post)%string.
Proof.
  unfold Auth.matchHere. destruct (String.prefix "nades_account=" s) eqn:P; [|discriminate].
  apply prefix_split in P as [rest ->].
  pose proof (substring_append "nades_account=" rest) as S.
  change (String.length "nades_account=") with 14%nat in S. rewrite S.
  destruct (Nat.eqb_spec (String.length (Auth.takeHex 64 rest)) 64) as [L|]; [|discriminate].
  intros [= <-]. destruct (takeHex_spec 64 rest) as [Hh [post Hp]].
  split; [exact L|]. split; [exact Hh|]. exists post.
  exact (f_equal (String.append "nades_account=") Hp).
Qed.

Lemma matchCookie_step (c : ascii) (s : string) :
  Auth.matchCookie (String c s)
  = match Auth.matchHere (String c s) with
    | Some g => Some g
    | None => Auth.matchCookie s
    end.
Proof. reflexivity. Qed.

(** X9. What [getAccountHash] returns was in the cookie header: the
    identifier has 64 characters, all of them lower-case hexadecimal
    digits, and the header contains [nades_account=] followed by it.  In
    particular a request without a cookie header, or with an empty
    value as logout sets it, carries no identifier. *)
Theorem getAccountHash_sound (cookie : option string) (h : string) :
  Auth.getAccountHash cookie = Some h ->
  String.length h = 64%nat
  /\ forallb Auth.isLowerHex (list_ascii_of_string h) = true
  /\ exists header pre post,
       cookie = Some header /\ header = (pre ++ "nades_account=" ++ h ++ post)%string.
Proof.
  unfold Auth.getAccountHash. intros H.
  assert (G : forall s, Auth.matchCookie s = Some h ->
                        String.length h = 64%nat
                        /\ forallb Auth.isLowerHex (list_ascii_of_string h) = true
                        /\ exists pre post, s = (pre ++ "nades_account=" ++ h ++ post)%string).
  { induction s as [|c s IH].
    - unfold Auth.matchCookie. destruct (Auth.matchHere "") as [g|] eqn:M; [|discriminate].
      intros [= ->]. destruct (matchHere_sound _ _ M) as (L & X & post & E).
      split; [exact L|]. split; [exact X|]. now exists "", post.
    - rewrite matchCookie_step. destruct (Auth.matchHere (String c s)) as [g|] eqn:M.
      + intros [= ->]. destruct (matchHere_sound _ _ M) as (L & X & post & E).
        split; [exact L|]. split; [exact X|]. now exists "", post.
      + intros Hs. destruct (IH Hs) as (L & X & pre & post & E).
        split; [exact L|]. split; [exact X|]. exists (String c pre), post.
        change (String c pre ++ "nades_account=" ++ h ++ post)%string
          with (String c (pre ++ "nades_account=" ++ h ++ post)). now rewrite <- E. }
  destruct cookie as [header|]; [|discriminate].
  destruct (G header H) as (L & X & pre & post & E).
  split; [exact L|]. split; [exact X|]. now exists header, pre, post.
Qed.

Lemma getAccountHash_sound_witness :
  String.length helloHash = 64%nat
  /\ forallb Auth.isLowerHex (list_ascii_of_string helloHash) = true
  /\ exists header pre post,
       helloCookie = Some header
       /\ header = (pre ++ "nades_account=" ++ helloHash ++ post)%string.
Proof. apply (getAccountHash_sound helloCookie helloHash). vm_compute. reflexivity. Defined.

Lemma login_creates_account (hash : string) (now : Z) (d : Db.db) :
  is_Some (Db.accounts (Db.insertOrIgnoreAccount hash now d) !! hash)
  /\ Db.bookmarks (Db.insertOrIgnoreAccount hash now d) = Db.bookmarks d.
Proof.
  unfold Db.insertOrIgnoreAccount. destruct (Db.accounts d !! hash) eqn:E; simpl.
  - split; [now rewrite E | reflexivity].
  - split; [rewrite lookup_insert_eq; eauto | reflexivity].
Qed.

Lemma insertOrIgnore_known (hash : string) (now : Z) (d : Db.db) :
  is_Some (Db.accounts d !! hash) -> Db.insertOrIgnoreAccount hash now d = d.
Proof. intros [x E]. unfold Db.insertOrIgnoreAccount. now rewrite E. Qed.

(** X10. Login and the toggle fit together.  A successful login sets the
    cookie [nades_account=<hash>] with its attributes; a toggle whose
    cookie header starts with [nades_account=<hash>], whatever follows,
    is then always let through (never a 401, never a refusal by the
    foreign key); it answers [bookmarked = true] exactly when the slug
    was not in the list the login returned; and the next login returns
    that list with the slug added, respectively taken out. *)
Theorem login_then_toggle (raw slug setCookie : string) (slugs : list string)
        (now now' now'' : Z) (d : Db.db) :
  fst (Account.POST (JS.JStr raw) now d)
  = Http.Respond 200 (Http.OkBookmarks slugs) (Some setCookie) ->
  slug <> "" ->
  exists hash,
    setCookie = Account.sessionCookie hash
    /\ forall rest : string,
         let header := ("nades_account=" ++ hash ++ rest)%string in
         let d1 := snd (Account.POST (JS.JStr raw) now d) in
         let toggled := Bookmarks.POST (Some header) (Some slug) now' d1 in
         fst toggled
         = Http.Respond 200 (Http.Bookmarked (negb (bool_decide (slug ∈ slugs)))) None
         /\ exists slugs',
              fst (Account.POST (JS.JStr raw) now'' (snd toggled))
              = Http.Respond 200 (Http.OkBookmarks slugs') (Some setCookie)
              /\ forall s, s ∈ slugs' <-> if decide (s = slug) then slug ∉ slugs else s ∈ slugs.
Proof.
  intros H Hslug. revert H. unfold Account.POST.
  destruct (String.eqb (JS.trim raw) "" || _) eqn:B; [discriminate|].
  cbn [fst snd]. intros [= <- <-].
  set (hash := Auth.hashNickname (JS.trim raw)).
  set (d1 := Db.insertOrIgnoreAccount hash now d).
  exists hash. split; [reflexivity|]. intros rest. cbv zeta.
  destruct (login_creates_account hash now d) as [[a Ha] Hb]. fold d1 in Ha, Hb.
  assert (C : Auth.getAccountHash (Some ("nades_account=" ++ hash ++ rest)%string) = Some hash).
  { unfold Auth.getAccountHash. cbn [default from_option].
    apply matchCookie_here, matchHere_cookie; unfold hash, Auth.hashNickname, Sha256.sha256_hex.
    - apply hex_length.
    - apply hex_lower. }
  rewrite (toggle_step _ hash slug now' d1 C Hslug).
  assert (M : forall s dd, s ∈ Db.selectSlugs hash dd <-> is_Some (Db.bookmarks dd !! (hash, s)))
    by (intros; apply selectSlugs_spec).
  destruct (Db.selectBookmark hash slug d1) eqn:S.
  - apply selectBookmark_true in S. split.
    + cbn [fst]. rewrite bool_decide_eq_true_2 by now apply M. reflexivity.
    + cbn [snd]. rewrite insertOrIgnore_known by (simpl; eauto).
      eexists. split; [reflexivity|]. intros s. rewrite M. simpl.
      destruct (decide (s = slug)) as [->|Hne].
      * rewrite lookup_delete_eq. split; [intros [? ?]; discriminate|].
        intros N. exfalso. apply N. now apply M.
      * rewrite lookup_delete_ne by congruence. symmetry. apply M.
  - apply selectBookmark_false in S. unfold Db.insertBookmark. rewrite S, Ha. split.
    + cbn [fst]. rewrite bool_decide_eq_false_2; [reflexivity|].
      rewrite M, S. intros [? ?]; discriminate.
    + cbn [snd]. rewrite insertOrIgnore_known by (simpl; eauto).
      eexists. split; [reflexivity|]. intros s. rewrite M. simpl.
      destruct (decide (s = slug)) as [->|Hne].
      * rewrite lookup_insert_eq. split; [|eauto].
        intros _. rewrite M, S. intros [? ?]; discriminate.
      * rewrite lookup_insert_ne by congruence. symmetry. apply M.
Qed.

Lemma login_then_toggle_witness :
  exists hash,
    Account.sessionCookie helloHash = Account.sessionCookie hash
    /\ forall rest : string,
         let header := ("nades_account=" ++ hash ++ rest)%string in
         let d1 := snd (Account.POST (JS.JStr " Hello ") 6 bookmarked) in
         let toggled := Bookmarks.POST (Some header) (Some "mirage-window") 7 d1 in
         fst toggled
         = Http.Respond 200
             (Http.Bookmarked (negb (bool_decide ("mirage-window" ∈ ["mirage-window"])))) None
         /\ exists slugs',
              fst (Account.POST (JS.JStr " Hello ") 8 (snd toggled))
              = Http.Respond 200 (Http.OkBookmarks slugs')
                             (Some (Account.sessionCookie helloHash))
              /\ forall s, s ∈ slugs' <-> if decide (s = "mirage-window")
                                          then "mirage-window" ∉ ["mirage-window"]
                                          else s ∈ ["mirage-window"].
Proof.
  apply (login_then_toggle " Hello " "mirage-window" (Account.sessionCookie helloHash)
                           ["mirage-window"] 6 7 8 bookmarked).
  - vm_compute. reflexivity.
  - discriminate.
Defined.

Lemma intake_keeps_accounts (hostname : string -> option string) (cwd : Path.path)
      (f : Submit.formData) (now : Z) (st : Db.db * Fs.fs) :
  Db.accounts (fst (snd (Submit.POST hostname cwd f now st))) = Db.accounts (fst st)
  /\ Db.bookmarks (fst (snd (Submit.POST hostname cwd f now st))) = Db.bookmarks (fst st).
Proof.
  destruct st as [d t].
  destruct (Submit.POST hostname cwd f now (d, t)) as [out [d' t']] eqn:E. simpl.
  destruct (intake_anatomy hostname cwd f now d d' t t' out E)
    as [(-> & _)|(_ & _ & -> & _)]; now split.
Qed.

Lemma review_keeps_accounts (numericText : string -> option Z) (cwd : Path.path)
      (id status : JS.value) (now : Z) (st : Db.db * Fs.fs) :
  Db.accounts (fst (snd (Review.POST numericText cwd id status now st))) = Db.accounts (fst st)
  /\ Db.bookmarks (fst (snd (Review.POST numericText cwd id status now st)))
     = Db.bookmarks (fst st).
Proof.
  unfold Review.POST. destruct (negb _ || negb _); [now split|].
  destruct (Review.includes ["deleted"] status).
  - destruct (Fs.rm _ _); [|now split].
    unfold Db.deleteSubmission. destruct (Db.rowidOf numericText id) as [e|[k|]]; now split.
  - unfold Db.updateStatus. destruct (Db.rowidOf numericText id) as [e|[k|]]; try now split.
    destruct (Db.submissions (fst st) !! k); [|now split].
    destruct (Db.statusOfText _); now split.
Qed.

Lemma bookmarked_referential : referential bookmarked.
Proof.
  intros h s [x H]. unfold bookmarked in *. cbn [Db.bookmarks Db.accounts] in *.
  apply lookup_singleton_Some in H as [[= <- <-] _]. rewrite lookup_singleton_eq. eauto.
Qed.

(** X11. No handler leaves a bookmark without its account: if every
    bookmark of the store belongs to an account row, the same holds
    after a login, a logout, a toggle, an intake and a review request. *)
Theorem referential_kept (hostname : string -> option string) (numericText : string -> option Z)
        (nickname id status : JS.value) (cookie slug : option string)
        (cwd : Path.path) (f : Submit.formData) (now : Z) (d : Db.db) (t : Fs.fs) :
  referential d ->
  referential (snd (Account.POST nickname now d))
  /\ referential (snd (Account.DELETE d))
  /\ referential (snd (Bookmarks.POST cookie slug now d))
  /\ referential (fst (snd (Submit.POST hostname cwd f now (d, t))))
  /\ referential (fst (snd (Review.POST numericText cwd id status now (d, t)))).
Proof.
  intros R. split; [|split; [exact R|split; [|split]]].
  - unfold Account.POST. destruct nickname as [| |n|raw]; try exact R.
    destruct (_ || _); [exact R|]. cbn [snd]. intros h s Hb.
    destruct (login_creates_account (Auth.hashNickname (JS.trim raw)) now d) as [Ha Eb].
    rewrite Eb in Hb. apply R in Hb.
    unfold Db.insertOrIgnoreAccount.
    destruct (Db.accounts d !! Auth.hashNickname (JS.trim raw)) eqn:E; [exact Hb|].
    simpl. apply lookup_insert_is_Some.
    destruct (decide (Auth.hashNickname (JS.trim raw) = h)); [now left | now right].
  - unfold Bookmarks.POST. destruct (Auth.getAccountHash cookie) as [hash|]; [|exact R].
    destruct slug as [[|c s]|]; try exact R.
    destruct (Db.selectBookmark hash (String c s) d).
    + intros h s' Hb. simpl in *. apply (R h s').
      destruct (decide ((hash, String c s) = (h, s'))) as [E|N].
      * rewrite E, lookup_delete_eq in Hb. now destruct Hb.
      * now rewrite lookup_delete_ne in Hb.
    + unfold Db.insertBookmark. destruct (Db.bookmarks d !! _); [exact R|].
      destruct (Db.accounts d !! hash) eqn:A; [|exact R].
      intros h s' Hb. simpl in *. apply lookup_insert_is_Some in Hb as [E|[_ Hb]].
      * injection E as <- <-. rewrite A. eauto.
      * now apply R in Hb.
  - destruct (intake_keeps_accounts hostname cwd f now (d, t)) as [Ea Eb].
    intros h s. rewrite Ea, Eb. apply R.
  - destruct (review_keeps_accounts numericText cwd id status now (d, t)) as [Ea Eb].
    intros h s. rewrite Ea, Eb. apply R.
Qed.

Lemma referential_kept_witness :
  referential (snd (Account.POST (JS.JStr "Hello") 9 bookmarked))
  /\ referential (snd (Account.DELETE bookmarked))
  /\ referential (snd (Bookmarks.POST helloCookie (Some "mirage-window") 9 bookmarked))
  /\ referential (fst (snd (Submit.POST httpsHost siteCwd demoForm 9 (bookmarked, ∅))))
  /\ referential (fst (snd (Review.POST digitsText adminCwd (JS.JNum 1) (JS.JStr "approved") 9
                                         (bookmarked, ∅)))).
Proof.
  apply (referential_kept httpsHost digitsText (JS.JStr "Hello") (JS.JNum 1) (JS.JStr "approved")
                          helloCookie (Some "mirage-window") siteCwd demoForm 9 bookmarked ∅).
  exact bookmarked_referential.
Defined.

(** ** Reports *)

Lemma maxKey_bound (m : gmap Z ReportDb.report) (k : Z) (r : ReportDb.report) :
  m !! k = Some r -> k <= ReportDb.maxKey m.
Proof.
  unfold ReportDb.maxKey. revert k r.
  apply (map_fold_weak_ind (fun acc m => forall k r, m !! k = Some r -> k <= acc)).
  - intros k r H. now rewrite lookup_empty in H.
  - intros i x m' acc Hi IH k r H.
    apply lookup_insert_Some in H as [[<- _]|[_ H]]; [lia|]. specialize (IH k r H). lia.
Qed.

Lemma includes_In (l : list string) (v : JS.value) :
  Review.includes l v = true -> exists s, v = JS.JStr s /\ In s l /\ JS.toString v = s.
Proof.
  destruct v as [| | |s]; simpl; try discriminate.
  intros H. exists s. split; [reflexivity|]. split; [now apply existsb_eqb_In | reflexivity].
Qed.

(** X12. A freshness report, its slug a string or absent, never reaches a
    CHECK constraint it would fail.  Either the request is refused with
    400 and the tables are as before (the slug is missing or empty, or
    the frame type or the direction is not a string of its set), or it
    is answered 200 and exactly one row is added under an identifier the
    table never held, with the slug, frame type and direction of the
    request. *)
Theorem freshness_report_accepted (slug : option string) (frameType direction : JS.value) (now : Z)
        (t : ReportDb.tables) :
  let result := Reports.POST slug frameType direction now t in
  let refused := slug = None \/ slug = Some ""
                 \/ Review.includes ReportDb.FRAME_TYPES frameType = false
                 \/ Review.includes ReportDb.DIRECTIONS direction = false in
  (refused /\ result = (Http.badRequest "Invalid report data", t))
  \/ (¬ refused
      /\ exists s ft dir,
           slug = Some s /\ frameType = JS.JStr ft /\ direction = JS.JStr dir
           /\ fst result = Http.Respond 200 Http.Ok None
           /\ ReportDb.reports t !! ReportDb.nextId t = None
           /\ (forall k r, ReportDb.reports t !! k = Some r -> k < ReportDb.nextId t)
           /\ snd result
              = ReportDb.Tables (<[ReportDb.nextId t := ReportDb.Report s ft dir now]>
                                   (ReportDb.reports t))
                                (ReportDb.nextId t) (ReportDb.lineup_reports t)).
Proof.
  intros result refused. subst result refused. unfold Reports.POST.
  destruct slug as [[|c s]|]; [left; split; auto | | left; split; auto].
  change ["position"; "aim"; "result"] with ReportDb.FRAME_TYPES.
  change ["earlier"; "later"] with ReportDb.DIRECTIONS.
  destruct (Review.includes ReportDb.FRAME_TYPES frameType) eqn:F; [|left; split; auto].
  destruct (Review.includes ReportDb.DIRECTIONS direction) eqn:D; [|left; split; auto].
  right. split; [intros [N|[N|[N|N]]]; discriminate|].
  destruct (includes_In _ _ F) as (ft & -> & _ & _).
  destruct (includes_In _ _ D) as (dir & -> & _ & _).
  unfold Review.includes in F, D. unfold ReportDb.insertReport. cbn [JS.toString negb orb].
  rewrite F, D. cbn [andb fst snd].
  assert (B : forall k r, ReportDb.reports t !! k = Some r -> k < ReportDb.nextId t).
  { intros k r H. apply maxKey_bound in H. unfold ReportDb.nextId. lia. }
  exists (String c s), ft, dir. repeat split; try reflexivity; [|exact B].
  destruct (ReportDb.reports t !! ReportDb.nextId t) eqn:E; [|reflexivity].
  apply B in E. lia.
Qed.

(** X13. A broken-lineup report, its slug a string or absent, is refused
    with 400, the tables as before, when the slug is missing or empty or
    the reason is not a string of the handler's list; otherwise it is
    answered 200 and one row with the slug and the reason is appended.
    The handler's list is the one of the table's CHECK, so the insert
    cannot fail on it. *)
Theorem broken_lineup_report (slug : option string) (reason : JS.value) (t : ReportDb.tables) :
  let result := LineupReports.POST slug reason t in
  let refused := slug = None \/ slug = Some ""
                 \/ Review.includes LineupReports.VALID_REASONS reason = false in
  (refused /\ result = (Http.badRequest "Invalid report data", t))
  \/ (¬ refused
      /\ exists s rs,
           slug = Some s /\ reason = JS.JStr rs /\ In rs ReportDb.REASONS
           /\ result
              = (Http.Respond 200 Http.Ok None,
                 ReportDb.Tables (ReportDb.reports t) (ReportDb.reports_seq t)
                                 (ReportDb.lineup_reports t ++ [ReportDb.LineupReport s rs]))).
Proof.
  intros result refused. subst result refused. unfold LineupReports.POST.
  destruct slug as [[|c s]|]; [left; split; auto | | left; split; auto].
  destruct (Review.includes LineupReports.VALID_REASONS reason) eqn:F; [|left; split; auto].
  right. split; [intros [N|[N|N]]; discriminate|].
  destruct (includes_In _ _ F) as (rs & -> & I & _).
  unfold Review.includes in F. unfold ReportDb.insertLineupReport. cbn [JS.toString negb].
  change ReportDb.REASONS with LineupReports.VALID_REASONS. rewrite F.
  exists (String c s), rs. repeat split; assumption.
Qed.

(** ** The two revisions of the review endpoint *)

(** X14. The two revisions of the review endpoint agree on every request
    that does not ask for a deletion: the later one answers as the
    earlier one, changes the store as the earlier one and leaves the
    files alone.  A request with the status [deleted] is refused by the
    earlier revision with 400. *)
Theorem review_revisions_agree (numericText : string -> option Z) (cwd : Path.path)
        (id status : JS.value) (now : Z) (d : Db.db) (t : Fs.fs) :
  if Review.includes ["deleted"] status
  then Review.POST_v1 numericText id status now d = (Http.badRequest "Invalid data", d)
  else Review.POST numericText cwd id status now (d, t)
       = (fst (Review.POST_v1 numericText id status now d),
          (snd (Review.POST_v1 numericText id status now d), t)).
Proof.
  unfold Review.POST, Review.POST_v1.
  assert (E : Review.includes ["approved"; "rejected"; "deleted"] status
              = Review.includes ["approved"; "rejected"] status
                || Review.includes ["deleted"] status).
  { destruct status as [| | |s]; simpl; try reflexivity.
    now destruct (String.eqb s "approved"), (String.eqb s "rejected"), (String.eqb s "deleted"). }
  assert (N : Review.includes ["deleted"] status = true ->
              Review.includes ["approved"; "rejected"] status = false).
  { destruct status as [| | |s]; simpl; try discriminate. rewrite !orb_false_r.
    destruct (String.eqb_spec s "deleted") as [->|]; [reflexivity | discriminate]. }
  rewrite E. destruct (Review.includes ["deleted"] status).
  - rewrite N by reflexivity. now rewrite orb_true_r.
  - rewrite orb_false_r. destruct (negb _ || negb _); [reflexivity|]. cbn [fst snd].
    destruct (Db.updateStatus _ _ _ _ _); reflexivity.
Qed.

(** ** The nade list: maps, cache and shuffle *)

Lemma swap_Permutation {T : Type} (l : list T) (i j : nat) : JS.swap l i j ≡ₚ l.
Proof.
  unfold JS.swap. destruct (l !! i) as [x|] eqn:Hi; [|reflexivity].
  destruct (l !! j) as [y|] eqn:Hj; [|reflexivity].
  now apply Permutation_insert_swap.
Qed.

Lemma shuffleFrom_Permutation {T : Type} (next : Z -> Z) (i : nat) (s : Z) (l : list T) :
  Nades.shuffleFrom next i s l ≡ₚ l.
Proof.
  revert s l. induction i as [|i IH]; intros s l; simpl; [reflexivity|].
  rewrite IH. apply swap_Permutation.
Qed.

Lemma nextSeed_range (s : Z) : 0 <= Nades.nextSeed s < 2 ^ 31.
Proof.
  unfold Nades.nextSeed, JS.band. destruct (2 ^ 1024 <=? _); [lia|].
  change 2147483647 with (Z.ones 31). rewrite Z.land_ones by lia.
  apply Z.mod_pos_bound. lia.
Qed.

(** X15. The shuffle only rearranges: whatever the seed (negative ones
    and ones beyond 2^53 included), the result is a permutation of the
    input, so it has the same length and the same items as often; every
    seed after the first lies in [0, 2^31), and the index drawn at
    position [i] lies in [0, i], so no step reads or writes outside the
    array. *)
Theorem seededShuffle_permutes {T : Type} (arr : list T) (seed : Z) :
  Nades.seededShuffle arr seed ≡ₚ arr
  /\ length (Nades.seededShuffle arr seed) = length arr
  /\ forall (s : Z) (i : nat),
       0 <= Nades.nextSeed s < 2 ^ 31
       /\ (Z.to_nat (Z.rem (Nades.nextSeed s) (Z.of_nat i + 1)) <= i)%nat.
Proof.
  assert (P : Nades.seededShuffle arr seed ≡ₚ arr) by apply shuffleFrom_Permutation.
  split; [exact P|]. split; [now rewrite P|].
  intros s i. pose proof (nextSeed_range s) as R. split; [exact R|].
  pose proof (Z.rem_bound_pos (Nades.nextSeed s) (Z.of_nat i + 1)). lia.
Qed.

Lemma distinctFrom_spec (l seen : list string) (x : string) :
  In x (Nades.distinctFrom seen l) <-> In x l /\ ¬ In x seen.
Proof.
  revert seen. induction l as [|y l IH]; intros seen; simpl; [tauto|].
  destruct (existsb (String.eqb y) seen) eqn:E.
  - rewrite IH. apply existsb_exists in E as (z & Hz & Ez). apply String.eqb_eq in Ez. subst z.
    split; [tauto|]. intros [[<-|H] N]; [contradiction | tauto].
  - assert (Ny : ¬ In y seen).
    { intros H. apply not_true_iff_false in E. apply E, existsb_exists.
      exists y. split; [exact H | apply String.eqb_refl]. }
    simpl. rewrite IH. simpl. split.
    + intros [<-|[H N]]; [tauto|]. split; [tauto|]. intros N'. apply N. now right.
    + intros [[<-|H] N]; [now left|].
      destruct (string_dec y x) as [<-|Hne]; [now left|]. right. split; [exact H|].
      intros [?|?]; contradiction.
Qed.

Lemma distinctFrom_NoDup (l seen : list string) : List.NoDup (Nades.distinctFrom seen l).
Proof.
  revert seen. induction l as [|y l IH]; intros seen; simpl; [constructor|].
  destruct (existsb (String.eqb y) seen); [apply IH|].
  constructor; [|apply IH]. rewrite distinctFrom_spec. simpl. tauto.
Qed.

Lemma insertBy_Permutation (cmp : string -> string -> Z) (x : string) (l : list string) :
  Nades.insertBy cmp x l ≡ₚ x :: l.
Proof.
  induction l as [|y l IH]; simpl; [reflexivity|].
  destruct (cmp x y <=? 0); [reflexivity|]. rewrite IH. apply Permutation_swap.
Qed.

Lemma sortBy_Permutation (cmp : string -> string -> Z) (l : list string) :
  Nades.sortBy cmp l ≡ₚ l.
Proof.
  unfold Nades.sortBy. induction l as [|x l IH]; simpl; [reflexivity|].
  now rewrite insertBy_Permutation, IH.
Qed.

Lemma insertBy_sorted (x : string) (l : list string) :
  StronglySorted mapsInOrder l -> StronglySorted mapsInOrder (Nades.insertBy Nades.compareMaps x l).
Proof.
  unfold mapsInOrder. induction l as [|y l IH]; simpl; intros S.
  - repeat constructor.
  - apply StronglySorted_inv in S as [S F].
    destruct (Z.leb_spec (Nades.compareMaps x y) 0) as [L|L]; unfold Nades.compareMaps in L.
    + constructor; [now constructor|]. constructor; [lia|].
      eapply Forall_impl; [exact F|]. simpl. intros z Hz. lia.
    + constructor; [now apply IH|].
      rewrite insertBy_Permutation. constructor; [lia | exact F].
Qed.

Lemma indexFrom_spec (l : list string) (x : string) (i : Z) :
  (In x l -> i <= Nades.indexFrom i l x) /\ (¬ In x l -> Nades.indexFrom i l x = -1).
Proof.
  revert i. induction l as [|y l IH]; intros i; simpl; [tauto|].
  destruct (String.eqb_spec y x) as [->|Hne].
  - split; [lia | tauto].
  - destruct (IH (i + 1)) as [A B]. split.
    + intros [?|H]; [contradiction|]. specialize (A H). lia.
    + intros N. apply B. tauto.
Qed.

(** X17. [getMapsPresent] lists exactly the maps of the given nades, each
    once, ordered by their position in [MAPS_ORDER].  A map that is not
    in [MAPS_ORDER] has the position -1 there ([indexOf] never gives
    what [?? 99] replaces), so it comes before every listed map, not
    after them. *)
Theorem getMapsPresent_sorted (nades : list Nades.Nade) :
  (forall m, In m (Nades.getMapsPresent nades) <-> exists n, In n nades /\ Nades.map n = m)
  /\ List.NoDup (Nades.getMapsPresent nades)
  /\ StronglySorted mapsInOrder (Nades.getMapsPresent nades)
  /\ forall unknown known,
       ¬ In unknown Nades.MAPS_ORDER -> In known Nades.MAPS_ORDER ->
       Nades.compareMaps unknown known < 0.
Proof.
  unfold Nades.getMapsPresent.
  set (maps := Nades.distinctFrom [] (List.map Nades.map nades)).
  pose proof (sortBy_Permutation Nades.compareMaps maps) as P.
  split; [|split; [|split]].
  - intros m. rewrite <- !list_elem_of_In, P, list_elem_of_In. subst maps.
    rewrite distinctFrom_spec, in_map_iff. simpl. split.
    + intros [(n & E & H) _]. eauto.
    + intros (n & H & E). split; [eauto | tauto].
  - apply NoDup_ListNoDup. rewrite P. apply NoDup_ListNoDup, distinctFrom_NoDup.
  - unfold Nades.sortBy. induction maps as [|x l IH]; simpl; [constructor|].
    apply insertBy_sorted, IH. apply sortBy_Permutation.
  - intros unknown known U K. unfold Nades.compareMaps, Nades.indexOf.
    rewrite (proj2 (indexFrom_spec Nades.MAPS_ORDER unknown 0) U).
    pose proof (proj1 (indexFrom_spec Nades.MAPS_ORDER known 0) K). lia.
Qed.

(** The test file's input, and one with a map that [MAPS_ORDER] does not
    list. *)
Example getMapsPresent_test :
  Nades.getMapsPresent [nadeOn "nuke"; nadeOn "mirage"; nadeOn "dust2"; nadeOn "nuke"]
  = ["mirage"; "dust2"; "nuke"]
  /\ Nades.getMapsPresent [nadeOn "nuke"; nadeOn "train"; nadeOn "mirage"]
     = ["train"; "mirage"; "nuke"].
Proof. vm_compute. split; reflexivity. Qed.

(** X18. The list of nades is read once: after a load that succeeded,
    every later load returns that same list without looking at the file,
    whatever the file holds by then, until [invalidateCache] is called;
    the first load after that returns what the file holds.  A load that
    fails leaves the cache empty, so the next load reads the file again. *)
Theorem loadNades_cached (onDisk onDisk' : option (list Nades.Nade))
        (cache : option (list Nades.Nade)) :
  let first := Nades.loadNades onDisk cache in
  let second := Nades.loadNades onDisk' (snd first) in
  (forall nades, fst first = Some nades -> second = (Some nades, snd first))
  /\ (fst first = None -> cache = None /\ onDisk = None /\ second = (onDisk', onDisk'))
  /\ Nades.loadNades onDisk' (Nades.invalidateCache (snd first)) = (onDisk', onDisk').
Proof.
  destruct cache as [c|], onDisk as [l|], onDisk' as [l'|]; simpl;
    repeat split; try discriminate; intros nades [= <-]; reflexivity.
Qed.
